(** * start_server.py: the dev-server supervisor

    A shallow embedding of [start_server.py] (port probe, launcher, joint
    supervision loop, per-process output drain loop, port terminator and the
    command-line entry point) and the properties of its behaviour.

    Python's effects are made explicit:
    - the operating system is a record [World] holding what the script can
      observe (bind outcomes, process table, outputs of external commands)
      together with the log of every action the script performs;
    - exceptions are a result constructor [Raise]; the state reached before
      an exception is kept, as in Python;
    - time passes only in [time.sleep]: each call consumes one [tick] of the
      world's script, which says which children exit meanwhile and whether
      Ctrl+C is pressed.  When the script is exhausted the program is still
      sleeping: result [Running]. *)

From Stdlib Require Import ZArith List String Ascii Bool Lia DecimalString.
Import ListNotations.
Local Open Scope string_scope.
Local Open Scope Z_scope.

(** ** Python built-ins on ASCII text *)

Module Py.

(** [str.isspace] on one ASCII character: TAB, LF, VT, FF, CR, FS, GS, RS,
    US and SPACE. *)
Definition isspace (c : ascii) : bool :=
  let n := nat_of_ascii c in
  ((9 <=? n) && (n <=? 13))%nat || ((28 <=? n) && (n <=? 32))%nat.

(** [s.isascii()]: every character is below 128. *)
Fixpoint isascii (s : string) : bool :=
  match s with
  | EmptyString => true
  | String c s' => (nat_of_ascii c <? 128)%nat && isascii s'
  end.

(** [str.lower] on ASCII text: the letters A to Z are mapped, every other
    character is kept. *)
Definition lower_ascii (c : ascii) : ascii :=
  let n := nat_of_ascii c in
  if ((65 <=? n) && (n <=? 90))%nat then ascii_of_nat (n + 32) else c.

Fixpoint lower (s : string) : string :=
  match s with
  | EmptyString => EmptyString
  | String c s' => String (lower_ascii c) (lower s')
  end.

(** [sub in s]. *)
Fixpoint contains (sub s : string) : bool :=
  if String.prefix sub s then true
  else match s with
       | EmptyString => false
       | String _ s' => contains sub s'
       end.

(** [s.split(sep)] for a one-character separator: the pieces between the
    separators, empty pieces included. *)
Fixpoint split_on (sep : ascii) (s : string) : list string :=
  match s with
  | EmptyString => [EmptyString]
  | String c s' =>
      if Ascii.eqb c sep then EmptyString :: split_on sep s'
      else match split_on sep s' with
           | [] => [String c EmptyString]
           | p :: ps => String c p :: ps
           end
  end.

(** [s.split()]: the maximal runs of non-whitespace characters. *)
Fixpoint split_ws_aux (cur : string) (s : string) : list string :=
  let flush := match cur with EmptyString => [] | _ => [cur] end in
  match s with
  | EmptyString => flush
  | String c s' =>
      if isspace c then flush ++ split_ws_aux EmptyString s'
      else split_ws_aux (cur ++ String c EmptyString) s'
  end.

Definition split (s : string) : list string := split_ws_aux EmptyString s.

Fixpoint lstrip (s : string) : string :=
  match s with
  | String c s' => if isspace c then lstrip s' else s
  | EmptyString => EmptyString
  end.

Fixpoint rstrip (s : string) : string :=
  match s with
  | EmptyString => EmptyString
  | String c s' =>
      match rstrip s' with
      | EmptyString => if isspace c then EmptyString else String c EmptyString
      | r => String c r
      end
  end.

(** [s.strip()]. *)
Definition strip (s : string) : string := rstrip (lstrip s).

Definition digit_of (c : ascii) : option Z :=
  let n := nat_of_ascii c in
  if ((48 <=? n) && (n <=? 57))%nat then Some (Z.of_nat (n - 48)) else None.

(** The whitespace [int] skips around a number: TAB, LF, VT, FF, CR and
    SPACE (not FS, GS, RS, US, which [str.strip] does remove). *)
Definition isspace_c (c : ascii) : bool :=
  let n := nat_of_ascii c in
  ((9 <=? n) && (n <=? 13))%nat || (n =? 32)%nat.

Fixpoint skip_space (s : string) : string :=
  match s with
  | String c s' => if isspace_c c then skip_space s' else s
  | EmptyString => EmptyString
  end.

Fixpoint all_space (s : string) : bool :=
  match s with
  | EmptyString => true
  | String c s' => isspace_c c && all_space s'
  end.

(** The digits of an integer literal and what follows them: one or more
    decimal digits, with single underscores allowed between two digits,
    then only whitespace.  [after_digit] tells whether the previous
    character was a digit. *)
Fixpoint digits (after_digit : bool) (acc : Z) (s : string) : option Z :=
  match s with
  | EmptyString => if after_digit then Some acc else None
  | String c s' =>
      match digit_of c with
      | Some d => digits true (10 * acc + d) s'
      | None =>
          if Ascii.eqb c "_" && after_digit then digits false acc s'
          else if after_digit && all_space s then Some acc
          else None
      end
  end.

(** [int(s)] on ASCII text: whitespace, an optional sign, the digits,
    whitespace; [None] stands for [ValueError]. *)
Definition int (s : string) : option Z :=
  match skip_space s with
  | String "-" ds => option_map Z.opp (digits false 0 ds)
  | String "+" ds => digits false 0 ds
  | ds => digits false 0 ds
  end.

(** [str(n)] for an integer, as an f-string renders it. *)
Definition str (n : Z) : string := NilZero.string_of_int (Z.to_int n).

(** [xs[-1]] on a non-empty list. *)
Definition last_item (xs : list string) : string := List.last xs EmptyString.

End Py.

(** ** Exceptions, the operating system and the effect monad *)

Local Open Scope list_scope.

(** The [OSError] subclasses the script can meet. *)
Inductive oserror :=
| AddressInUse        (* EADDRINUSE: the port is bound by someone else *)
| PermissionError     (* EACCES / EPERM *)
| ProcessLookupError  (* ESRCH *)
| FileNotFoundError   (* ENOENT *)
| OtherOSError.

(** Python exceptions.  [KeyboardInterrupt] and [SystemExit] derive from
    [BaseException] only; the others derive from [Exception]. *)
Inductive exn :=
| OSError (e : oserror)
| ValueError
| OverflowError
| CalledProcessError (returncode : Z)
| OtherException
| KeyboardInterrupt
| SystemExit (code : Z).

Definition is_OSError (e : exn) : bool :=
  match e with OSError _ => true | _ => false end.

Definition is_Exception (e : exn) : bool :=
  match e with KeyboardInterrupt | SystemExit _ => false | _ => true end.

Inductive role := frontend | backend.

(** Port configurations. *)
Definition FRONTEND_PORT : Z := 5173.
Definition BACKEND_PORT : Z := 5000.

(** Process names to check. *)
Definition FRONTEND_PROCESS : string := "vite".
Definition BACKEND_PROCESS : string := "node".

(** What [subprocess.Popen] / [subprocess.run] is asked to execute: a shell
    command line ([shell=True]) or an argument vector. *)
Inductive command :=
| Shell (line : string)
| Argv (args : list string).

(** A child created by [Popen] is named by its index in the process
    table. *)
Definition handle := nat.
Bind Scope nat_scope with handle.

(** Every line the script prints, one constructor per [print] call of the
    source; the arguments are the values interpolated by the f-string. *)
Inductive message :=
(* start_frontend / start_backend *)
| MsgAlreadyRunning (r : role)          (* "X is already running on port P", error mark *)
| MsgCannotStartWhile (r other : role)  (* "Cannot start r while other is running." *)
| MsgPleaseStopFirst (other : role)
| MsgStarting (r : role)
| MsgWillBeAvailable (r : role)
| MsgErrorStarting (r : role) (e : exn)
| MsgStoppedByUser (r : role)
(* start_both *)
| MsgAlreadyRunningWarn (r : role)      (* "X is already running on port P", warning mark *)
| MsgBothAlreadyRunning
| MsgStartingBoth
| MsgPressCtrlC
| MsgProcessStarted (r : role)
| MsgProcessExited (r : role) (returncode : Z)
| MsgStoppingBoth
| MsgStopped (r : role)
| MsgErrorStartingServers (e : exn)
(* stop_server *)
| MsgUnknownServerType (server_type : string)
| MsgNotRunning (server_type : string) (port : Z)
| MsgStopping (server_type : string) (port : Z)
| MsgStoppedPid (server_type : string) (pid : string)
| MsgCouldNotStop (e : exn)
| MsgErrorStopping (server_type : string) (e : exn)
| MsgStopManually
| MsgCouldNotFind (port : Z)
(* check_status *)
| MsgStatusHeader
| MsgRule
| MsgStatus (r : role) (running : bool)
| MsgBothRunning
| MsgNoneRunning
| MsgOnlyOneRunning
(* print_usage *)
| MsgUsage
(* main *)
| MsgPleaseSpecify
| MsgUsageStart
| MsgOrRunBoth
| MsgUsageStop
| MsgErrUnknownServerType (server_type : string)
| MsgUseFrontendOrBackend
| MsgErrUnknownCommand (cmd : string).

Inductive stream := Stdout | Stderr.

(** The actions of the script, in the order performed. *)
Inductive event :=
| EPrint (s : stream) (m : message)
| EPopen (c : command) (h : handle)   (* a child was created *)
| ERun (c : command)                  (* subprocess.run(c) was called *)
| EThread (r : role) (h : handle)     (* a print_output thread was started *)
| ETerminate (h : handle)             (* process.terminate() *)
| EKill (h : handle)                  (* process.kill() *)
| EOsKill (pid : Z)                   (* os.kill(pid, SIGTERM) was called *)
| ESleep (seconds : Z).

(** What happens while the script sleeps once: the listed children exit
    with the given return codes, and Ctrl+C may be pressed. *)
Record tick := Tick {
  exits : list (handle * Z);
  interrupt : bool
}.

(** Outcome of [subprocess.run]. *)
Inductive run_outcome :=
| Completed (returncode : Z) (stdout : string)
| RunRaises (e : exn)
| RunBlocks.                            (* still running when observation ends *)

(** Where the probe of a port fails: [socket.socket(...)] raises at the
    head of the [with] statement, or [s.bind(...)] raises inside it. *)
Inductive probe_failure :=
| AtSocket (e : exn)
| AtBind (e : exn).

Record World := mkWorld {
  win32 : bool;                         (* sys.platform == "win32" *)
  argv : list string;                   (* sys.argv *)
  bind : Z -> option probe_failure;     (* probing port p: None = the socket is
                                           created and s.bind(('localhost', p))
                                           succeeds *)
  which_npm : option string;            (* shutil.which("npm") *)
  popen : command -> option exn;        (* None = the child is created *)
  run_result : command -> run_outcome;
  os_kill : Z -> option exn;            (* os.kill(pid, SIGTERM): None = delivered *)
  table : list (option Z);              (* returncode of each child, None = alive *)
  ticks : list tick;
  processes : list (role * handle);     (* start_both's local list [processes] *)
  events : list event
}.

Inductive result (A : Type) :=
| Ok (a : A)
| Raise (e : exn)
| Running.
Arguments Ok {A} a.
Arguments Raise {A} e.
Arguments Running {A}.

Definition M (A : Type) : Type := World -> result A * World.

Definition ret {A} (a : A) : M A := fun w => (Ok a, w).

Definition bindM {A B} (m : M A) (k : A -> M B) : M B :=
  fun w =>
    match m w with
    | (Ok a, w') => k a w'
    | (Raise e, w') => (Raise e, w')
    | (Running, w') => (Running, w')
    end.

Definition raise {A} (e : exn) : M A := fun w => (Raise e, w).

(** [try: body / except <catches>: handler]. *)
Definition try_except {A} (body : M A) (catches : exn -> bool)
    (handler : exn -> M A) : M A :=
  fun w =>
    match body w with
    | (Raise e, w') => if catches e then handler e w' else (Raise e, w')
    | r => r
    end.

Declare Scope py_scope.
Delimit Scope py_scope with py.
Notation "x <- m ;; k" := (bindM m (fun x => k))
  (at level 61, m at next level, right associativity) : py_scope.
Notation "m ;; k" := (bindM m (fun _ => k))
  (at level 61, right associativity) : py_scope.
Local Open Scope py_scope.

Definition get {A} (f : World -> A) : M A := fun w => (Ok (f w), w).

Definition set_table (t : list (option Z)) (w : World) : World :=
  mkWorld (win32 w) (argv w) (bind w) (which_npm w) (popen w) (run_result w)
          (os_kill w) t (ticks w) (processes w) (events w).

Definition set_ticks (t : list tick) (w : World) : World :=
  mkWorld (win32 w) (argv w) (bind w) (which_npm w) (popen w) (run_result w)
          (os_kill w) (table w) t (processes w) (events w).

Definition set_processes (p : list (role * handle)) (w : World) : World :=
  mkWorld (win32 w) (argv w) (bind w) (which_npm w) (popen w) (run_result w)
          (os_kill w) (table w) (ticks w) p (events w).

Definition set_events (e : list event) (w : World) : World :=
  mkWorld (win32 w) (argv w) (bind w) (which_npm w) (popen w) (run_result w)
          (os_kill w) (table w) (ticks w) (processes w) e.

Definition emit (e : event) : M unit :=
  fun w => (Ok tt, set_events (events w ++ [e]) w).

(** [print(m)] and [print(m, file=sys.stderr)]. *)
Definition print (m : message) : M unit := emit (EPrint Stdout m).

(** [sys.exit(code)]. *)
Definition sys_exit {A} (code : Z) : M A := raise (SystemExit code).

(** A child that is still alive takes the return code the tick gives it. *)
Fixpoint mark_exit (h : handle) (code : Z) (t : list (option Z))
  : list (option Z) :=
  match t, h with
  | [], _ => []
  | None :: t', O => Some code :: t'
  | s :: t', O => s :: t'
  | s :: t', S h' => s :: mark_exit h' code t'
  end.

Definition apply_exits (xs : list (handle * Z)) (t : list (option Z))
  : list (option Z) :=
  fold_left (fun t x => mark_exit (fst x) (snd x) t) xs t.

(** [time.sleep(seconds)]. *)
Definition sleep (seconds : Z) : M unit :=
  fun w =>
    let w1 := set_events (events w ++ [ESleep seconds]) w in
    match ticks w with
    | [] => (Running, w1)
    | t :: rest =>
        let w2 := set_table (apply_exits (exits t) (table w1))
                            (set_ticks rest w1) in
        if interrupt t then (Raise KeyboardInterrupt, w2) else (Ok tt, w2)
    end.

(** [subprocess.Popen(c, stdout=PIPE, stderr=PIPE, text=True,
    encoding='utf-8', errors='replace', bufsize=1)]. *)
Definition Popen (c : command) : M handle :=
  fun w =>
    match popen w c with
    | Some e => (Raise e, w)
    | None =>
        let h := List.length (table w) in
        (Ok h, set_events (events w ++ [EPopen c h])
                          (set_table (table w ++ [None]) w))
    end.

(** [process.poll()]: the return code, [None] while the child is alive. *)
Definition poll (h : handle) : M (option Z) :=
  get (fun w => nth h (table w) None).

Definition terminate (h : handle) : M unit := emit (ETerminate h).
Definition kill (h : handle) : M unit := emit (EKill h).

(** [subprocess.run(c, check=check)]: the captured standard output. *)
Definition subprocess_run (c : command) (check : bool)
  : M (Z * string) :=
  emit (ERun c) ;;
  o <- get (fun w => run_result w c) ;;
  match o with
  | Completed rc out =>
      if check && negb (rc =? 0) then raise (CalledProcessError rc)
      else ret (rc, out)
  | RunRaises e => raise e
  | RunBlocks => fun w => (Running, w)
  end.

(** ** The script *)

(** [socket.socket(socket.AF_INET, socket.SOCK_STREAM)], the context
    expression of the [with] statement of the probe of [port]. *)
Definition socket_socket (port : Z) : M unit :=
  fun w => match bind w port with
           | Some (AtSocket e) => (Raise e, w)
           | _ => (Ok tt, w)
           end.

(** [s.bind(('localhost', port))] on that socket, which is released on
    leaving the [with] block. *)
Definition socket_bind (port : Z) : M unit :=
  fun w => match bind w port with
           | Some (AtBind e) => (Raise e, w)
           | _ => (Ok tt, w)
           end.

(** Check if a port is currently in use.  The socket is created outside
    the [try]: only what [bind] raises can be caught. *)
Definition is_port_in_use (port : Z) : M bool :=
  socket_socket port ;;
  try_except (socket_bind port ;; ret false)
             is_OSError
             (fun _ => ret true).

(** Check if a process is running by checking the port. *)
Definition check_process_running (process_name : string) (port : Z) : M bool :=
  is_port_in_use port.

(** Truth value of an optional string ([None] and the empty string are
    false). *)
Definition truthy (o : option string) : bool :=
  match o with
  | Some (String _ _) => true
  | _ => false
  end.

(** Run an npm command with proper Windows/Unix handling. *)
Definition run_npm_command (command : string) (shell : option bool)
  : M handle :=
  win <- get win32 ;;
  let shell := match shell with None => win | Some b => b end in
  if shell then
    if win then Popen (Shell ("npm " ++ command)%string)
    else Popen (Shell ("npm " ++ command)%string)
  else
    npm_path <- get which_npm ;;
    if truthy npm_path then
      Popen (Argv (match npm_path with Some p => [p] | None => [] end
                   ++ Py.split command))
    else Popen (Shell ("npm " ++ command)%string).

(** Start the frontend development server. *)
Definition start_frontend (check_backend : bool) : M bool :=
  own <- check_process_running FRONTEND_PROCESS FRONTEND_PORT ;;
  if own then
    print (MsgAlreadyRunning frontend) ;;
    ret false
  else
    other <- (if check_backend
              then check_process_running BACKEND_PROCESS BACKEND_PORT
              else ret false) ;;
    if other then
      print (MsgAlreadyRunning backend) ;;
      print (MsgCannotStartWhile frontend backend) ;;
      print (MsgPleaseStopFirst backend) ;;
      ret false
    else
      print (MsgStarting frontend) ;;
      print (MsgWillBeAvailable frontend) ;;
      try_except
        (win <- get win32 ;;
         (if win
          then subprocess_run (Shell "npm run dev") true
          else subprocess_run (Argv ["npm"; "run"; "dev"]) true) ;;
         ret true)
        (fun e => match e with
                  | CalledProcessError _ | KeyboardInterrupt => true
                  | _ => false
                  end)
        (fun e => match e with
                  | KeyboardInterrupt =>
                      print (MsgStoppedByUser frontend) ;; ret false
                  | _ => print (MsgErrorStarting frontend e) ;; ret false
                  end).

(** Start the backend server. *)
Definition start_backend (check_frontend : bool) : M bool :=
  own <- check_process_running BACKEND_PROCESS BACKEND_PORT ;;
  if own then
    print (MsgAlreadyRunning backend) ;;
    ret false
  else
    other <- (if check_frontend
              then check_process_running FRONTEND_PROCESS FRONTEND_PORT
              else ret false) ;;
    if other then
      print (MsgAlreadyRunning frontend) ;;
      print (MsgCannotStartWhile backend frontend) ;;
      print (MsgPleaseStopFirst frontend) ;;
      ret false
    else
      print (MsgStarting backend) ;;
      print (MsgWillBeAvailable backend) ;;
      try_except
        (win <- get win32 ;;
         (if win
          then subprocess_run (Shell "npm run server") true
          else subprocess_run (Argv ["npm"; "run"; "server"]) true) ;;
         ret true)
        (fun e => match e with
                  | CalledProcessError _ | KeyboardInterrupt => true
                  | _ => false
                  end)
        (fun e => match e with
                  | KeyboardInterrupt =>
                      print (MsgStoppedByUser backend) ;; ret false
                  | _ => print (MsgErrorStarting backend e) ;; ret false
                  end).

(** [for _, p in ps: if p.poll() is None: p.terminate()]. *)
Fixpoint terminate_alive (ps : list (role * handle)) : M unit :=
  match ps with
  | [] => ret tt
  | (_, h) :: rest =>
      rc <- poll h ;;
      match rc with
      | None => terminate h
      | Some _ => ret tt
      end ;;
      terminate_alive rest
  end.

(** The same loop in the Ctrl+C handler, which also reports each stop. *)
Fixpoint terminate_and_report (ps : list (role * handle)) : M unit :=
  match ps with
  | [] => ret tt
  | (name, h) :: rest =>
      rc <- poll h ;;
      match rc with
      | None => terminate h ;; print (MsgStopped name)
      | Some _ => ret tt
      end ;;
      terminate_and_report rest
  end.

(** [for _, p in ps: if p.poll() is None: p.kill()]. *)
Fixpoint kill_alive (ps : list (role * handle)) : M unit :=
  match ps with
  | [] => ret tt
  | (_, h) :: rest =>
      rc <- poll h ;;
      match rc with
      | None => kill h
      | Some _ => ret tt
      end ;;
      kill_alive rest
  end.

(** One pass of "check if any process has died" over [ps]; [all] is the
    whole list, walked again by the inner loop.  [Some b]: the function
    returned [b]. *)
Fixpoint check_died (all ps : list (role * handle)) : M (option bool) :=
  match ps with
  | [] => ret None
  | (name, h) :: rest =>
      rc <- poll h ;;
      match rc with
      | Some code =>
          print (MsgProcessExited name code) ;;
          terminate_alive all ;;
          ret (Some false)
      | None => check_died all rest
      end
  end.

(** [while True: time.sleep(1); ...]. *)
Fixpoint monitor (fuel : nat) (ps : list (role * handle)) : M bool :=
  match fuel with
  | O => fun w => (Running, w)
  | S fuel' =>
      sleep 1 ;;
      r <- check_died ps ps ;;
      match r with
      | Some b => ret b
      | None => monitor fuel' ps
      end
  end.

(** Starting the [print_output] threads, one per managed process. *)
Fixpoint start_threads (ps : list (role * handle)) : M unit :=
  match ps with
  | [] => ret tt
  | (name, h) :: rest => emit (EThread name h) ;; start_threads rest
  end.

Definition append_process (p : role * handle) : M unit :=
  fun w => (Ok tt, set_processes (processes w ++ [p]) w).

(** The [try] block of [start_both]. *)
Definition start_both_body (frontend_running backend_running : bool)
  : M bool :=
  (if negb backend_running then
     backend_process <- run_npm_command "run server" None ;;
     append_process (backend, backend_process) ;;
     print (MsgProcessStarted backend)
   else ret tt) ;;
  (if negb frontend_running then
     frontend_process <- run_npm_command "run dev" None ;;
     append_process (frontend, frontend_process) ;;
     print (MsgProcessStarted frontend)
   else ret tt) ;;
  sleep 2 ;;
  ps <- get processes ;;
  start_threads ps ;;
  fuel <- get (fun w => S (List.length (ticks w))) ;;
  monitor fuel ps.

(** Start both frontend and backend servers concurrently. *)
Definition start_both : M bool :=
  frontend_running <- check_process_running FRONTEND_PROCESS FRONTEND_PORT ;;
  backend_running <- check_process_running BACKEND_PROCESS BACKEND_PORT ;;
  (if frontend_running then print (MsgAlreadyRunningWarn frontend) else ret tt) ;;
  (if backend_running then print (MsgAlreadyRunningWarn backend) else ret tt) ;;
  if frontend_running && backend_running then
    print MsgBothAlreadyRunning ;;
    ret true
  else
    print MsgStartingBoth ;;
    print (MsgWillBeAvailable frontend) ;;
    print (MsgWillBeAvailable backend) ;;
    print MsgPressCtrlC ;;
    (fun w => (Ok tt, set_processes [] w)) ;;
    try_except
      (start_both_body frontend_running backend_running)
      (fun e => match e with
                | KeyboardInterrupt => true
                | _ => is_Exception e
                end)
      (fun e => match e with
                | KeyboardInterrupt =>
                    print MsgStoppingBoth ;;
                    ps <- get processes ;;
                    terminate_and_report ps ;;
                    sleep 1 ;;
                    kill_alive ps ;;
                    ret true
                | _ =>
                    print (MsgErrorStartingServers e) ;;
                    ps <- get processes ;;
                    terminate_alive ps ;;
                    ret false
                end).

(** [os.kill(pid, signal.SIGTERM)]. *)
Definition os_kill_sigterm (pid : Z) : M unit :=
  emit (EOsKill pid) ;;
  o <- get (fun w => os_kill w pid) ;;
  match o with
  | None => ret tt
  | Some e => raise e
  end.

Definition LF : ascii := ascii_of_nat 10.

(** The Windows loop over the lines of [netstat -ano].  [Some b]: the
    function returned [b] from inside the loop. *)
Fixpoint scan_netstat (server_type : string) (port : Z)
    (lines : list string) : M (option bool) :=
  match lines with
  | [] => ret None
  | line :: rest =>
      if Py.contains (":" ++ Py.str port)%string line
         && Py.contains "LISTENING" line
      then
        let parts := Py.split line in
        if (0 <? List.length parts)%nat then
          let pid := Py.last_item parts in
          r <- try_except
                 (match Py.int pid with
                  | None => raise ValueError
                  | Some n =>
                      os_kill_sigterm n ;;
                      print (MsgStoppedPid server_type pid) ;;
                      sleep 1 ;;
                      ret (Some true)
                  end)
                 (fun e => match e with
                           | ValueError
                           | OSError ProcessLookupError
                           | OSError PermissionError => true
                           | _ => false
                           end)
                 (fun e => print (MsgCouldNotStop e) ;; ret None) ;;
          match r with
          | Some b => ret (Some b)
          | None => scan_netstat server_type port rest
          end
        else scan_netstat server_type port rest
      else scan_netstat server_type port rest
  end.

(** The [try] block of [stop_server]. *)
Definition find_and_signal (server_type : string) (port : Z)
  : M (option bool) :=
  win <- get win32 ;;
  if win then
    res <- subprocess_run (Argv ["netstat"; "-ano"]) true ;;
    scan_netstat server_type port (Py.split_on LF (snd res))
  else
    res <- subprocess_run (Argv ["lsof"; "-ti"; (":" ++ Py.str port)%string])
                          false ;;
    let out := Py.strip (snd res) in
    if (fst res =? 0) && truthy (Some out) then
      match Py.int out with
      | None => raise ValueError
      | Some pid =>
          os_kill_sigterm pid ;;
          print (MsgStoppedPid server_type (Py.str pid)) ;;
          sleep 1 ;;
          ret (Some true)
      end
    else ret None.

(** Stop a running server by finding and killing the process. *)
Definition stop_server (server_type : string) : M bool :=
  match
    (if String.eqb server_type "frontend"
     then Some (FRONTEND_PORT, FRONTEND_PROCESS)
     else if String.eqb server_type "backend"
     then Some (BACKEND_PORT, BACKEND_PROCESS)
     else None)
  with
  | None =>
      print (MsgUnknownServerType server_type) ;;
      ret false
  | Some (port, process_name) =>
      running <- check_process_running process_name port ;;
      if negb running then
        print (MsgNotRunning server_type port) ;;
        ret false
      else
        print (MsgStopping server_type port) ;;
        r <- try_except
               (find_and_signal server_type port)
               is_Exception
               (fun e =>
                  print (MsgErrorStopping server_type e) ;;
                  print MsgStopManually ;;
                  ret (Some false)) ;;
        match r with
        | Some b => ret b
        | None =>
            print (MsgCouldNotFind port) ;;
            ret false
        end
  end.

(** Check the status of both servers. *)
Definition check_status : M unit :=
  frontend_running <- check_process_running FRONTEND_PROCESS FRONTEND_PORT ;;
  backend_running <- check_process_running BACKEND_PROCESS BACKEND_PORT ;;
  print MsgStatusHeader ;;
  print MsgRule ;;
  print (MsgStatus frontend frontend_running) ;;
  print (MsgStatus backend backend_running) ;;
  print MsgRule ;;
  if frontend_running && backend_running then print MsgBothRunning
  else if negb frontend_running && negb backend_running
  then print MsgNoneRunning
  else print MsgOnlyOneRunning.

(** Print usage information. *)
Definition print_usage : M unit := print MsgUsage.

(** [sys.argv[i]]; the script reads it only after checking the length. *)
Definition argv_at (i : nat) : M string :=
  get (fun w => nth i (argv w) EmptyString).

(** Main function to handle command-line arguments. *)
Definition main : M unit :=
  n <- get (fun w => List.length (argv w)) ;;
  (if (n <? 2)%nat then
     success <- start_both ;;
     sys_exit (if success then 0 else 1)
   else ret tt) ;;
  arg1 <- argv_at 1 ;;
  let command := Py.lower arg1 in
  if String.eqb command "help" || String.eqb command "-h"
     || String.eqb command "--help"
  then
    print_usage ;;
    sys_exit 0
  else if String.eqb command "status" then
    check_status
  else if String.eqb command "start" then
    (if (n <? 3)%nat then
       print MsgPleaseSpecify ;;
       print MsgUsageStart ;;
       print MsgOrRunBoth ;;
       sys_exit 1
     else ret tt) ;;
    arg2 <- argv_at 2 ;;
    let server_type := Py.lower arg2 in
    if String.eqb server_type "frontend" then
      success <- start_frontend true ;;
      sys_exit (if success then 0 else 1)
    else if String.eqb server_type "backend" then
      success <- start_backend true ;;
      sys_exit (if success then 0 else 1)
    else
      print (MsgErrUnknownServerType server_type) ;;
      print MsgUseFrontendOrBackend ;;
      sys_exit 1
  else if String.eqb command "stop" then
    (if (n <? 3)%nat then
       print MsgPleaseSpecify ;;
       print MsgUsageStop ;;
       sys_exit 1
     else ret tt) ;;
    arg2 <- argv_at 2 ;;
    let server_type := Py.lower arg2 in
    stop_server server_type ;;
    ret tt
  else
    print (MsgErrUnknownCommand command) ;;
    print_usage ;;
    sys_exit 1.

(** How the interpreter process ends: [main] returning normally is exit
    status 0, [sys.exit(c)] is exit status [c], any other exception is
    reported with a traceback. *)
Inductive outcome :=
| Exit (code : Z)
| Traceback (e : exn)
| StillRunning.

Definition run (w : World) : outcome * World :=
  match main w with
  | (Ok _, w') => (Exit 0, w')
  | (Raise (SystemExit c), w') => (Exit c, w')
  | (Raise e, w') => (Traceback e, w')
  | (Running, w') => (StillRunning, w')
  end.

Definition exit_status (w : World) : outcome := fst (run w).
Definition trace (w : World) : list event := events (snd (run w)).

(** What was written to one of the script's own output streams. *)
Fixpoint printed_on (s : stream) (es : list event) : list message :=
  match es with
  | [] => []
  | EPrint Stdout m :: rest =>
      match s with
      | Stdout => m :: printed_on s rest
      | Stderr => printed_on s rest
      end
  | EPrint Stderr m :: rest =>
      match s with
      | Stderr => m :: printed_on s rest
      | Stdout => printed_on s rest
      end
  | _ :: rest => printed_on s rest
  end.

(** ** The drain loop of [print_output]

    [print_output] runs in a thread of its own, next to the two reader
    threads that feed [stdout_queue] and [stderr_queue]; its prints are not
    part of the main thread's [events].  The readers' activity is a script:
    for every iteration of the loop, what they have put on the two queues by
    the time each blocking [get(timeout=0.1)] gives up, and what
    [process.poll()] answers.  A queue item is a line, or [None], the
    end-of-stream sentinel a reader puts last. *)

Module Drain.

Definition item := option string.

Record round := Round {
  put_by_stdout_get : list item * list item;
    (* put on (stdout_queue, stderr_queue) until the stdout get returns *)
  put_by_stderr_get : list item * list item;
    (* ... and from then until the stderr get returns *)
  returncode : option Z
    (* process.poll() at the end of the iteration *)
}.

Record state := State {
  stdout_queue : list item;
  stderr_queue : list item;
  printed : list (stream * string)   (* lines printed, oldest first *)
}.

Definition put (arrivals : list item * list item) (st : state) : state :=
  State (stdout_queue st ++ fst arrivals)
        (stderr_queue st ++ snd arrivals)
        (printed st).

(** Why the loop was left. *)
Inductive exit :=
| StdoutSentinel      (* [break] after [None] from stdout_queue *)
| StderrSentinel      (* [break] after [None] from stderr_queue *)
| ProcessEnded        (* [break] after poll() gave a return code *)
| StillLooping.       (* the readers' script ended first *)

(** [if line: print(...)]: [None] and the empty line are skipped. *)
Definition print_if_line (s : stream) (x : item)
    (acc : list (stream * string)) : list (stream * string) :=
  match x with
  | Some (String _ _ as line) => acc ++ [(s, line)]
  | _ => acc
  end.

(** [while True: q.get_nowait() ...] until [queue.Empty]. *)
Definition drain_remaining (s : stream) (q : list item)
    (acc : list (stream * string)) : list (stream * string) :=
  fold_left (fun acc x => print_if_line s x acc) q acc.

Fixpoint loop (rounds : list round) (st : state) : exit * state :=
  match rounds with
  | [] => (StillLooping, st)
  | r :: rest =>
      let st1 := put (put_by_stdout_get r) st in
      match stdout_queue st1 with
      | None :: q => (StdoutSentinel, State q (stderr_queue st1) (printed st1))
      | qout =>
          let st2 :=
            match qout with
            | Some line :: q =>
                State q (stderr_queue st1) (printed st1 ++ [(Stdout, line)])
            | _ => st1
            end in
          let st3 := put (put_by_stderr_get r) st2 in
          match stderr_queue st3 with
          | None :: q =>
              (StderrSentinel, State (stdout_queue st3) q (printed st3))
          | qerr =>
              let st4 :=
                match qerr with
                | Some line :: q =>
                    State (stdout_queue st3) q
                          (printed st3 ++ [(Stderr, line)])
                | _ => st3
                end in
              match returncode r with
              | Some _ =>
                  (ProcessEnded,
                   State [] []
                     (drain_remaining Stderr (stderr_queue st4)
                        (drain_remaining Stdout (stdout_queue st4)
                           (printed st4))))
              | None => loop rest st4
              end
          end
      end
  end.

(** The loop started on empty queues. *)
Definition print_output (rounds : list round) : exit * state :=
  loop rounds (State [] [] []).

(** The lines still waiting in a queue. *)
Definition undelivered (q : list item) : list string :=
  flat_map (fun x => match x with Some l => [l] | None => [] end) q.

End Drain.

(** ** Vocabulary of the statements *)

(** A sleep during which nothing happens. *)
Definition quiet : tick := Tick [] false.

(** The command [run_npm_command(command)] hands to [Popen] in world [w]. *)
Definition npm_command (w : World) (script : string) : command :=
  if win32 w then Shell ("npm " ++ script)%string
  else match which_npm w with
       | Some (String _ _ as p) => Argv (p :: Py.split script)
       | _ => Shell ("npm " ++ script)%string
       end.

(** [isBound(port)]: the probe answers true. *)
Definition is_bound (w : World) (port : Z) : Prop :=
  fst (is_port_in_use port w) = Ok true.

(** An individual launch request for a role, as [main] dispatches it. *)
Definition launch (r : role) (check_other : bool) : M bool :=
  match r with
  | frontend => start_frontend check_other
  | backend => start_backend check_other
  end.

(** The cross-role refusal of an individual launch. *)
Definition is_conflicting_role (e : event) : bool :=
  match e with
  | EPrint _ (MsgCannotStartWhile _ _) => true
  | EPrint _ (MsgPleaseStopFirst _) => true
  | _ => false
  end.

Definition is_kill (e : event) : bool :=
  match e with EKill _ => true | _ => false end.

Definition is_terminate (e : event) : bool :=
  match e with ETerminate _ => true | _ => false end.

(** Every event [m] adds to the log satisfies [P]. *)
Definition emits {A} (P : event -> bool) (m : M A) : Prop :=
  forall w, exists es,
    events (snd (m w)) = events w ++ es /\ forallb P es = true.

(** [process.poll() is None] according to the process table. *)
Definition alive (t : list (option Z)) (h : handle) : bool :=
  match nth h t None with
  | None => true
  | Some _ => false
  end.

(** Every managed process is alive. *)
Definition all_alive (t : list (option Z)) (ps : list (role * handle))
  : bool :=
  forallb (fun p => alive t (snd p)) ps.

(** The log of the loops over [processes]. *)
Definition terminate_events (t : list (option Z)) (ps : list (role * handle))
  : list event :=
  flat_map (fun p => if alive t (snd p) then [ETerminate (snd p)] else []) ps.

Definition stop_events (t : list (option Z)) (ps : list (role * handle))
  : list event :=
  flat_map (fun p => if alive t (snd p)
                     then [ETerminate (snd p); EPrint Stdout (MsgStopped (fst p))]
                     else []) ps.

Definition kill_events (t : list (option Z)) (ps : list (role * handle))
  : list event :=
  flat_map (fun p => if alive t (snd p) then [EKill (snd p)] else []) ps.

Definition thread_events (ps : list (role * handle)) : list event :=
  map (fun p => EThread (fst p) (snd p)) ps.

(** The handlers of [start_both] and the part of its [try] block that
    follows the launches, named for the statements below. *)
Definition on_interrupt : M bool :=
  print MsgStoppingBoth ;;
  ps <- get processes ;;
  terminate_and_report ps ;;
  sleep 1 ;;
  kill_alive ps ;;
  ret true.

Definition on_exception (e : exn) : M bool :=
  print (MsgErrorStartingServers e) ;;
  ps <- get processes ;;
  terminate_alive ps ;;
  ret false.

Definition watch : M bool :=
  sleep 2 ;;
  ps <- get processes ;;
  start_threads ps ;;
  fuel <- get (fun w => S (List.length (ticks w))) ;;
  monitor fuel ps.

(** What [start_both] prints before its [try] block. *)
Definition banner (frontend_running backend_running : bool) : list event :=
  (if frontend_running
   then [EPrint Stdout (MsgAlreadyRunningWarn frontend)] else [])
  ++ (if backend_running
      then [EPrint Stdout (MsgAlreadyRunningWarn backend)] else [])
  ++ [EPrint Stdout MsgStartingBoth;
      EPrint Stdout (MsgWillBeAvailable frontend);
      EPrint Stdout (MsgWillBeAvailable backend);
      EPrint Stdout MsgPressCtrlC].

(** The commands [main] understands. *)
Definition is_help (command : string) : bool :=
  String.eqb command "help" || String.eqb command "-h"
  || String.eqb command "--help".

Definition is_known (command : string) : bool :=
  is_help command || String.eqb command "status"
  || String.eqb command "start" || String.eqb command "stop".

    (* Popen raises [e] for role [r] *)




(** ** Concrete worlds *)

(** A Unix machine on which nothing listens, every command succeeds and
    every signal is delivered; the script is started as [argv]. *)
Definition idle_world (args : list string) (script : list tick) : World :=
  mkWorld false args (fun _ => None) (Some "/usr/bin/npm") (fun _ => None)
          (fun _ => Completed 0 EmptyString) (fun _ => None) [] script [] [].

(** The same machine with the given outcome of binding each port. *)
Definition with_bind (b : Z -> option probe_failure) (w : World) : World :=
  mkWorld (win32 w) (argv w) b (which_npm w) (popen w) (run_result w)
          (os_kill w) (table w) (ticks w) (processes w) (events w).

Definition with_popen (p : command -> option exn) (w : World) : World :=
  mkWorld (win32 w) (argv w) (bind w) (which_npm w) p (run_result w)
          (os_kill w) (table w) (ticks w) (processes w) (events w).

(** Binding port 80 is denied to an unprivileged user although nothing
    listens there. *)
Definition denied_world : World :=
  with_bind (fun p => if p =? 80 then Some (AtBind (OSError PermissionError))
                       else None)
            (idle_world ["start_server.py"; "status"] []).

(** Something listens on the given ports. *)
Definition listening (ports : list Z) (p : Z) : option probe_failure :=
  if existsb (Z.eqb p) ports then Some (AtBind (OSError AddressInUse))
  else None.

(** [start backend] is requested while both ports are taken. *)
Definition both_bound_start_backend : World :=
  with_bind (listening [5000; 5173])
            (idle_world ["start_server.py"; "start"; "backend"] []).

(** The script is started without arguments while both ports are taken. *)
Definition both_bound_no_args : World :=
  with_bind (listening [5000; 5173]) (idle_world ["start_server.py"] []).

Definition with_run (r : command -> run_outcome) (w : World) : World :=
  mkWorld (win32 w) (argv w) (bind w) (which_npm w) (popen w) r
          (os_kill w) (table w) (ticks w) (processes w) (events w).

Definition with_os_kill (k : Z -> option exn) (w : World) : World :=
  mkWorld (win32 w) (argv w) (bind w) (which_npm w) (popen w) (run_result w)
          k (table w) (ticks w) (processes w) (events w).

(** [stop frontend] while nothing listens on port 5173. *)
Definition stop_nothing : World :=
  idle_world ["start_server.py"; "stop"; "frontend"] [quiet].

(** [stop frontend] while process 4242 listens on port 5173 ([lsof] prints
    its pid) and the signal is delivered. *)
Definition stop_found : World :=
  with_run (fun _ => Completed 0 ("4242" ++ String LF EmptyString)%string)
    (with_bind (listening [5173]) stop_nothing).

(** The same, but the listener belongs to someone else: [os.kill] raises
    [PermissionError]. *)
Definition stop_denied : World :=
  with_os_kill (fun _ => Some (OSError PermissionError)) stop_found.



(** An unknown command. *)
Definition unknown_command : World :=
  idle_world ["start_server.py"; "restart"] [].

Definition help_command : World :=
  idle_world ["start_server.py"; "--help"] [].

(** Both ports free, no arguments; the backend dies with return code 1
    during the first sleep of the liveness loop, the frontend stays alive
    and two more seconds are left unused. *)
Definition backend_crashes : World :=
  idle_world ["start_server.py"]
             [quiet; Tick [(0%nat, 1)] false; quiet; quiet].

(** The child has closed its standard output but is alive and still
    writes to standard error: the stdout reader has put the sentinel, the
    stderr reader a first line; more lines follow later. *)
Definition stdout_closed_first : list Drain.round :=
  [Drain.Round ([None], [Some "warning: retrying"]) ([], []) None;
   Drain.Round ([], [Some "error: giving up"]) ([], []) None;
   Drain.Round ([], [None]) ([], []) (Some 1)].

(** The child fails at once: it writes two lines to standard error and
    exits, so both readers have finished before the first [get]. *)
Definition fails_at_once : list Drain.round :=
  [Drain.Round ([None], [Some "npm ERR! missing script"; Some "npm ERR! code 1"; None])
               ([], []) (Some 1)].

(** No arguments, the backend's port taken by someone else, three quiet
    seconds. *)
Definition backend_bound_no_args : World :=
  with_bind (listening [5000])
            (idle_world ["start_server.py"] [quiet; quiet; quiet]).

(** No arguments, both ports free; Ctrl+C in the third sleep; during the
    second of grace the frontend (child 1) exits on the terminate request,
    the backend (child 0) does not. *)
Definition ctrl_c_world : World :=
  idle_world ["start_server.py"]
             [quiet; quiet; Tick [] true; Tick [(1%nat, -15)] false].

(** ** Further vocabulary: individual launch, status, port terminator *)

Definition other_role (r : role) : role :=
  match r with frontend => backend | backend => frontend end.

Definition role_port (r : role) : Z :=
  match r with frontend => FRONTEND_PORT | backend => BACKEND_PORT end.

(** The word that selects a role on the command line. *)
Definition role_word (r : role) : string :=
  match r with frontend => "frontend" | backend => "backend" end.

(** The command [start_frontend] / [start_backend] hands to
    [subprocess.run] in world [w]. *)
Definition foreground_command (w : World) (r : role) : command :=
  match r with
  | frontend => if win32 w then Shell "npm run dev"
                else Argv ["npm"; "run"; "dev"]
  | backend => if win32 w then Shell "npm run server"
               else Argv ["npm"; "run"; "server"]
  end.

(** The probe of [port] meets no failure: the socket is created and the
    bind succeeds. *)
Definition port_free (w : World) (port : Z) : bool :=
  match bind w port with None => true | Some _ => false end.

(** What a failed probe raises, and whether the probe's [except OSError]
    catches it. *)
Definition raised (f : probe_failure) : exn :=
  match f with AtSocket e | AtBind e => e end.

Definition caught (f : probe_failure) : bool :=
  match f with AtBind e => is_OSError e | AtSocket _ => false end.

(** Every probe answers: the socket is created, and binding it either
    succeeds or fails with an [OSError]. *)
Definition probes_answer (w : World) : Prop :=
  forall port f, bind w port = Some f -> caught f = true.

(** The last line of [check_status]. *)
Definition status_summary (frontend_running backend_running : bool)
  : message :=
  if frontend_running && backend_running then MsgBothRunning
  else if negb frontend_running && negb backend_running then MsgNoneRunning
  else MsgOnlyOneRunning.

(** [status] is asked for while only the backend's port is taken. *)
Definition backend_bound_status : World :=
  with_bind (listening [5000]) (idle_world ["start_server.py"; "status"] []).

(** The listing commands of [stop_server]. *)
Definition lsof_command (port : Z) : command :=
  Argv ["lsof"; "-ti"; (":" ++ Py.str port)%string].

Definition netstat_command : command := Argv ["netstat"; "-ano"].

(** A line of [netstat -ano] that [stop_server] takes for the listener on
    [port]. *)
Definition listening_line (port : Z) (line : string) : bool :=
  Py.contains (":" ++ Py.str port)%string line
  && Py.contains "LISTENING" line.

(** [stop backend] on Unix while two processes listen on port 5000. *)
Definition stop_two_listeners : World :=
  with_run (fun _ => Completed 0
                       ("4242" ++ String LF ("4243" ++ String LF EmptyString))%string)
    (with_bind (listening [5000])
       (idle_world ["start_server.py"; "stop"; "backend"] [quiet])).

(** [stop backend] on Windows while [netstat] shows no listener on port
    5000, only an established connection from it. *)
Definition stop_windows_no_listener : World :=
  mkWorld true ["start_server.py"; "stop"; "backend"] (listening [5000])
          None (fun _ => None)
          (fun _ => Completed 0
             ("  TCP    127.0.0.1:5000    127.0.0.1:61000    ESTABLISHED    77"
              ++ String LF
                "  TCP    0.0.0.0:5173    0.0.0.0:0    LISTENING    4242")%string)
          (fun _ => None) [] [quiet] [] [].

(** The first managed process, in launch order, that the process table
    shows dead, with its return code. *)
Fixpoint first_dead (t : list (option Z)) (ps : list (role * handle))
  : option (role * Z) :=
  match ps with
  | [] => None
  | (name, h) :: rest =>
      match nth h t None with
      | Some code => Some (name, code)
      | None => first_dead t rest
      end
  end.

(** A joint start in world [w] with both ports free and both launches
    succeeding: the managed processes, the process table after the
    launches and what has been logged by then. *)
Definition managed (w : World) : list (role * handle) :=
  [(backend, List.length (table w)); (frontend, S (List.length (table w)))].

Definition launched_table (w : World) : list (option Z) :=
  table w ++ [None; None].

Definition launch_log (w : World) : list event :=
  [EPrint Stdout MsgStartingBoth;
   EPrint Stdout (MsgWillBeAvailable frontend);
   EPrint Stdout (MsgWillBeAvailable backend);
   EPrint Stdout MsgPressCtrlC;
   EPopen (npm_command w "run server") (List.length (table w));
   EPrint Stdout (MsgProcessStarted backend);
   EPopen (npm_command w "run dev") (S (List.length (table w)));
   EPrint Stdout (MsgProcessStarted frontend)].

(** Both children die in the same second. *)
Definition both_crash : World :=
  idle_world ["start_server.py"]
             [quiet; quiet; Tick [(1%nat, 3); (0%nat, 1)] false; quiet].

(** The frontend cannot be launched. *)
Definition frontend_unlaunchable : World :=
  with_popen (fun c => match c with
                       | Argv [_; _; "dev"%string] => Some (OSError PermissionError)
                       | _ => None
                       end)
             (idle_world ["start_server.py"] [quiet]).

(** Ctrl+C is pressed a second time during the second of grace. *)
Definition double_ctrl_c : World :=
  idle_world ["start_server.py"] [quiet; Tick [] true; Tick [] true].



(** The backend dies and Ctrl+C is pressed within the same second. *)
Definition crash_then_ctrl_c : World :=
  idle_world ["start_server.py"] [quiet; Tick [(0%nat, 1)] true; quiet].

(** The npm script of a role in the joint start, and the test that an
    event is the launch of that role: [Popen] of the shell line
    [npm <script>] or of [<path of npm>, <script words>]. *)
Definition launch_script (r : role) : string :=
  match r with frontend => "run dev" | backend => "run server" end.

Definition launches (r : role) (e : event) : bool :=
  match e with
  | EPopen (Shell line) _ =>
      String.eqb line ("npm " ++ launch_script r)%string
  | EPopen (Argv (_ :: args)) _ =>
      if list_eq_dec string_dec args (Py.split (launch_script r))
      then true else false
  | _ => false
  end.

(** *** Reading the drain loop per stream *)

Definition stream_eqb (a b : stream) : bool :=
  match a, b with
  | Stdout, Stdout | Stderr, Stderr => true
  | _, _ => false
  end.

(** The lines printed for stream [s], oldest first. *)
Definition lines_of (s : stream) (p : list (stream * string)) : list string :=
  flat_map (fun x => if stream_eqb (fst x) s then [snd x] else []) p.

Definition queue_of (s : stream) (st : Drain.state) : list Drain.item :=
  match s with
  | Stdout => Drain.stdout_queue st
  | Stderr => Drain.stderr_queue st
  end.

Definition put_on (s : stream) (a : list Drain.item * list Drain.item)
  : list Drain.item :=
  match s with Stdout => fst a | Stderr => snd a end.

(** Everything the reader of stream [s] puts on its queue during
    [rounds]. *)
Definition arrivals (s : stream) (rounds : list Drain.round)
  : list Drain.item :=
  flat_map (fun r => put_on s (Drain.put_by_stdout_get r)
                     ++ put_on s (Drain.put_by_stderr_get r)) rounds.

(** The readers put a line on the queue only [if line]: no item is the
    empty line. *)
Definition no_empty_line (q : list Drain.item) : bool :=
  forallb (fun x => match x with Some EmptyString => false | _ => true end) q.

(** No item is the end-of-stream sentinel. *)
Definition no_sentinel (q : list Drain.item) : bool :=
  forallb (fun x => match x with None => false | Some _ => true end) q.

(** A child that writes to both streams and then exits. *)
Definition chatty_rounds : list Drain.round :=
  [Drain.Round ([Some "ready"; Some "listening"], [Some "deprecated"])
               ([], []) None;
   Drain.Round ([], [Some "warn"]) ([Some "request"], []) None;
   Drain.Round ([Some "bye"], []) ([], [Some "exit 1"]) (Some 1)].

(** [p] is a prefix of [l]. *)
Definition prefix_of {A} (p l : list A) : Prop := exists later, l = p ++ later.

(** For stream [s]: the lines already printed, then those waiting on the
    queue, then those the reader will put during [rounds]. *)
Definition backlog (s : stream) (st : Drain.state)
    (rounds : list Drain.round) : list string :=
  lines_of s (Drain.printed st)
  ++ Drain.undelivered (queue_of s st)
  ++ Drain.undelivered (arrivals s rounds).

(** One [get] on a queue: whether the sentinel was taken, the queue left
    and the lines printed so far. *)
Definition get_line (s : stream) (q : list Drain.item)
    (pr : list (stream * string))
  : bool * list Drain.item * list (stream * string) :=
  match q with
  | None :: q' => (true, q', pr)
  | Some l :: q' => (false, q', pr ++ [(s, l)])
  | [] => (false, [], pr)
  end.

(** One iteration of [Drain.loop]: the exit taken, if any, and the state
    after it. *)
Definition one_round (r : Drain.round) (st : Drain.state)
  : option Drain.exit * Drain.state :=
  let '(end1, qo, pr1) :=
    get_line Stdout (Drain.stdout_queue st ++ fst (Drain.put_by_stdout_get r))
             (Drain.printed st) in
  let qe0 := Drain.stderr_queue st ++ snd (Drain.put_by_stdout_get r) in
  if end1 then (Some Drain.StdoutSentinel, Drain.State qo qe0 pr1)
  else
    let '(end2, qe, pr2) :=
      get_line Stderr (qe0 ++ snd (Drain.put_by_stderr_get r)) pr1 in
    let qo2 := qo ++ fst (Drain.put_by_stderr_get r) in
    if end2 then (Some Drain.StderrSentinel, Drain.State qo2 qe pr2)
    else
      match Drain.returncode r with
      | Some _ =>
          (Some Drain.ProcessEnded,
           Drain.State [] []
             (Drain.drain_remaining Stderr qe
                (Drain.drain_remaining Stdout qo2 pr2)))
      | None => (None, Drain.State qo2 qe pr2)
      end.

(** [stop backend] on Windows: [netstat] lists an established connection
    and then the listener, process 4242. *)
Definition stop_windows_listener : World :=
  mkWorld true ["start_server.py"; "stop"; "backend"] (listening [5000])
          None (fun _ => None)
          (fun _ => Completed 0
             ("  TCP    127.0.0.1:5000    127.0.0.1:61000    ESTABLISHED    77"
              ++ String LF
                "  TCP    0.0.0.0:5000    0.0.0.0:0    LISTENING    4242")%string)
          (fun _ => None) [] [quiet] [] [].

(** No arguments, the frontend's port taken by someone else, two quiet
    seconds. *)
Definition frontend_bound_no_args : World :=
  with_bind (listening [5173])
            (idle_world ["start_server.py"] [quiet; quiet]).

(** Normalising a world built by successive updates. *)
Ltac wsimpl :=
  unfold set_events, set_table, set_ticks, set_processes;
  cbn [win32 argv bind which_npm popen run_result os_kill table ticks
       processes events].

Ltac world_eq :=
  wsimpl; rewrite <- ?app_assoc; cbn [app]; reflexivity.

Ltac wsimpl_in H :=
  unfold set_events, set_table, set_ticks, set_processes in H;
  cbn [win32 argv bind which_npm popen run_result os_kill table ticks
       processes events] in H.

(** ** Port probe *)

Lemma is_port_in_use_eq (port : Z) (w : World) :
  is_port_in_use port w =
  (match bind w port with
   | None => Ok false
   | Some f => if caught f then Ok true else Raise (raised f)
   end, w).
Proof.
  unfold is_port_in_use, try_except, bindM, socket_socket, socket_bind, ret.
  destruct (bind w port) as [[e|e]|] eqn:B; cbv beta iota; rewrite ?B;
    cbn [caught raised]; [|destruct (is_OSError e)|]; reflexivity.
Qed.

(** C4, as the code has it: for every port, the probe answers false when
    the socket is created and the bind succeeds, and true when the bind
    fails with any [OSError] (address in use and permission denial alike),
    so it never raises for 'in use'.  What propagates is an exception of
    [bind] that is not an [OSError], and every exception raised while the
    socket is created, an [OSError] included: the socket is created
    outside the [try].  The probe always returns or raises, and leaves no
    trace in the world. *)
Theorem is_port_in_use_spec (port : Z) (w : World) :
  snd (is_port_in_use port w) = w /\
  (fst (is_port_in_use port w) = Ok false <-> bind w port = None) /\
  (fst (is_port_in_use port w) = Ok true <->
     exists e, bind w port = Some (AtBind (OSError e))) /\
  (forall x, fst (is_port_in_use port w) = Raise x <->
     bind w port = Some (AtSocket x) \/
     (bind w port = Some (AtBind x) /\ is_OSError x = false)) /\
  fst (is_port_in_use port w) <> Running.
Proof.
  rewrite is_port_in_use_eq; cbn [fst snd].
  split; [reflexivity|].
  destruct (bind w port) as [[e|e]|] eqn:B; cbn [caught raised].
  - split; [split; intro H; discriminate H|].
    split; [split; [intro H; discriminate H|intros [e' H]; discriminate H]|].
    split; [|intro H; discriminate H].
    intro x; split.
    + intro H. injection H as <-. now left.
    + intros [H | [H _]]; [now injection H as <-|discriminate H].
  - split; [destruct (is_OSError e); split; intro H; discriminate H|].
    split.
    { destruct e; cbn [is_OSError]; split;
        try (intro H; discriminate H);
        try (intros [e' H]; discriminate H);
        eauto. }
    split; [|destruct (is_OSError e); intro H; discriminate H].
    intro x; split.
    + destruct (is_OSError e) eqn:O; intro H; [discriminate H|].
      injection H as <-. right. now split.
    + intros [H | [H O]]; [discriminate H|].
      injection H as <-. now rewrite O.
  - split; [split; reflexivity|].
    split; [split; [intro H; discriminate H|intros [e' H]; discriminate H]|].
    split; [|intro H; discriminate H].
    intro x; split; [intro H; discriminate H|].
    intros [H | [H _]]; discriminate H.
Qed.

(** C4, as the claim states it, fails: where the bind is refused with
    permission denial the probe answers true, exactly as it does for a
    port that is in use. *)
Lemma probe_conflates_permission_denial :
  bind denied_world 80 = Some (AtBind (OSError PermissionError)) /\
  fst (is_port_in_use 80 denied_world) = Ok true /\
  fst (is_port_in_use 80 denied_world) =
  fst (is_port_in_use 80 (with_bind (listening [80]) denied_world)).
Proof. repeat split. Qed.

(** When no socket can be created the probe raises the [OSError] instead
    of answering, and [status] ends with a traceback before it has
    printed anything. *)
Example probe_raises_without_socket :
  let w := with_bind (fun _ => Some (AtSocket (OSError OtherOSError)))
                     (idle_world ["start_server.py"; "status"] []) in
  fst (is_port_in_use FRONTEND_PORT w) = Raise (OSError OtherOSError) /\
  run w = (Traceback (OSError OtherOSError), w).
Proof. split; reflexivity. Qed.

Lemma is_bound_probe (w : World) (port : Z) :
  is_bound w port -> is_port_in_use port w = (Ok true, w).
Proof.
  unfold is_bound. rewrite is_port_in_use_eq. cbn [fst].
  intro H. now rewrite H.
Qed.

Lemma free_probe (w : World) (port : Z) :
  bind w port = None -> is_port_in_use port w = (Ok false, w).
Proof. intro H. now rewrite is_port_in_use_eq, H. Qed.

(** ** Individual launch *)

(** C6: for every role R, an individual launch request made while R's own
    port is bound returns False after printing the "already running"
    refusal for R, and does nothing else: no child is created, no command
    is run. *)
Theorem launch_refused_when_bound (r : role) (check_other : bool) (w : World) :
  is_bound w (match r with
              | frontend => FRONTEND_PORT
              | backend => BACKEND_PORT
              end) ->
  launch r check_other w =
  (Ok false, set_events (events w ++ [EPrint Stdout (MsgAlreadyRunning r)]) w).
Proof.
  intro B. apply is_bound_probe in B.
  destruct r; unfold launch, start_frontend, start_backend,
    check_process_running, bindM; rewrite B; reflexivity.
Qed.

Lemma launch_refused_when_bound_witness :
  launch backend true both_bound_start_backend =
  (Ok false,
   set_events (events both_bound_start_backend
               ++ [EPrint Stdout (MsgAlreadyRunning backend)])
              both_bound_start_backend).
Proof.
  apply (launch_refused_when_bound backend true both_bound_start_backend).
  reflexivity.
Defined.

(** ** Joint start with both ports taken *)

Lemma start_both_both_bound (w : World) :
  is_bound w FRONTEND_PORT -> is_bound w BACKEND_PORT ->
  start_both w =
  (Ok true,
   set_events (events w ++ [EPrint Stdout (MsgAlreadyRunningWarn frontend);
                            EPrint Stdout (MsgAlreadyRunningWarn backend);
                            EPrint Stdout MsgBothAlreadyRunning]) w).
Proof.
  intros F B. apply is_bound_probe in F. apply is_bound_probe in B.
  unfold start_both, check_process_running, bindM at 1.
  rewrite F. unfold bindM at 1. rewrite B.
  unfold bindM, print, emit, ret. cbn. f_equal. world_eq.
Qed.

Lemma main_no_args (w : World) :
  (List.length (argv w) < 2)%nat ->
  main w =
  match start_both w with
  | (Ok success, w') => (Raise (SystemExit (if success then 0 else 1)), w')
  | (Raise e, w') => (Raise e, w')
  | (Running, w') => (Running, w')
  end.
Proof.
  intro L. apply Nat.ltb_lt in L.
  unfold main, bindM at 1, get. rewrite L.
  unfold bindM at 1. unfold bindM at 1.
  destruct (start_both w) as [[success| e |] w']; reflexivity.
Qed.

(** C10: started without arguments while both roles' ports are bound, the
    script prints the two warnings and "both servers are already running",
    creates no child, does not sleep (so no Ctrl+C is awaited) and exits
    with status 0. *)
Theorem no_args_both_bound_exits_zero (w : World) :
  (List.length (argv w) < 2)%nat ->
  is_bound w FRONTEND_PORT -> is_bound w BACKEND_PORT ->
  exit_status w = Exit 0 /\
  trace w = events w ++ [EPrint Stdout (MsgAlreadyRunningWarn frontend);
                         EPrint Stdout (MsgAlreadyRunningWarn backend);
                         EPrint Stdout MsgBothAlreadyRunning] /\
  table (snd (run w)) = table w /\
  ticks (snd (run w)) = ticks w.
Proof.
  intros L F B. unfold exit_status, trace, run.
  rewrite (main_no_args w L), (start_both_both_bound w F B).
  cbn. repeat split.
Qed.

Lemma no_args_both_bound_exits_zero_witness :
  exit_status both_bound_no_args = Exit 0 /\
  trace both_bound_no_args =
    events both_bound_no_args
    ++ [EPrint Stdout (MsgAlreadyRunningWarn frontend);
        EPrint Stdout (MsgAlreadyRunningWarn backend);
        EPrint Stdout MsgBothAlreadyRunning] /\
  table (snd (run both_bound_no_args)) = table both_bound_no_args /\
  ticks (snd (run both_bound_no_args)) = ticks both_bound_no_args.
Proof.
  apply (no_args_both_bound_exits_zero both_bound_no_args).
  - cbn. lia.
  - reflexivity.
  - reflexivity.
Defined.

(** ** The entry point *)

Lemma main_command (w : World) (prog c : string) (rest : list string) :
  argv w = prog :: c :: rest ->
  main w =
  (let command := Py.lower c in
   let n := List.length (argv w) in
   if String.eqb command "help" || String.eqb command "-h"
      || String.eqb command "--help"
   then print_usage ;; sys_exit 0
   else if String.eqb command "status" then check_status
   else if String.eqb command "start" then
     (if (n <? 3)%nat then
        print MsgPleaseSpecify ;; print MsgUsageStart ;;
        print MsgOrRunBoth ;; sys_exit 1
      else ret tt) ;;
     arg2 <- argv_at 2 ;;
     let server_type := Py.lower arg2 in
     if String.eqb server_type "frontend" then
       success <- start_frontend true ;;
       sys_exit (if success then 0 else 1)
     else if String.eqb server_type "backend" then
       success <- start_backend true ;;
       sys_exit (if success then 0 else 1)
     else
       print (MsgErrUnknownServerType server_type) ;;
       print MsgUseFrontendOrBackend ;;
       sys_exit 1
   else if String.eqb command "stop" then
     (if (n <? 3)%nat then
        print MsgPleaseSpecify ;; print MsgUsageStop ;; sys_exit 1
      else ret tt) ;;
     arg2 <- argv_at 2 ;;
     let server_type := Py.lower arg2 in
     stop_server server_type ;; ret tt
   else
     print (MsgErrUnknownCommand command) ;; print_usage ;; sys_exit 1) w.
Proof.
  intro A. unfold main, bindM at 1, get. cbn beta iota.
  rewrite A. cbn [List.length Nat.ltb Nat.leb].
  unfold bindM at 1, ret at 1. unfold bindM at 1, argv_at at 1, get.
  rewrite A. reflexivity.
Qed.

(** C9, as the code has it: [help] (also [-h] and [--help], in any letter
    case) prints the usage text on standard output and exits with status
    0; a command that is none of help, status, start, stop prints an error
    line and then the usage text, both on standard output, and exits with
    status 1. *)
Theorem help_and_unknown_command (w : World) (prog c : string)
    (rest : list string) :
  argv w = prog :: c :: rest ->
  (is_help (Py.lower c) = true ->
   run w = (Exit 0, set_events (events w ++ [EPrint Stdout MsgUsage]) w)) /\
  (is_known (Py.lower c) = false ->
   run w = (Exit 1,
            set_events (events w
                        ++ [EPrint Stdout (MsgErrUnknownCommand (Py.lower c));
                            EPrint Stdout MsgUsage]) w)).
Proof.
  intro A. unfold run. rewrite (main_command w prog c rest A).
  cbn zeta. set (cmd := Py.lower c). unfold is_known, is_help. split.
  - intros ->.
    unfold bindM, print_usage, print, emit, sys_exit, raise. reflexivity.
  - intro K.
    apply orb_false_iff in K as [K Kstop].
    apply orb_false_iff in K as [K Kstart].
    apply orb_false_iff in K as [K Kstatus].
    rewrite K, Kstatus, Kstart, Kstop.
    unfold bindM, print_usage, print, emit, sys_exit, raise. cbn.
    f_equal. world_eq.
Qed.

Lemma help_and_unknown_command_witness :
  run help_command =
    (Exit 0, set_events (events help_command ++ [EPrint Stdout MsgUsage])
                        help_command) /\
  run unknown_command =
    (Exit 1,
     set_events (events unknown_command
                 ++ [EPrint Stdout (MsgErrUnknownCommand "restart");
                     EPrint Stdout MsgUsage]) unknown_command).
Proof.
  split.
  - apply (proj1 (help_and_unknown_command help_command
                    "start_server.py" "--help" [] eq_refl)).
    reflexivity.
  - apply (proj2 (help_and_unknown_command unknown_command
                    "start_server.py" "restart" [] eq_refl)).
    reflexivity.
Defined.

(** C9, as the claim states it, fails: for an unknown command the usage
    text goes to standard output and nothing is written to standard
    error. *)
Lemma unknown_command_usage_not_on_stderr :
  exit_status unknown_command = Exit 1 /\
  printed_on Stderr (trace unknown_command) = [] /\
  printed_on Stdout (trace unknown_command) =
    [MsgErrUnknownCommand "restart"; MsgUsage].
Proof. repeat split. Qed.

(** C1: the exit status of [stop frontend] is 0 whether nothing listened
    on the port ([stop_server] returns False), the listener was found and
    signalled ([stop_server] returns True), or the signal could not be
    delivered ([stop_server] returns False): [main] drops the value. *)
Theorem stop_exit_status_ignores_result :
  (fst (stop_server "frontend" stop_nothing) = Ok false /\
   exit_status stop_nothing = Exit 0 /\
   trace stop_nothing = [EPrint Stdout (MsgNotRunning "frontend" 5173)]) /\
  (fst (stop_server "frontend" stop_found) = Ok true /\
   exit_status stop_found = Exit 0 /\
   trace stop_found =
     [EPrint Stdout (MsgStopping "frontend" 5173);
      ERun (Argv ["lsof"; "-ti"; ":5173"]);
      EOsKill 4242;
      EPrint Stdout (MsgStoppedPid "frontend" "4242");
      ESleep 1]) /\
  (fst (stop_server "frontend" stop_denied) = Ok false /\
   exit_status stop_denied = Exit 0 /\
   trace stop_denied =
     [EPrint Stdout (MsgStopping "frontend" 5173);
      ERun (Argv ["lsof"; "-ti"; ":5173"]);
      EOsKill 4242;
      EPrint Stdout (MsgErrorStopping "frontend" (OSError PermissionError));
      EPrint Stdout MsgStopManually]).
Proof. repeat split. Qed.

(** ** What a computation can add to the log *)

Section Emits.

Variable P : event -> bool.

Lemma emits_ret {A} (a : A) : emits P (ret a).
Proof. intro w. exists []. cbn. now rewrite app_nil_r. Qed.

Lemma emits_raise {A} (e : exn) : emits P (@raise A e).
Proof. intro w. exists []. cbn. now rewrite app_nil_r. Qed.

Lemma emits_get {A} (f : World -> A) : emits P (get f).
Proof. intro w. exists []. cbn. now rewrite app_nil_r. Qed.

(** A step that leaves the log alone. *)
Lemma emits_silent {A} (m : M A) :
  (forall w, events (snd (m w)) = events w) -> emits P m.
Proof. intros H w. exists []. rewrite H. now rewrite app_nil_r. Qed.

Lemma emits_emit (e : event) : P e = true -> emits P (emit e).
Proof. intros H w. exists [e]. cbn. now rewrite H. Qed.

Lemma emits_bind {A B} (m : M A) (k : A -> M B) :
  emits P m -> (forall a, emits P (k a)) -> emits P (bindM m k).
Proof.
  intros Hm Hk w. unfold bindM.
  destruct (Hm w) as [es [E F]].
  destruct (m w) as [[a | e |] w1]; cbn [snd] in E.
  - destruct (Hk a w1) as [es' [E' F']].
    exists (es ++ es'). rewrite E', E, app_assoc, forallb_app, F, F'.
    now split.
  - exists es. now split.
  - exists es. now split.
Qed.

Lemma emits_try {A} (body : M A) (catches : exn -> bool)
    (handler : exn -> M A) :
  emits P body -> (forall e, emits P (handler e)) ->
  emits P (try_except body catches handler).
Proof.
  intros Hb Hh w. unfold try_except.
  destruct (Hb w) as [es [E F]].
  destruct (body w) as [[a | e |] w1]; cbn [snd] in E.
  - exists es. now split.
  - destruct (catches e).
    + destruct (Hh e w1) as [es' [E' F']].
      exists (es ++ es'). rewrite E', E, app_assoc, forallb_app, F, F'.
      now split.
    + exists es. now split.
  - exists es. now split.
Qed.

Lemma emits_sleep (s : Z) : P (ESleep s) = true -> emits P (sleep s).
Proof.
  intros H w. exists [ESleep s]. unfold sleep.
  destruct (ticks w) as [|t rest]; [|destruct (interrupt t)];
    cbn; now rewrite H.
Qed.

Lemma emits_Popen (c : command) :
  (forall h, P (EPopen c h) = true) -> emits P (Popen c).
Proof.
  intros H w. unfold Popen. destruct (popen w c).
  - exists []. cbn. now rewrite app_nil_r.
  - exists [EPopen c (List.length (table w))]. cbn. now rewrite H.
Qed.

Lemma emits_poll (h : handle) : emits P (poll h).
Proof. apply emits_get. Qed.

Lemma emits_is_port_in_use (port : Z) : emits P (is_port_in_use port).
Proof.
  apply emits_silent. intro w. now rewrite is_port_in_use_eq.
Qed.

Lemma emits_subprocess_run (c : command) (check : bool) :
  P (ERun c) = true -> emits P (subprocess_run c check).
Proof.
  intro H. unfold subprocess_run.
  apply emits_bind; [now apply emits_emit|intros _].
  apply emits_bind; [apply emits_get|intros [rc out | e |]].
  - destruct (check && negb (rc =? 0)); [apply emits_raise|apply emits_ret].
  - apply emits_raise.
  - apply emits_silent. reflexivity.
Qed.

End Emits.

(** The launcher logs the creation of the child and nothing else. *)
Lemma emits_run_npm_command (P : event -> bool) (script : string)
    (shell : option bool) :
  (forall c h, P (EPopen c h) = true) ->
  emits P (run_npm_command script shell).
Proof.
  intro H. unfold run_npm_command.
  apply emits_bind; [apply emits_get|intros win].
  destruct (match shell with Some b => b | None => win end).
  - destruct win; apply emits_Popen; intro; apply H.
  - apply emits_bind; [apply emits_get|intros p].
    destruct (truthy p); apply emits_Popen; intro; apply H.
Qed.

Lemma run_npm_command_eq (script : string) (w : World) :
  run_npm_command script None w = Popen (npm_command w script) w.
Proof.
  unfold run_npm_command, npm_command, bindM, get.
  destruct (win32 w); [reflexivity|].
  destruct (which_npm w) as [[|c p]|]; reflexivity.
Qed.

Section Loops.

Variable P : event -> bool.

Lemma emits_terminate_alive (ps : list (role * handle)) :
  (forall h, P (ETerminate h) = true) -> emits P (terminate_alive ps).
Proof.
  intro H. induction ps as [|[name h] rest IH]; cbn [terminate_alive].
  - apply emits_ret.
  - apply emits_bind; [apply emits_poll|intros rc].
    apply emits_bind; [|intros _; exact IH].
    destruct rc; [apply emits_ret|apply emits_emit, H].
Qed.

Lemma emits_terminate_and_report (ps : list (role * handle)) :
  (forall h, P (ETerminate h) = true) ->
  (forall r, P (EPrint Stdout (MsgStopped r)) = true) ->
  emits P (terminate_and_report ps).
Proof.
  intros H H'. induction ps as [|[name h] rest IH];
    cbn [terminate_and_report].
  - apply emits_ret.
  - apply emits_bind; [apply emits_poll|intros rc].
    apply emits_bind; [|intros _; exact IH].
    destruct rc; [apply emits_ret|].
    apply emits_bind; [apply emits_emit, H|intros _; apply emits_emit, H'].
Qed.

Lemma emits_kill_alive (ps : list (role * handle)) :
  (forall h, P (EKill h) = true) -> emits P (kill_alive ps).
Proof.
  intro H. induction ps as [|[name h] rest IH]; cbn [kill_alive].
  - apply emits_ret.
  - apply emits_bind; [apply emits_poll|intros rc].
    apply emits_bind; [|intros _; exact IH].
    destruct rc; [apply emits_ret|apply emits_emit, H].
Qed.

Lemma emits_check_died (all ps : list (role * handle)) :
  (forall h, P (ETerminate h) = true) ->
  (forall r c, P (EPrint Stdout (MsgProcessExited r c)) = true) ->
  emits P (check_died all ps).
Proof.
  intros H H'. induction ps as [|[name h] rest IH]; cbn [check_died].
  - apply emits_ret.
  - apply emits_bind; [apply emits_poll|intros [code|]]; [|exact IH].
    apply emits_bind; [apply emits_emit, H'|intros _].
    apply emits_bind; [now apply emits_terminate_alive|intros _].
    apply emits_ret.
Qed.

Lemma emits_monitor (fuel : nat) (ps : list (role * handle)) :
  (forall h, P (ETerminate h) = true) ->
  (forall r c, P (EPrint Stdout (MsgProcessExited r c)) = true) ->
  (forall s, P (ESleep s) = true) ->
  emits P (monitor fuel ps).
Proof.
  intros H H' H''. induction fuel as [|fuel IH]; cbn [monitor].
  - apply emits_silent. reflexivity.
  - apply emits_bind; [apply emits_sleep, H''|intros _].
    apply emits_bind; [now apply emits_check_died|intros [b|]].
    + apply emits_ret.
    + exact IH.
Qed.

Lemma emits_start_threads (ps : list (role * handle)) :
  (forall r h, P (EThread r h) = true) -> emits P (start_threads ps).
Proof.
  intro H. induction ps as [|[name h] rest IH]; cbn [start_threads].
  - apply emits_ret.
  - apply emits_bind; [apply emits_emit, H|intros _; exact IH].
Qed.

End Loops.

Ltac emits_step :=
  first
    [ apply emits_ret
    | apply emits_raise
    | apply emits_get
    | apply emits_poll
    | apply emits_is_port_in_use
    | apply emits_emit; reflexivity
    | apply emits_sleep; reflexivity
    | apply emits_run_npm_command; reflexivity
    | apply emits_start_threads; reflexivity
    | apply emits_terminate_alive; reflexivity
    | apply emits_terminate_and_report; reflexivity
    | apply emits_kill_alive; reflexivity
    | apply emits_monitor; reflexivity
    | apply emits_silent; reflexivity
    | apply emits_bind; [|intro]
    | apply emits_try; [|intro] ].

(** ** The joint session *)

(** Whatever happens in the [try] block of [start_both], and so on the
    path taken when a child is found dead, no forced kill is issued. *)
Lemma start_both_body_never_kills (frontend_running backend_running : bool) :
  emits (fun e => negb (is_kill e))
        (start_both_body frontend_running backend_running).
Proof.
  unfold start_both_body, append_process, print.
  destruct frontend_running, backend_running; cbn [negb];
    repeat emits_step.
Qed.

(** The joint start never prints the cross-role refusal. *)
Lemma start_both_never_conflicts :
  emits (fun e => negb (is_conflicting_role e)) start_both.
Proof.
  unfold start_both, check_process_running.
  apply emits_bind; [emits_step|intros f].
  apply emits_bind; [emits_step|intros b].
  unfold start_both_body, append_process, print.
  destruct f, b; cbn [negb andb];
    repeat emits_step; destruct e; repeat emits_step.
Qed.

(** C3: both roles are started, the backend dies with return code 1 and the
    frontend stays alive.  The supervisor reports the death, sends the
    frontend one terminate request and exits at once with status 1: it
    does not sleep again (the remaining ticks are unused) and never issues
    a forced kill, although the frontend is still alive at the end. *)
Theorem cascade_never_kills :
  exit_status backend_crashes = Exit 1 /\
  trace backend_crashes =
    [EPrint Stdout MsgStartingBoth;
     EPrint Stdout (MsgWillBeAvailable frontend);
     EPrint Stdout (MsgWillBeAvailable backend);
     EPrint Stdout MsgPressCtrlC;
     EPopen (Argv ["/usr/bin/npm"; "run"; "server"]) 0;
     EPrint Stdout (MsgProcessStarted backend);
     EPopen (Argv ["/usr/bin/npm"; "run"; "dev"]) 1;
     EPrint Stdout (MsgProcessStarted frontend);
     ESleep 2;
     EThread backend 0;
     EThread frontend 1;
     ESleep 1;
     EPrint Stdout (MsgProcessExited backend 1);
     ETerminate 1] /\
  table (snd (run backend_crashes)) = [Some 1; None] /\
  ticks (snd (run backend_crashes)) = [quiet; quiet] /\
  existsb is_kill (trace backend_crashes) = false.
Proof. repeat split. Qed.

(** ** The drain loop *)

(** The sentinel on [stdout_queue] ends the loop whatever [stderr_queue]
    holds and whether or not the child is alive: the stderr queue is not
    looked at and [poll] is not called. *)
Lemma drain_stops_at_stdout_sentinel (r : Drain.round)
    (rest : list Drain.round) (st : Drain.state) (q : list Drain.item) :
  Drain.stdout_queue st ++ fst (Drain.put_by_stdout_get r) = None :: q ->
  Drain.loop (r :: rest) st =
  (Drain.StdoutSentinel,
   Drain.State q
     (Drain.stderr_queue st ++ snd (Drain.put_by_stdout_get r))
     (Drain.printed st)).
Proof.
  intro H. cbn [Drain.loop Drain.put Drain.stdout_queue Drain.stderr_queue
                Drain.printed].
  rewrite H. reflexivity.
Qed.

(** C2: with the child alive, its stdout closed and a line waiting on the
    stderr queue, the loop exits on the stdout sentinel in its first
    iteration: the stderr sentinel has not been seen, the waiting line is
    not printed and the later ones are never read.  The same happens to the
    error lines of a child that fails at once. *)
Theorem drain_exits_on_first_sentinel :
  Drain.print_output stdout_closed_first =
    (Drain.StdoutSentinel,
     Drain.State [] [Some "warning: retrying"] []) /\
  Drain.returncode (hd (Drain.Round ([], []) ([], []) None)
                       stdout_closed_first) = None /\
  Drain.print_output fails_at_once =
    (Drain.StdoutSentinel,
     Drain.State []
       [Some "npm ERR! missing script"; Some "npm ERR! code 1"; None] []) /\
  Drain.undelivered (Drain.stderr_queue (snd (Drain.print_output fails_at_once)))
    = ["npm ERR! missing script"; "npm ERR! code 1"].
Proof. repeat split. Qed.

(** ** Stepping through the supervisor *)

Lemma Popen_ok (w : World) (c : command) :
  popen w c = None ->
  Popen c w =
  (Ok (List.length (table w)),
   set_events (events w ++ [EPopen c (List.length (table w))])
              (set_table (table w ++ [None]) w)).
Proof. intro H. unfold Popen. now rewrite H. Qed.

Lemma Popen_raises (w : World) (c : command) (e : exn) :
  popen w c = Some e -> Popen c w = (Raise e, w).
Proof. intro H. unfold Popen. now rewrite H. Qed.

Lemma sleep_tick (w : World) (s : Z) (t : tick) (rest : list tick) :
  ticks w = t :: rest ->
  sleep s w =
  (if interrupt t then Raise KeyboardInterrupt else Ok tt,
   set_table (apply_exits (exits t) (table w))
     (set_ticks rest (set_events (events w ++ [ESleep s]) w))).
Proof.
  intro H. unfold sleep. rewrite H. destruct (interrupt t); reflexivity.
Qed.

Lemma sleep_blocked (w : World) (s : Z) :
  ticks w = [] ->
  sleep s w = (Running, set_events (events w ++ [ESleep s]) w).
Proof. intro H. unfold sleep. now rewrite H. Qed.

Lemma check_died_alive (all ps : list (role * handle)) (w : World) :
  all_alive (table w) ps = true -> check_died all ps w = (Ok None, w).
Proof.
  induction ps as [|[name h] rest IH]; cbn [check_died all_alive forallb snd].
  - reflexivity.
  - intro A. apply andb_true_iff in A as [A1 A2].
    unfold bindM at 1, poll, get. unfold alive in A1.
    destruct (nth h (table w) None); [discriminate|]. now apply IH.
Qed.


Lemma monitor_quiet (n : nat) (fuel : nat) (ps : list (role * handle))
    (rest : list tick) (w : World) :
  ticks w = repeat quiet n ++ rest ->
  all_alive (table w) ps = true ->
  monitor (n + fuel) ps w =
  monitor fuel ps
    (set_ticks rest (set_events (events w ++ repeat (ESleep 1) n) w)).
Proof.
  revert w. induction n as [|n IH]; intros w T A.
  - cbn [repeat app] in T. cbn [Nat.add repeat]. f_equal.
    destruct w. cbn in T. subst.
    unfold set_ticks, set_events. cbn. now rewrite app_nil_r.
  - cbn [repeat app] in T. cbn [Nat.add monitor].
    unfold bindM at 1. rewrite (sleep_tick w 1 quiet _ T).
    cbn [interrupt quiet exits apply_exits fold_left].
    set (w1 := set_table _ _).
    unfold bindM at 1. rewrite check_died_alive by exact A.
    rewrite (IH w1); [|reflexivity|exact A].
    f_equal. subst w1. world_eq.
Qed.

Lemma terminate_alive_eq (ps : list (role * handle)) (w : World) :
  terminate_alive ps w =
  (Ok tt, set_events (events w ++ terminate_events (table w) ps) w).
Proof.
  revert w. induction ps as [|[name h] rest IH]; intro w;
    cbn [terminate_alive terminate_events flat_map snd].
  - unfold ret. f_equal. destruct w. unfold set_events. cbn.
    now rewrite app_nil_r.
  - unfold bindM at 1, poll, get. unfold bindM at 1, alive.
    destruct (nth h (table w) None) eqn:N.
    + unfold ret at 1. rewrite IH. reflexivity.
    + unfold terminate, emit. rewrite IH. f_equal. world_eq.
Qed.

Lemma terminate_and_report_eq (ps : list (role * handle)) (w : World) :
  terminate_and_report ps w =
  (Ok tt, set_events (events w ++ stop_events (table w) ps) w).
Proof.
  revert w. induction ps as [|[name h] rest IH]; intro w;
    cbn [terminate_and_report stop_events flat_map snd fst].
  - unfold ret. f_equal. destruct w. unfold set_events. cbn.
    now rewrite app_nil_r.
  - unfold bindM at 1, poll, get. unfold bindM at 1, alive.
    destruct (nth h (table w) None) eqn:N.
    + unfold ret at 1. rewrite IH. reflexivity.
    + unfold bindM at 1, terminate, print, emit. rewrite IH.
      f_equal. world_eq.
Qed.

Lemma kill_alive_eq (ps : list (role * handle)) (w : World) :
  kill_alive ps w =
  (Ok tt, set_events (events w ++ kill_events (table w) ps) w).
Proof.
  revert w. induction ps as [|[name h] rest IH]; intro w;
    cbn [kill_alive kill_events flat_map snd].
  - unfold ret. f_equal. destruct w. unfold set_events. cbn.
    now rewrite app_nil_r.
  - unfold bindM at 1, poll, get. unfold bindM at 1, alive.
    destruct (nth h (table w) None) eqn:N.
    + unfold ret at 1. rewrite IH. reflexivity.
    + unfold kill, emit. rewrite IH. f_equal. world_eq.
Qed.

Lemma start_threads_eq (ps : list (role * handle)) (w : World) :
  start_threads ps w =
  (Ok tt, set_events (events w ++ thread_events ps) w).
Proof.
  revert w. induction ps as [|[name h] rest IH]; intro w;
    cbn [start_threads thread_events map snd fst].
  - unfold ret. f_equal. destruct w. unfold set_events. cbn.
    now rewrite app_nil_r.
  - unfold bindM at 1, emit. rewrite IH. f_equal. world_eq.
Qed.


(** One [print] at the head of a computation. *)
Lemma print_then {A} (m : message) (k : M A) (w : World) :
  (print m ;; k) w = k (set_events (events w ++ [EPrint Stdout m]) w).
Proof. reflexivity. Qed.

Lemma start_both_launches (w : World) (f b : bool) :
  is_port_in_use FRONTEND_PORT w = (Ok f, w) ->
  is_port_in_use BACKEND_PORT w = (Ok b, w) ->
  f && b = false ->
  start_both w =
  match start_both_body f b
          (set_events (events w ++ banner f b) (set_processes [] w)) with
  | (Raise KeyboardInterrupt, w1) => on_interrupt w1
  | (Raise e, w1) => if is_Exception e then on_exception e w1
                     else (Raise e, w1)
  | r => r
  end.
Proof.
  intros F B N. destruct w as [win av bd npm po rr ok tb tk ps ev].
  unfold start_both, check_process_running, bindM at 1. rewrite F.
  unfold bindM at 1. rewrite B.
  assert (H : forall v v' : World, v = v' ->
            try_except (start_both_body f b)
              (fun e => match e with
                        | KeyboardInterrupt => true
                        | _ => is_Exception e
                        end)
              (fun e => match e with
                        | KeyboardInterrupt =>
                            print MsgStoppingBoth ;;
                            ps <- get processes ;;
                            terminate_and_report ps ;;
                            sleep 1 ;;
                            kill_alive ps ;;
                            ret true
                        | _ =>
                            print (MsgErrorStartingServers e) ;;
                            ps <- get processes ;;
                            terminate_alive ps ;;
                            ret false
                        end) v =
            match start_both_body f b v' with
            | (Raise KeyboardInterrupt, w1) => on_interrupt w1
            | (Raise e, w1) => if is_Exception e then on_exception e w1
                               else (Raise e, w1)
            | r => r
            end).
  { intros v v' <-. unfold try_except.
    destruct (start_both_body f b v) as [[r | e |] w1]; try reflexivity.
    destruct e; reflexivity. }
  destruct f, b; try discriminate N; cbn [andb];
    repeat (rewrite print_then; wsimpl);
    unfold bindM at 1, ret at 1;
    repeat (rewrite print_then; wsimpl);
    unfold bindM at 1, ret at 1;
    repeat (rewrite print_then; wsimpl);
    unfold bindM at 1; wsimpl;
    apply H; unfold banner; cbn [app]; wsimpl;
    rewrite <- ?app_assoc; reflexivity.
Qed.

Lemma npm_command_static (w w' : World) (script : string) :
  win32 w' = win32 w -> which_npm w' = which_npm w ->
  npm_command w' script = npm_command w script.
Proof. unfold npm_command. now intros -> ->. Qed.

(** Both launches succeed. *)
Lemma body_both_launched (w : World) :
  popen w (npm_command w "run server") = None ->
  popen w (npm_command w "run dev") = None ->
  start_both_body false false w =
  watch
    (set_events
       (events w
        ++ [EPopen (npm_command w "run server") (List.length (table w));
            EPrint Stdout (MsgProcessStarted backend);
            EPopen (npm_command w "run dev") (S (List.length (table w)));
            EPrint Stdout (MsgProcessStarted frontend)])
       (set_table (table w ++ [None; None])
          (set_processes
             (processes w ++ [(backend, List.length (table w));
                              (frontend, S (List.length (table w)))]) w))).
Proof.
  intros Pb Pf. unfold start_both_body. cbn [negb].
  unfold bindM at 1. unfold bindM at 1.
  rewrite run_npm_command_eq, (Popen_ok _ _ Pb). wsimpl.
  unfold bindM at 1, append_process at 1. wsimpl.
  unfold print at 1, emit at 1. wsimpl.
  unfold bindM at 1. unfold bindM at 1.
  rewrite run_npm_command_eq.
  rewrite (npm_command_static w) by reflexivity.
  rewrite Popen_ok by exact Pf. wsimpl.
  unfold bindM at 1, append_process at 1. wsimpl.
  unfold print at 1, emit at 1. wsimpl.
  unfold watch. f_equal.
  rewrite <- !app_assoc, length_app. cbn [app List.length].
  rewrite Nat.add_1_r. reflexivity.
Qed.

(** Only the frontend is launched, the backend being taken as running. *)
Lemma body_frontend_launched (w : World) :
  popen w (npm_command w "run dev") = None ->
  start_both_body false true w =
  watch
    (set_events
       (events w
        ++ [EPopen (npm_command w "run dev") (List.length (table w));
            EPrint Stdout (MsgProcessStarted frontend)])
       (set_table (table w ++ [None])
          (set_processes
             (processes w ++ [(frontend, List.length (table w))]) w))).
Proof.
  intros Pf. unfold start_both_body. cbn [negb].
  unfold bindM at 1. unfold ret at 1.
  unfold bindM at 1. unfold bindM at 1.
  rewrite run_npm_command_eq, (Popen_ok _ _ Pf). wsimpl.
  unfold bindM at 1, append_process at 1. wsimpl.
  unfold print at 1, emit at 1. wsimpl.
  unfold watch. f_equal.
  rewrite <- !app_assoc. reflexivity.
Qed.


(** The second launch raises after the first one succeeded. *)
Lemma body_frontend_fails (w : World) (e : exn) :
  popen w (npm_command w "run server") = None ->
  popen w (npm_command w "run dev") = Some e ->
  start_both_body false false w =
  (Raise e,
   set_events
     (events w
      ++ [EPopen (npm_command w "run server") (List.length (table w));
          EPrint Stdout (MsgProcessStarted backend)])
     (set_table (table w ++ [None])
        (set_processes
           (processes w ++ [(backend, List.length (table w))]) w))).
Proof.
  intros Pb Pf. unfold start_both_body. cbn [negb].
  unfold bindM at 1. unfold bindM at 1.
  rewrite run_npm_command_eq, (Popen_ok _ _ Pb). wsimpl.
  unfold bindM at 1, append_process at 1. wsimpl.
  unfold print at 1, emit at 1. wsimpl.
  unfold bindM at 1. unfold bindM at 1.
  rewrite run_npm_command_eq.
  rewrite (npm_command_static w) by reflexivity.
  rewrite Popen_raises with (e := e) by exact Pf.
  f_equal. wsimpl. rewrite <- !app_assoc. reflexivity.
Qed.

(** After the start-up pause the liveness loop starts. *)
Lemma watch_started (xs : list (handle * Z)) (rest : list tick)
    (w : World) :
  ticks w = Tick xs false :: rest ->
  watch w =
  monitor (S (List.length rest)) (processes w)
    (set_table (apply_exits xs (table w))
       (set_ticks rest
          (set_events (events w ++ ESleep 2 :: thread_events (processes w))
                      w))).
Proof.
  intros T. unfold watch.
  unfold bindM at 1. rewrite (sleep_tick w 2 _ _ T).
  cbn [interrupt exits]. wsimpl.
  unfold bindM at 1, get at 1. wsimpl.
  unfold bindM at 1. rewrite start_threads_eq. wsimpl.
  unfold bindM at 1, get at 1. wsimpl.
  f_equal. world_eq.
Qed.

(** After the start-up pause and [n] more quiet seconds, with every child
    alive, the liveness loop is about to sleep again. *)
Lemma watch_quiet (n : nat) (rest : list tick) (w : World) :
  ticks w = quiet :: repeat quiet n ++ rest ->
  all_alive (table w) (processes w) = true ->
  watch w =
  monitor (S (List.length rest)) (processes w)
    (set_ticks rest
       (set_events (events w ++ ESleep 2 :: thread_events (processes w)
                             ++ repeat (ESleep 1) n) w)).
Proof.
  intros T A. unfold watch.
  unfold bindM at 1. rewrite (sleep_tick w 2 quiet _ T).
  cbn [interrupt quiet exits apply_exits fold_left]. wsimpl.
  unfold bindM at 1, get at 1. wsimpl.
  unfold bindM at 1. rewrite start_threads_eq. wsimpl.
  unfold bindM at 1, get at 1. wsimpl.
  rewrite length_app, repeat_length.
  replace (S (n + List.length rest)) with (n + S (List.length rest))%nat by lia.
  rewrite (monitor_quiet n _ _ rest); [|reflexivity|exact A]. wsimpl.
  f_equal. world_eq.
Qed.

(** Ctrl+C during the start-up pause. *)
Lemma watch_interrupted (xs : list (handle * Z)) (rest : list tick)
    (w : World) :
  ticks w = Tick xs true :: rest ->
  watch w =
  (Raise KeyboardInterrupt,
   set_table (apply_exits xs (table w))
     (set_ticks rest (set_events (events w ++ [ESleep 2]) w))).
Proof.
  intros T. unfold watch. unfold bindM at 1.
  now rewrite (sleep_tick w 2 _ _ T).
Qed.

Lemma monitor_blocked (fuel : nat) (ps : list (role * handle)) (w : World) :
  ticks w = [] ->
  monitor (S fuel) ps w =
  (Running, set_events (events w ++ [ESleep 1]) w).
Proof.
  intro T. cbn [monitor]. unfold bindM at 1. now rewrite sleep_blocked.
Qed.

Lemma monitor_interrupted (fuel : nat) (ps : list (role * handle))
    (xs : list (handle * Z)) (rest : list tick) (w : World) :
  ticks w = Tick xs true :: rest ->
  monitor (S fuel) ps w =
  (Raise KeyboardInterrupt,
   set_table (apply_exits xs (table w))
     (set_ticks rest (set_events (events w ++ [ESleep 1]) w))).
Proof.
  intro T. cbn [monitor]. unfold bindM at 1.
  now rewrite (sleep_tick w 1 _ _ T).
Qed.



(** The Ctrl+C handler: terminate requests first, one second of grace,
    then a forced kill for whoever is still alive. *)
Lemma on_interrupt_eq (g : tick) (rest : list tick) (w : World) :
  ticks w = g :: rest -> interrupt g = false ->
  on_interrupt w =
  (Ok true,
   set_table (apply_exits (exits g) (table w))
     (set_ticks rest
        (set_events
           (events w
            ++ EPrint Stdout MsgStoppingBoth
               :: stop_events (table w) (processes w)
            ++ ESleep 1
               :: kill_events (apply_exits (exits g) (table w))
                              (processes w)) w))).
Proof.
  intros T I. unfold on_interrupt.
  rewrite print_then. wsimpl.
  unfold bindM at 1, get at 1. wsimpl.
  unfold bindM at 1. rewrite terminate_and_report_eq. wsimpl.
  unfold bindM at 1. erewrite sleep_tick by exact T. rewrite I. wsimpl.
  unfold bindM at 1. rewrite kill_alive_eq. wsimpl.
  unfold ret. f_equal. world_eq.
Qed.

Lemma on_exception_eq (e : exn) (w : World) :
  on_exception e w =
  (Ok false,
   set_events (events w ++ EPrint Stdout (MsgErrorStartingServers e)
                        :: terminate_events (table w) (processes w)) w).
Proof.
  unfold on_exception.
  rewrite print_then. wsimpl.
  unfold bindM at 1, get at 1. wsimpl.
  unfold bindM at 1. rewrite terminate_alive_eq. wsimpl.
  unfold ret. f_equal. world_eq.
Qed.

Lemma alive_new (t : list (option Z)) (more : list (option Z)) :
  alive (t ++ None :: more) (List.length t) = true.
Proof. unfold alive. now rewrite nth_middle. Qed.

Lemma alive_new_second (t : list (option Z)) (x : option Z) :
  alive (t ++ [x; None]) (S (List.length t)) = true.
Proof.
  unfold alive.
  replace (t ++ [x; None]) with ((t ++ [x]) ++ None :: []).
  - replace (S (List.length t)) with (List.length (t ++ [x])).
    + now rewrite nth_middle.
    + rewrite length_app. cbn. lia.
  - now rewrite <- app_assoc.
Qed.

Lemma existsb_negb_forallb {A} (P : A -> bool) (l : list A) :
  forallb (fun x => negb (P x)) l = true -> existsb P l = false.
Proof.
  induction l as [|x l IH]; cbn; [reflexivity|].
  intro H. apply andb_true_iff in H as [H1 H2].
  apply negb_true_iff in H1. now rewrite H1, IH.
Qed.

Lemma existsb_repeat_false {A} (P : A -> bool) (x : A) (n : nat) :
  P x = false -> existsb P (repeat x n) = false.
Proof. intro H. induction n; cbn; [reflexivity|now rewrite H]. Qed.

Lemma repeat_snoc {A} (x : A) (n : nat) :
  repeat x n ++ [x] = x :: repeat x n.
Proof. induction n; cbn; [reflexivity|now rewrite IHn]. Qed.

(** C5: with the backend's port bound and the frontend's free, the joint
    start warns that the backend is already running and does not launch
    it, launches the frontend, and stays in the liveness loop with exactly
    one managed process for as long as nothing happens; and in no world
    does the joint start print the cross-role refusal. *)
Theorem joint_start_backend_bound (w : World) (n : nat) :
  is_bound w BACKEND_PORT ->
  bind w FRONTEND_PORT = None ->
  popen w (npm_command w "run dev") = None ->
  ticks w = repeat quiet (S n) ->
  start_both w =
    (Running,
     set_events
       (events w
        ++ [EPrint Stdout (MsgAlreadyRunningWarn backend);
            EPrint Stdout MsgStartingBoth;
            EPrint Stdout (MsgWillBeAvailable frontend);
            EPrint Stdout (MsgWillBeAvailable backend);
            EPrint Stdout MsgPressCtrlC;
            EPopen (npm_command w "run dev") (List.length (table w));
            EPrint Stdout (MsgProcessStarted frontend);
            ESleep 2;
            EThread frontend (List.length (table w))]
        ++ repeat (ESleep 1) (S n))
       (set_table (table w ++ [None])
          (set_ticks []
             (set_processes [(frontend, List.length (table w))] w)))) /\
  (forall w0 : World, exists es,
      events (snd (start_both w0)) = events w0 ++ es /\
      existsb is_conflicting_role es = false).
Proof.
  intros B F Pf T. split.
  - rewrite (start_both_launches w false true);
      [|now apply free_probe|now apply is_bound_probe|reflexivity].
    rewrite body_frontend_launched by exact Pf. wsimpl.
    rewrite (npm_command_static w) by reflexivity.
    rewrite (watch_quiet n []);
      [|wsimpl; rewrite app_nil_r; exact T
       |wsimpl; cbn [app all_alive forallb snd]; now rewrite alive_new].
    wsimpl.
    rewrite monitor_blocked by reflexivity. wsimpl.
    f_equal. unfold banner, thread_events. cbn [map fst snd app].
    rewrite <- ?app_assoc. cbn [app repeat]. rewrite repeat_snoc.
    reflexivity.
  - intro w0. destruct (start_both_never_conflicts w0) as [es [E N]].
    exists es. split; [exact E|]. now apply existsb_negb_forallb.
Qed.

Lemma start_both_on_ctrl_c (w : World) (n : nat) (g : tick)
    (rest : list tick) :
  bind w FRONTEND_PORT = None ->
  bind w BACKEND_PORT = None ->
  popen w (npm_command w "run server") = None ->
  popen w (npm_command w "run dev") = None ->
  ticks w = repeat quiet n ++ Tick [] true :: g :: rest ->
  interrupt g = false ->
  exists pre,
    fst (start_both w) = Ok true /\
    events (snd (start_both w)) =
      events w
      ++ [EPrint Stdout MsgStartingBoth;
          EPrint Stdout (MsgWillBeAvailable frontend);
          EPrint Stdout (MsgWillBeAvailable backend);
          EPrint Stdout MsgPressCtrlC;
          EPopen (npm_command w "run server") (List.length (table w));
          EPrint Stdout (MsgProcessStarted backend);
          EPopen (npm_command w "run dev") (S (List.length (table w)));
          EPrint Stdout (MsgProcessStarted frontend)]
      ++ pre
      ++ [EPrint Stdout MsgStoppingBoth;
          ETerminate (List.length (table w));
          EPrint Stdout (MsgStopped backend);
          ETerminate (S (List.length (table w)));
          EPrint Stdout (MsgStopped frontend);
          ESleep 1]
      ++ kill_events (apply_exits (exits g) (table w ++ [None; None]))
                     [(backend, List.length (table w));
                      (frontend, S (List.length (table w)))] /\
    existsb (fun e => is_kill e || is_terminate e) pre = false.
Proof.
  intros F B Pb Pf T I.
  rewrite (start_both_launches w false false);
    [|now apply free_probe|now apply free_probe|reflexivity].
  rewrite body_both_launched by assumption. wsimpl.
  rewrite !(npm_command_static w) by reflexivity.
  set (cb := npm_command _ "run server"). set (cf := npm_command _ "run dev").
  destruct n as [|n]; cbn [repeat app] in T.
  - rewrite (watch_interrupted [] (g :: rest)) by exact T. wsimpl.
    rewrite (on_interrupt_eq g rest) by (trivial; reflexivity). wsimpl.
    cbn [fst snd events apply_exits fold_left app].
    exists [ESleep 2].
    split; [reflexivity|]. split; [|reflexivity].
    unfold stop_events, banner. cbn [flat_map snd fst].
    rewrite alive_new, alive_new_second.
    rewrite <- ?app_assoc. cbn [app]. reflexivity.
  - rewrite (watch_quiet n (Tick [] true :: g :: rest));
      [|exact T
       |wsimpl; cbn [app all_alive forallb snd];
        now rewrite alive_new, alive_new_second].
    wsimpl.
    rewrite (monitor_interrupted _ _ [] (g :: rest)) by reflexivity. wsimpl.
    rewrite (on_interrupt_eq g rest) by (trivial; reflexivity). wsimpl.
    cbn [fst snd events apply_exits fold_left app].
    exists ([ESleep 2;
             EThread backend (List.length (table w));
             EThread frontend (S (List.length (table w)))]
            ++ repeat (ESleep 1) n ++ [ESleep 1]).
    split; [reflexivity|]. split.
    + unfold stop_events, banner, thread_events. cbn [flat_map map snd fst].
      rewrite alive_new, alive_new_second.
      rewrite <- ?app_assoc. cbn [app]. reflexivity.
    + rewrite !existsb_app, existsb_repeat_false by reflexivity.
      reflexivity.
Qed.



Lemma joint_start_backend_bound_witness :
  start_both backend_bound_no_args =
    (Running,
     set_events
       ([EPrint Stdout (MsgAlreadyRunningWarn backend);
         EPrint Stdout MsgStartingBoth;
         EPrint Stdout (MsgWillBeAvailable frontend);
         EPrint Stdout (MsgWillBeAvailable backend);
         EPrint Stdout MsgPressCtrlC;
         EPopen (Argv ["/usr/bin/npm"; "run"; "dev"]) 0;
         EPrint Stdout (MsgProcessStarted frontend);
         ESleep 2;
         EThread frontend 0;
         ESleep 1; ESleep 1; ESleep 1])
       (set_table [None]
          (set_ticks []
             (set_processes [(frontend, 0%nat)] backend_bound_no_args)))) /\
  (forall w0 : World, exists es,
      events (snd (start_both w0)) = events w0 ++ es /\
      existsb is_conflicting_role es = false).
Proof.
  apply (joint_start_backend_bound backend_bound_no_args 2);
    reflexivity.
Defined.

(** C7: Ctrl+C while both children are alive (in any sleep of the
    session).  Before the handler runs, the log holds the banner, the two
    launches and [pre], which has no terminate request and no kill; the
    handler sends the terminate request to the backend and to the
    frontend, then sleeps one second, and only then kills exactly the
    children that are still alive after that second: a child that exited
    during it is not killed.  (Ctrl+C is not pressed again during the
    second of grace.) *)
Theorem interrupt_escalation (w : World) (n : nat) (g : tick)
    (rest : list tick) :
  bind w FRONTEND_PORT = None ->
  bind w BACKEND_PORT = None ->
  popen w (npm_command w "run server") = None ->
  popen w (npm_command w "run dev") = None ->
  ticks w = repeat quiet n ++ Tick [] true :: g :: rest ->
  interrupt g = false ->
  exists pre,
    fst (start_both w) = Ok true /\
    events (snd (start_both w)) =
      events w
      ++ [EPrint Stdout MsgStartingBoth;
          EPrint Stdout (MsgWillBeAvailable frontend);
          EPrint Stdout (MsgWillBeAvailable backend);
          EPrint Stdout MsgPressCtrlC;
          EPopen (npm_command w "run server") (List.length (table w));
          EPrint Stdout (MsgProcessStarted backend);
          EPopen (npm_command w "run dev") (S (List.length (table w)));
          EPrint Stdout (MsgProcessStarted frontend)]
      ++ pre
      ++ [EPrint Stdout MsgStoppingBoth;
          ETerminate (List.length (table w));
          EPrint Stdout (MsgStopped backend);
          ETerminate (S (List.length (table w)));
          EPrint Stdout (MsgStopped frontend);
          ESleep 1]
      ++ kill_events (apply_exits (exits g) (table w ++ [None; None]))
                     [(backend, List.length (table w));
                      (frontend, S (List.length (table w)))] /\
    existsb (fun e => is_kill e || is_terminate e) pre = false.
Proof. exact (start_both_on_ctrl_c w n g rest). Qed.

Lemma interrupt_escalation_witness :
  exists pre,
    fst (start_both ctrl_c_world) = Ok true /\
    events (snd (start_both ctrl_c_world)) =
      [EPrint Stdout MsgStartingBoth;
       EPrint Stdout (MsgWillBeAvailable frontend);
       EPrint Stdout (MsgWillBeAvailable backend);
       EPrint Stdout MsgPressCtrlC;
       EPopen (Argv ["/usr/bin/npm"; "run"; "server"]) 0;
       EPrint Stdout (MsgProcessStarted backend);
       EPopen (Argv ["/usr/bin/npm"; "run"; "dev"]) 1;
       EPrint Stdout (MsgProcessStarted frontend)]
      ++ pre
      ++ [EPrint Stdout MsgStoppingBoth;
          ETerminate 0;
          EPrint Stdout (MsgStopped backend);
          ETerminate 1;
          EPrint Stdout (MsgStopped frontend);
          ESleep 1]
      ++ [EKill 0] /\
    existsb (fun e => is_kill e || is_terminate e) pre = false.
Proof.
  apply (interrupt_escalation ctrl_c_world 2 (Tick [(1%nat, -15)] false) []);
    reflexivity.
Defined.

(** ** Individual launch, status and usage errors *)

Lemma probe_answer (w : World) (port : Z) :
  probes_answer w ->
  is_port_in_use port w = (Ok (negb (port_free w port)), w).
Proof.
  intro H. rewrite is_port_in_use_eq. unfold port_free.
  destruct (bind w port) as [e|] eqn:B; [|reflexivity].
  now rewrite (H port e B).
Qed.

(** An individual launch with the role's own port free and the other
    role's port bound is refused: the three lines of the cross-role
    refusal are printed, False is returned, nothing is run. *)
Theorem launch_refused_by_other_role (r : role) (w : World) :
  bind w (role_port r) = None ->
  is_bound w (role_port (other_role r)) ->
  launch r true w =
  (Ok false,
   set_events
     (events w ++ [EPrint Stdout (MsgAlreadyRunning (other_role r));
                   EPrint Stdout (MsgCannotStartWhile r (other_role r));
                   EPrint Stdout (MsgPleaseStopFirst (other_role r))]) w).
Proof.
  intros F B. apply free_probe in F. apply is_bound_probe in B.
  destruct r; cbn [role_port other_role] in F, B;
    unfold launch, start_frontend, start_backend, check_process_running;
    unfold bindM at 1; rewrite F; unfold bindM at 1; rewrite B;
    rewrite !print_then; wsimpl; unfold bindM, print, emit, ret; wsimpl;
    f_equal; world_eq.
Qed.

Lemma launch_refused_by_other_role_witness :
  launch frontend true backend_bound_no_args =
  (Ok false,
   set_events
     (events backend_bound_no_args
      ++ [EPrint Stdout (MsgAlreadyRunning backend);
          EPrint Stdout (MsgCannotStartWhile frontend backend);
          EPrint Stdout (MsgPleaseStopFirst backend)])
     backend_bound_no_args).
Proof.
  apply (launch_refused_by_other_role frontend backend_bound_no_args);
    reflexivity.
Defined.

(** An individual launch that passes the port checks runs [npm run dev]
    (resp. [npm run server]) in the foreground once.  It returns True
    exactly when the command completes with return code 0; a non-zero
    return code and Ctrl+C give False with a message; any other exception
    raised by [subprocess.run] (such as a missing [npm]) is not caught. *)
Theorem launch_foreground_outcome (r : role) (check_other : bool)
    (w : World) :
  bind w (role_port r) = None ->
  check_other = false \/ bind w (role_port (other_role r)) = None ->
  launch r check_other w =
  match run_result w (foreground_command w r) with
  | Completed rc _ =>
      if rc =? 0 then
        (Ok true,
         set_events (events w ++ [EPrint Stdout (MsgStarting r);
                                  EPrint Stdout (MsgWillBeAvailable r);
                                  ERun (foreground_command w r)]) w)
      else
        (Ok false,
         set_events
           (events w ++ [EPrint Stdout (MsgStarting r);
                         EPrint Stdout (MsgWillBeAvailable r);
                         ERun (foreground_command w r);
                         EPrint Stdout
                           (MsgErrorStarting r (CalledProcessError rc))]) w)
  | RunRaises KeyboardInterrupt =>
      (Ok false,
       set_events (events w ++ [EPrint Stdout (MsgStarting r);
                                EPrint Stdout (MsgWillBeAvailable r);
                                ERun (foreground_command w r);
                                EPrint Stdout (MsgStoppedByUser r)]) w)
  | RunRaises (CalledProcessError c) =>
      (Ok false,
       set_events
         (events w ++ [EPrint Stdout (MsgStarting r);
                       EPrint Stdout (MsgWillBeAvailable r);
                       ERun (foreground_command w r);
                       EPrint Stdout
                         (MsgErrorStarting r (CalledProcessError c))]) w)
  | RunRaises e =>
      (Raise e,
       set_events (events w ++ [EPrint Stdout (MsgStarting r);
                                EPrint Stdout (MsgWillBeAvailable r);
                                ERun (foreground_command w r)]) w)
  | RunBlocks =>
      (Running,
       set_events (events w ++ [EPrint Stdout (MsgStarting r);
                                EPrint Stdout (MsgWillBeAvailable r);
                                ERun (foreground_command w r)]) w)
  end.
Proof.
  intros F O. apply free_probe in F.
  assert (O' : forall name,
             (if check_other
              then check_process_running name (role_port (other_role r))
              else ret false) w = (Ok false, w)).
  { intro name. destruct O as [-> | O]; [reflexivity|].
    destruct check_other; [|reflexivity].
    unfold check_process_running. now apply free_probe. }
  destruct r; cbn [role_port other_role] in F, O';
    unfold launch, start_frontend, start_backend, check_process_running
      in *;
    unfold bindM at 1; rewrite F; unfold bindM at 1; rewrite (O' EmptyString);
    rewrite !print_then; wsimpl;
    unfold try_except, bindM at 1, get at 1; wsimpl;
    cbn [foreground_command];
    destruct (win32 w);
    unfold bindM at 1, subprocess_run, bindM at 1, emit at 1; wsimpl;
    unfold bindM at 1, get at 1; wsimpl;
    match goal with
    | |- context [run_result w ?c] =>
        destruct (run_result w c) as [rc out | e |]
    end;
    try (cbn [andb negb]; destruct (rc =? 0); cbn [negb];
         unfold raise, ret, bindM, print, emit; wsimpl;
         f_equal; world_eq);
    try (destruct e; unfold raise, ret, bindM, print, emit; wsimpl;
         f_equal; world_eq);
    reflexivity || (f_equal; world_eq).
Qed.

Lemma launch_foreground_outcome_witness :
  launch frontend true (idle_world ["start_server.py"; "start"; "frontend"] [])
  = (Ok true,
     set_events [EPrint Stdout (MsgStarting frontend);
                 EPrint Stdout (MsgWillBeAvailable frontend);
                 ERun (Argv ["npm"; "run"; "dev"])]
                (idle_world ["start_server.py"; "start"; "frontend"] [])).
Proof.
  apply (launch_foreground_outcome frontend true
           (idle_world ["start_server.py"; "start"; "frontend"] []));
    [reflexivity|right; reflexivity].
Defined.

Lemma main_start (w : World) (prog c t : string) (rest : list string)
    (r : role) :
  argv w = prog :: c :: t :: rest ->
  Py.lower c = "start" ->
  Py.lower t = role_word r ->
  main w =
  (success <- launch r true ;; sys_exit (if success then 0 else 1)) w.
Proof.
  intros A C T. rewrite (main_command w prog c (t :: rest) A).
  cbn zeta. rewrite C. cbn [String.eqb Ascii.eqb Bool.eqb orb].
  rewrite A. cbn [List.length Nat.ltb Nat.leb].
  unfold bindM at 1, ret at 1. unfold bindM at 1, argv_at at 1, get at 1.
  rewrite A. cbn [nth]. rewrite T.
  destruct r; reflexivity.
Qed.

(** [start frontend] and [start backend] (in any letter case): when the
    foreground command terminates, the exit status is 0 exactly when the
    role's own port was free, the other role's port was free and [npm]
    returned 0; otherwise it is 1. *)
Theorem start_exit_status (w : World) (prog c t : string)
    (rest : list string) (r : role) (rc : Z) (out : string) :
  argv w = prog :: c :: t :: rest ->
  Py.lower c = "start" ->
  Py.lower t = role_word r ->
  probes_answer w ->
  run_result w (foreground_command w r) = Completed rc out ->
  exit_status w =
  Exit (if port_free w (role_port r)
           && port_free w (role_port (other_role r))
           && (rc =? 0)
        then 0 else 1).
Proof.
  intros A C T P R. unfold exit_status, run.
  rewrite (main_start w prog c t rest r A C T).
  unfold bindM at 1.
  pose proof (probe_answer w (role_port r) P) as Own.
  pose proof (probe_answer w (role_port (other_role r)) P) as Oth.
  remember (port_free w (role_port r)) as own eqn:E1 in *.
  remember (port_free w (role_port (other_role r))) as oth eqn:E2 in *.
  clear E1 E2.
  destruct r; cbn [role_port other_role foreground_command] in *;
    unfold launch, start_frontend, start_backend, check_process_running;
    unfold bindM at 1; rewrite Own;
    (destruct own; cbn [negb andb];
     [|rewrite print_then; reflexivity]);
    unfold bindM at 1; rewrite Oth;
    (destruct oth; cbn [negb andb];
     [|rewrite !print_then; reflexivity]);
    rewrite !print_then; wsimpl;
    unfold try_except, bindM at 1, get at 1; wsimpl;
    destruct (win32 w);
    unfold bindM at 1, subprocess_run, bindM at 1, emit at 1; wsimpl;
    unfold bindM at 1, get at 1; wsimpl; rewrite R;
    cbn [andb]; destruct (rc =? 0); reflexivity.
Qed.

Lemma start_exit_status_witness :
  exit_status (idle_world ["start_server.py"; "START"; "Frontend"] [])
  = Exit 0.
Proof.
  apply (start_exit_status
           (idle_world ["start_server.py"; "START"; "Frontend"] [])
           "start_server.py" "START" "Frontend" [] frontend 0 EmptyString);
    try reflexivity.
  intros port e H. discriminate H.
Defined.

(** [start] and [stop] without a role, and [start] with a role word in
    ASCII that is neither [frontend] nor [backend] in any letter case,
    only print their error lines and exit with status 1: no port is
    probed, nothing is run or signalled.  (On ASCII words [Py.lower] is
    [str.lower]; beyond ASCII the script also takes the Kelvin sign for
    a k.) *)
Theorem start_stop_usage_errors (w : World) (prog c : string)
    (args : list string) :
  argv w = prog :: c :: args ->
  (Py.lower c = "start" -> args = [] ->
   run w = (Exit 1,
            set_events (events w ++ [EPrint Stdout MsgPleaseSpecify;
                                     EPrint Stdout MsgUsageStart;
                                     EPrint Stdout MsgOrRunBoth]) w)) /\
  (Py.lower c = "stop" -> args = [] ->
   run w = (Exit 1,
            set_events (events w ++ [EPrint Stdout MsgPleaseSpecify;
                                     EPrint Stdout MsgUsageStop]) w)) /\
  (forall t rest,
     Py.lower c = "start" -> args = t :: rest ->
     Py.isascii t = true ->
     String.eqb (Py.lower t) "frontend" = false ->
     String.eqb (Py.lower t) "backend" = false ->
     run w = (Exit 1,
              set_events
                (events w
                 ++ [EPrint Stdout (MsgErrUnknownServerType (Py.lower t));
                     EPrint Stdout MsgUseFrontendOrBackend]) w)).
Proof.
  intro A. unfold run. rewrite (main_command w prog c args A). cbn zeta.
  repeat split.
  - intros C ->. rewrite C, A.
    cbn [String.eqb Ascii.eqb Bool.eqb orb List.length Nat.ltb Nat.leb].
    unfold bindM at 1. rewrite !print_then. wsimpl.
    unfold sys_exit, raise. f_equal. world_eq.
  - intros C ->. rewrite C, A.
    cbn [String.eqb Ascii.eqb Bool.eqb orb List.length Nat.ltb Nat.leb].
    unfold bindM at 1. rewrite !print_then. wsimpl.
    unfold sys_exit, raise. f_equal. world_eq.
  - intros t rest C -> _ Nf Nb. rewrite C, A.
    cbn [String.eqb Ascii.eqb Bool.eqb orb List.length Nat.ltb Nat.leb].
    unfold bindM at 1, ret at 1. unfold bindM at 1, argv_at at 1, get at 1.
    rewrite A. cbn [nth]. rewrite Nf, Nb.
    rewrite !print_then. wsimpl.
    unfold sys_exit, raise. f_equal. world_eq.
Qed.

Lemma start_stop_usage_errors_witness :
  run (idle_world ["start_server.py"; "Start"; "database"] []) =
  (Exit 1,
   set_events [EPrint Stdout (MsgErrUnknownServerType "database");
               EPrint Stdout MsgUseFrontendOrBackend]
              (idle_world ["start_server.py"; "Start"; "database"] [])).
Proof.
  apply (proj2 (proj2 (start_stop_usage_errors
                         (idle_world ["start_server.py"; "Start"; "database"] [])
                         "start_server.py" "Start" ["database"] eq_refl))
           "database" []);
    reflexivity.
Defined.

(** [status] (in any letter case) probes the two ports and does nothing
    else: it prints one line per role saying whether its port is bound and
    a summary line, creates, signals and waits for no process, and ends
    with exit status 0. *)
Theorem status_reports_probes (w : World) (prog c : string)
    (rest : list string) :
  argv w = prog :: c :: rest ->
  Py.lower c = "status" ->
  probes_answer w ->
  run w =
  (Exit 0,
   set_events
     (events w
      ++ [EPrint Stdout MsgStatusHeader;
          EPrint Stdout MsgRule;
          EPrint Stdout (MsgStatus frontend
                           (negb (port_free w FRONTEND_PORT)));
          EPrint Stdout (MsgStatus backend
                           (negb (port_free w BACKEND_PORT)));
          EPrint Stdout MsgRule;
          EPrint Stdout
            (status_summary (negb (port_free w FRONTEND_PORT))
                            (negb (port_free w BACKEND_PORT)))]) w).
Proof.
  intros A C P. unfold run. rewrite (main_command w prog c rest A).
  cbn zeta. rewrite C.
  cbn [String.eqb Ascii.eqb Bool.eqb orb].
  unfold check_status, check_process_running.
  unfold bindM at 1. rewrite (probe_answer w FRONTEND_PORT P).
  unfold bindM at 1. rewrite (probe_answer w BACKEND_PORT P).
  rewrite !print_then. wsimpl. unfold status_summary.
  destruct (port_free w FRONTEND_PORT), (port_free w BACKEND_PORT);
    cbn [negb andb]; unfold print, emit; wsimpl; f_equal; world_eq.
Qed.

Lemma status_reports_probes_witness :
  run backend_bound_status =
  (Exit 0,
   set_events
     [EPrint Stdout MsgStatusHeader;
      EPrint Stdout MsgRule;
      EPrint Stdout (MsgStatus frontend false);
      EPrint Stdout (MsgStatus backend true);
      EPrint Stdout MsgRule;
      EPrint Stdout MsgOnlyOneRunning] backend_bound_status).
Proof.
  apply (status_reports_probes backend_bound_status
           "start_server.py" "status" [] eq_refl eq_refl).
  intros port e. unfold backend_bound_status, with_bind, listening.
  cbn [bind]. destruct (existsb _ _); [|discriminate].
  intro H. injection H as <-. reflexivity.
Defined.

(** ** The port terminator *)

Lemma stop_server_role (r : role) (w : World) :
  stop_server (role_word r) w =
  (running <- check_process_running
                (match r with
                 | frontend => FRONTEND_PROCESS
                 | backend => BACKEND_PROCESS
                 end) (role_port r) ;;
   if negb running then
     print (MsgNotRunning (role_word r) (role_port r)) ;; ret false
   else
     print (MsgStopping (role_word r) (role_port r)) ;;
     r' <- try_except (find_and_signal (role_word r) (role_port r))
             is_Exception
             (fun e => print (MsgErrorStopping (role_word r) e) ;;
                       print MsgStopManually ;; ret (Some false)) ;;
     match r' with
     | Some b => ret b
     | None => print (MsgCouldNotFind (role_port r)) ;; ret false
     end) w.
Proof. destruct r; reflexivity. Qed.

(** The Windows scan keeps the machine as it is, never answers False by
    itself, and answers True only right after a delivered signal. *)
Lemma scan_netstat_success (t : string) (port : Z) (lines : list string) :
  forall (w w' : World) (r : result (option bool)),
    scan_netstat t port lines w = (r, w') ->
    os_kill w' = os_kill w /\
    r <> Ok (Some false) /\
    (r = Ok (Some true) ->
     exists pre pid shown,
       events w' = events w ++ pre
                   ++ [EOsKill pid; EPrint Stdout (MsgStoppedPid t shown);
                       ESleep 1] /\
       os_kill w pid = None).
Proof.
  induction lines as [|line rest IH]; intros w w' r H; cbn [scan_netstat] in H.
  - injection H as <- <-. repeat split; [discriminate|discriminate].
  - assert (Cont : forall es,
               scan_netstat t port rest (set_events (events w ++ es) w)
               = (r, w') ->
               os_kill w' = os_kill w /\
               r <> Ok (Some false) /\
               (r = Ok (Some true) ->
                exists pre pid shown,
                  events w' = events w ++ pre
                              ++ [EOsKill pid;
                                  EPrint Stdout (MsgStoppedPid t shown);
                                  ESleep 1] /\
                  os_kill w pid = None)).
    { intros es H'. apply IH in H'. destruct H' as [H1 [H2 H3]].
      split; [exact H1|split; [exact H2|]].
      intro E. destruct (H3 E) as [pre [pid [shown [Ev Kp]]]].
      exists (es ++ pre), pid, shown.
      split; [|exact Kp]. rewrite Ev. cbn [events set_events].
      now rewrite <- !app_assoc. }
    destruct (Py.contains _ line && Py.contains "LISTENING" line);
      [|now apply IH].
    destruct (0 <? List.length (Py.split line))%nat; [|now apply IH].
    unfold bindM at 1, try_except in H.
    destruct (Py.int (Py.last_item (Py.split line))) as [n|].
    + unfold bindM at 1, os_kill_sigterm, bindM at 1, emit at 1 in H.
      unfold bindM at 1, get at 1 in H. wsimpl_in H.
      destruct (os_kill w n) as [e|] eqn:K.
      * unfold raise in H.
        destruct e as [[ | | | | ] | | | | | | ];
          cbn beta iota in H;
          try (injection H as <- <-; wsimpl;
               repeat split; discriminate);
          rewrite print_then in H; wsimpl_in H; unfold ret at 1 in H;
          cbn beta iota in H;
          eapply Cont; rewrite <- H; f_equal; world_eq.
      * unfold ret at 1 in H. rewrite print_then in H. wsimpl_in H.
        unfold bindM at 1, sleep in H. wsimpl_in H.
        destruct (ticks w) as [|tk tks].
        -- injection H as <- <-. wsimpl. repeat split; discriminate.
        -- destruct (interrupt tk).
           ++ injection H as <- <-. wsimpl. repeat split; discriminate.
           ++ unfold ret in H. cbn beta iota in H.
              injection H as <- <-. wsimpl.
              split; [reflexivity|]. split; [discriminate|].
              intros _. exists [], n, (Py.last_item (Py.split line)).
              split; [|exact K].
              cbn [app]. now rewrite <- !app_assoc.
    + unfold raise in H. cbn beta iota in H.
      rewrite print_then in H. wsimpl_in H. unfold ret at 1 in H.
      cbn beta iota in H.
      eapply Cont. rewrite <- H. f_equal. world_eq.
Qed.

Lemma find_and_signal_success (t : string) (port : Z) (w w' : World)
    (r : result (option bool)) :
  find_and_signal t port w = (r, w') ->
  r <> Ok (Some false) /\
  (r = Ok (Some true) ->
   exists pre pid shown,
     events w' = events w ++ pre
                 ++ [EOsKill pid; EPrint Stdout (MsgStoppedPid t shown);
                     ESleep 1] /\
     os_kill w pid = None).
Proof.
  unfold find_and_signal, bindM at 1, get at 1. destruct (win32 w).
  - unfold bindM at 1, subprocess_run, bindM at 1, emit at 1. wsimpl.
    unfold bindM at 1, get at 1. wsimpl.
    destruct (run_result w _) as [rc out | e |].
    + destruct (true && negb (rc =? 0)).
      * intro H. injection H as <- <-. split; discriminate.
      * unfold ret at 1. cbn [snd]. intro H.
        apply scan_netstat_success in H. destruct H as [_ [H2 H3]].
        split; [exact H2|]. intro E.
        destruct (H3 E) as [pre [pid [shown [Ev K]]]].
        exists (ERun (Argv ["netstat"; "-ano"]) :: pre), pid, shown.
        split; [|exact K]. rewrite Ev. cbn [events].
        now rewrite <- app_assoc.
    + intro H. injection H as <- <-. split; discriminate.
    + intro H. injection H as <- <-. split; discriminate.
  - unfold bindM at 1, subprocess_run, bindM at 1, emit at 1. wsimpl.
    unfold bindM at 1, get at 1. wsimpl.
    destruct (run_result w _) as [rc out | e |].
    + cbn [andb negb]. unfold ret at 1. cbn [fst snd].
      destruct ((rc =? 0) && truthy (Some (Py.strip out))).
      * destruct (Py.int (Py.strip out)) as [pid|].
        -- unfold bindM at 1, os_kill_sigterm, bindM at 1, emit at 1.
           unfold bindM at 1, get at 1. wsimpl.
           destruct (os_kill w pid) as [e|] eqn:K.
           ++ intro H. injection H as <- <-. split; discriminate.
           ++ unfold ret at 1. rewrite print_then. wsimpl.
              unfold bindM at 1, sleep. wsimpl.
              destruct (ticks w) as [|tk tks].
              ** intro H. injection H as <- <-. split; discriminate.
              ** destruct (interrupt tk).
                 --- intro H. injection H as <- <-. split; discriminate.
                 --- unfold ret. intro H. injection H as <- <-.
                     split; [discriminate|]. intros _.
                     eexists [_], pid, (Py.str pid). split; [|exact K].
                     wsimpl. cbn [app]. now rewrite <- !app_assoc.
        -- intro H. injection H as <- <-. split; discriminate.
      * intro H. injection H as <- <-. split; discriminate.
    + intro H. injection H as <- <-. split; discriminate.
    + intro H. injection H as <- <-. split; discriminate.
Qed.

(** [stop_server] answers True only when the port of the named role was
    bound and a SIGTERM was delivered: its last actions are then the
    [os.kill] call, which did not raise, the report of the stopped pid and
    the one-second pause. *)
Theorem stop_success_means_signalled (t : string) (w w' : World) :
  stop_server t w = (Ok true, w') ->
  exists pre pid shown,
    events w' = events w ++ pre
                ++ [EOsKill pid; EPrint Stdout (MsgStoppedPid t shown);
                    ESleep 1] /\
    os_kill w pid = None /\
    ((t = "frontend" /\ is_bound w FRONTEND_PORT) \/
     (t = "backend" /\ is_bound w BACKEND_PORT)).
Proof.
  unfold stop_server.
  assert (G : forall port name,
             (running <- check_process_running name port ;;
              if negb running then
                print (MsgNotRunning t port) ;; ret false
              else
                print (MsgStopping t port) ;;
                r <- try_except (find_and_signal t port) is_Exception
                       (fun e => print (MsgErrorStopping t e) ;;
                                 print MsgStopManually ;; ret (Some false)) ;;
                match r with
                | Some b => ret b
                | None => print (MsgCouldNotFind port) ;; ret false
                end) w = (Ok true, w') ->
             exists pre pid shown,
               events w' = events w ++ pre
                           ++ [EOsKill pid;
                               EPrint Stdout (MsgStoppedPid t shown);
                               ESleep 1] /\
               os_kill w pid = None /\ is_bound w port).
  { intros port name. unfold check_process_running, bindM at 1.
    rewrite is_port_in_use_eq.
    destruct (bind w port) as [e|] eqn:B.
    - destruct (caught e) eqn:O.
      + cbn [negb]. rewrite print_then. wsimpl.
        unfold bindM at 1, try_except.
        destruct (find_and_signal t port _) as [[[b|] | e' |] w1] eqn:FS.
        * apply find_and_signal_success in FS. destruct FS as [N S].
          unfold ret. intro H. injection H as -> <-.
          destruct (S eq_refl) as [pre [pid [shown [Ev K]]]].
          wsimpl_in Ev. wsimpl_in K.
          eexists (_ :: pre), pid, shown.
          split; [rewrite Ev, <- app_assoc; reflexivity|].
          split; [exact K|].
          unfold is_bound. rewrite is_port_in_use_eq, B, O. reflexivity.
        * rewrite print_then. unfold ret. intro H. discriminate H.
        * destruct (is_Exception e').
          -- rewrite !print_then. unfold ret. intro H. discriminate H.
          -- intro H. discriminate H.
        * intro H. discriminate H.
      + intro H. discriminate H.
    - cbn [negb]. rewrite print_then. unfold ret. intro H. discriminate H. }
  destruct (String.eqb t "frontend") eqn:Ef.
  - intro H. apply G in H. destruct H as [pre [pid [shown [Ev [K B]]]]].
    exists pre, pid, shown. repeat split; try assumption.
    left. split; [now apply String.eqb_eq|exact B].
  - destruct (String.eqb t "backend") eqn:Eb.
    + intro H. apply G in H. destruct H as [pre [pid [shown [Ev [K B]]]]].
      exists pre, pid, shown. repeat split; try assumption.
      right. split; [now apply String.eqb_eq|exact B].
    + rewrite print_then. unfold ret. intro H. discriminate H.
Qed.

Lemma stop_success_means_signalled_witness :
  exists pre pid shown,
    events (snd (stop_server "frontend" stop_found)) =
      events stop_found ++ pre
      ++ [EOsKill pid; EPrint Stdout (MsgStoppedPid "frontend" shown);
          ESleep 1] /\
    os_kill stop_found pid = None /\
    (("frontend" = "frontend" /\ is_bound stop_found FRONTEND_PORT) \/
     ("frontend" = "backend" /\ is_bound stop_found BACKEND_PORT)).
Proof.
  apply (stop_success_means_signalled "frontend" stop_found
           (snd (stop_server "frontend" stop_found))).
  reflexivity.
Defined.

(** On Unix, when [lsof] fails, prints nothing, or prints ASCII text that
    is not one integer literal (for instance two pids, one per line),
    [stop_server] returns False and never calls [os.kill]. *)
Theorem unix_stop_needs_single_pid (r : role) (w : World) (rc : Z)
    (out : string) :
  win32 w = false ->
  is_bound w (role_port r) ->
  run_result w (lsof_command (role_port r)) = Completed rc out ->
  rc <> 0 \/ (Py.isascii out = true /\ Py.int (Py.strip out) = None) ->
  stop_server (role_word r) w =
  (Ok false,
   set_events
     (events w
      ++ [EPrint Stdout (MsgStopping (role_word r) (role_port r));
          ERun (lsof_command (role_port r))]
      ++ (if (rc =? 0) && truthy (Some (Py.strip out))
          then [EPrint Stdout (MsgErrorStopping (role_word r) ValueError);
                EPrint Stdout MsgStopManually]
          else [EPrint Stdout (MsgCouldNotFind (role_port r))])) w).
Proof.
  intros W B R N. apply is_bound_probe in B.
  rewrite stop_server_role. unfold check_process_running, bindM at 1.
  rewrite B. cbn [negb]. rewrite print_then. wsimpl.
  unfold bindM at 1, try_except, find_and_signal, bindM at 1, get at 1.
  wsimpl. rewrite W.
  unfold bindM at 1, subprocess_run, bindM at 1, emit at 1. wsimpl.
  unfold bindM at 1, get at 1. wsimpl.
  fold (lsof_command (role_port r)). rewrite R.
  cbn [andb negb]. unfold ret at 1. cbn [fst snd].
  destruct ((rc =? 0) && truthy (Some (Py.strip out))) eqn:C.
  - destruct N as [N|[_ N]].
    + apply andb_true_iff in C as [C _]. apply Z.eqb_eq in C. contradiction.
    + rewrite N. unfold raise. cbn [is_Exception].
      rewrite !print_then. wsimpl. unfold ret. f_equal. world_eq.
  - unfold ret at 1. rewrite print_then. wsimpl. unfold ret.
    f_equal. world_eq.
Qed.

Lemma unix_stop_needs_single_pid_witness :
  stop_server "backend" stop_two_listeners =
  (Ok false,
   set_events
     [EPrint Stdout (MsgStopping "backend" 5000);
      ERun (Argv ["lsof"; "-ti"; ":5000"]);
      EPrint Stdout (MsgErrorStopping "backend" ValueError);
      EPrint Stdout MsgStopManually] stop_two_listeners).
Proof.
  apply (unix_stop_needs_single_pid backend stop_two_listeners 0
           ("4242" ++ String LF ("4243" ++ String LF EmptyString))%string);
    [reflexivity|reflexivity|reflexivity|right; split; reflexivity].
Defined.

Lemma scan_netstat_no_match (t : string) (port : Z) (lines : list string)
    (w : World) :
  (forall line, In line lines -> listening_line port line = false) ->
  scan_netstat t port lines w = (Ok None, w).
Proof.
  induction lines as [|line rest IH]; intro H; cbn [scan_netstat].
  - reflexivity.
  - pose proof (H line (or_introl eq_refl)) as L.
    unfold listening_line in L. rewrite L.
    apply IH. intros l I. apply H. now right.
Qed.

(** On Windows, when no line of [netstat -ano] mentions both the port and
    LISTENING, [stop_server] reports that it could not find the process
    and returns False without calling [os.kill]. *)
Theorem windows_stop_no_listening_line (r : role) (w : World)
    (out : string) :
  win32 w = true ->
  is_bound w (role_port r) ->
  run_result w netstat_command = Completed 0 out ->
  (forall line, In line (Py.split_on LF out) ->
                listening_line (role_port r) line = false) ->
  stop_server (role_word r) w =
  (Ok false,
   set_events
     (events w
      ++ [EPrint Stdout (MsgStopping (role_word r) (role_port r));
          ERun netstat_command;
          EPrint Stdout (MsgCouldNotFind (role_port r))]) w).
Proof.
  intros W B R N. apply is_bound_probe in B.
  rewrite stop_server_role. unfold check_process_running, bindM at 1.
  rewrite B. cbn [negb]. rewrite print_then. wsimpl.
  unfold bindM at 1, try_except, find_and_signal, bindM at 1, get at 1.
  wsimpl. rewrite W.
  unfold bindM at 1, subprocess_run, bindM at 1, emit at 1. wsimpl.
  unfold bindM at 1, get at 1. wsimpl.
  fold netstat_command. rewrite R.
  cbn [andb negb Z.eqb]. unfold ret at 1. cbn [fst snd].
  rewrite scan_netstat_no_match by exact N.
  unfold ret at 1. rewrite print_then. wsimpl. unfold ret.
  f_equal. world_eq.
Qed.

Lemma windows_stop_no_listening_line_witness :
  stop_server "backend" stop_windows_no_listener =
  (Ok false,
   set_events
     [EPrint Stdout (MsgStopping "backend" 5000);
      ERun (Argv ["netstat"; "-ano"]);
      EPrint Stdout (MsgCouldNotFind 5000)] stop_windows_no_listener).
Proof.
  apply (windows_stop_no_listening_line backend stop_windows_no_listener
           ("  TCP    127.0.0.1:5000    127.0.0.1:61000    ESTABLISHED    77"
              ++ String LF
                "  TCP    0.0.0.0:5173    0.0.0.0:0    LISTENING    4242")%string);
    try reflexivity.
  intros line [<- | [<- | []]]; reflexivity.
Defined.

(** ** More on the joint session *)

Lemma check_died_eq (all ps : list (role * handle)) (w : World) :
  check_died all ps w =
  match first_dead (table w) ps with
  | None => (Ok None, w)
  | Some (name, code) =>
      (Ok (Some false),
       set_events (events w ++ EPrint Stdout (MsgProcessExited name code)
                            :: terminate_events (table w) all) w)
  end.
Proof.
  induction ps as [|[name h] rest IH]; cbn [check_died first_dead].
  - reflexivity.
  - unfold bindM at 1, poll, get.
    destruct (nth h (table w) None) as [code|]; [|exact IH].
    rewrite print_then. unfold bindM at 1.
    rewrite terminate_alive_eq. wsimpl. unfold ret. f_equal. world_eq.
Qed.

Lemma monitor_reports (fuel : nat) (ps : list (role * handle))
    (dead : list (handle * Z)) (rest : list tick) (w : World)
    (name : role) (code : Z) :
  ticks w = Tick dead false :: rest ->
  first_dead (apply_exits dead (table w)) ps = Some (name, code) ->
  monitor (S fuel) ps w =
  (Ok false,
   set_table (apply_exits dead (table w))
     (set_ticks rest
        (set_events
           (events w ++ ESleep 1 :: EPrint Stdout (MsgProcessExited name code)
                     :: terminate_events (apply_exits dead (table w)) ps)
           w))).
Proof.
  intros T D. cbn [monitor]. unfold bindM at 1.
  rewrite (sleep_tick w 1 _ _ T). cbn [interrupt exits]. wsimpl.
  unfold bindM at 1. rewrite check_died_eq. wsimpl. rewrite D.
  unfold ret. f_equal. world_eq.
Qed.

Lemma repeat_shift {A} (x : A) (n : nat) (l : list A) :
  repeat x n ++ x :: l = x :: repeat x n ++ l.
Proof. induction n; cbn; [reflexivity|now rewrite IHn]. Qed.

Lemma monitor_quiet_or_zero (n : nat) (fuel : nat)
    (ps : list (role * handle)) (rest : list tick) (w : World) :
  ticks w = repeat quiet n ++ rest ->
  n = 0%nat \/ all_alive (table w) ps = true ->
  monitor (n + fuel) ps w =
  monitor fuel ps
    (set_ticks rest (set_events (events w ++ repeat (ESleep 1) n) w)).
Proof.
  intros T [-> | A]; [|now apply monitor_quiet].
  cbn [repeat app Nat.add] in *. f_equal.
  destruct w. cbn in T. subst. wsimpl. now rewrite app_nil_r.
Qed.

(** When the liveness poll finds a child dead (both roles launched, no
    Ctrl+C before), the report names the first dead child in launch order
    with its return code, every managed process that is still alive then
    receives one terminate request and a dead one receives none; the
    joint start returns False at once, leaving the remaining seconds
    unused. *)
Theorem cascade_terminates_alive_siblings (w : World) (early : list (handle * Z)) (n : nat)
    (dead : list (handle * Z)) (rest : list tick) (name : role) (code : Z) :
  bind w FRONTEND_PORT = None ->
  bind w BACKEND_PORT = None ->
  popen w (npm_command w "run server") = None ->
  popen w (npm_command w "run dev") = None ->
  ticks w = Tick early false :: repeat quiet n ++ Tick dead false :: rest ->
  n = 0%nat \/
  all_alive (apply_exits early (launched_table w)) (managed w) = true ->
  first_dead (apply_exits dead (apply_exits early (launched_table w)))
             (managed w) = Some (name, code) ->
  start_both w =
  (Ok false,
   set_events
     (events w ++ launch_log w
      ++ ESleep 2 :: thread_events (managed w)
      ++ repeat (ESleep 1) (S n)
      ++ EPrint Stdout (MsgProcessExited name code)
         :: terminate_events
              (apply_exits dead (apply_exits early (launched_table w)))
              (managed w))
     (set_table (apply_exits dead (apply_exits early (launched_table w)))
        (set_ticks rest (set_processes (managed w) w)))).
Proof.
  intros F B Pb Pf T A D. unfold managed, launched_table, launch_log in *.
  rewrite (start_both_launches w false false);
    [|now apply free_probe|now apply free_probe|reflexivity].
  rewrite body_both_launched by assumption. wsimpl.
  rewrite !(npm_command_static w) by reflexivity.
  set (cb := npm_command _ "run server"). set (cf := npm_command _ "run dev").
  rewrite (watch_started early (repeat quiet n ++ Tick dead false :: rest))
    by exact T.
  wsimpl.
  rewrite length_app, repeat_length. cbn [app List.length].
  replace (S (n + S (List.length rest)))
    with (n + S (S (List.length rest)))%nat by lia.
  rewrite (monitor_quiet_or_zero n _ _ (Tick dead false :: rest));
    [|reflexivity|exact A].
  wsimpl.
  rewrite (monitor_reports _ _ dead rest _ name code); [|reflexivity|exact D].
  wsimpl. f_equal. unfold banner, thread_events. cbn [app map fst snd].
  rewrite <- ?app_assoc. cbn [app repeat]. rewrite repeat_shift.
  reflexivity.
Qed.

Lemma cascade_terminates_alive_siblings_witness :
  start_both both_crash =
  (Ok false,
   set_events
     (launch_log both_crash
      ++ [ESleep 2; EThread backend 0; EThread frontend 1;
          ESleep 1; ESleep 1;
          EPrint Stdout (MsgProcessExited backend 1)])
     (set_table [Some 1; Some 3]
        (set_ticks [quiet]
           (set_processes [(backend, 0%nat); (frontend, 1%nat)]
                          both_crash)))).
Proof.
  apply (cascade_terminates_alive_siblings both_crash []
           1 [(1%nat, 3); (0%nat, 1)] [quiet] backend 1);
    try reflexivity.
  right. reflexivity.
Defined.

(** When the frontend cannot be launched after the backend was, the
    failure is reported, the backend receives a terminate request and the
    joint start returns False: no thread is started, nothing sleeps and
    nothing is killed. *)
Theorem failed_launch_terminates_started (w : World) (e : exn) :
  bind w FRONTEND_PORT = None ->
  bind w BACKEND_PORT = None ->
  popen w (npm_command w "run server") = None ->
  popen w (npm_command w "run dev") = Some e ->
  is_Exception e = true ->
  start_both w =
  (Ok false,
   set_events
     (events w
      ++ [EPrint Stdout MsgStartingBoth;
          EPrint Stdout (MsgWillBeAvailable frontend);
          EPrint Stdout (MsgWillBeAvailable backend);
          EPrint Stdout MsgPressCtrlC;
          EPopen (npm_command w "run server") (List.length (table w));
          EPrint Stdout (MsgProcessStarted backend);
          EPrint Stdout (MsgErrorStartingServers e);
          ETerminate (List.length (table w))])
     (set_table (table w ++ [None])
        (set_processes [(backend, List.length (table w))] w))).
Proof.
  intros F B Pb Pf X.
  rewrite (start_both_launches w false false);
    [|now apply free_probe|now apply free_probe|reflexivity].
  rewrite (body_frontend_fails _ e) by assumption.
  match goal with |- context [(Raise e, ?v)] => set (w1 := v) end.
  assert (H : forall v : World,
             match e with
             | KeyboardInterrupt => on_interrupt v
             | _ => if is_Exception e then on_exception e v else (Raise e, v)
             end = on_exception e v).
  { intro v. destruct e; try discriminate X; reflexivity. }
  cbv beta iota. rewrite H, on_exception_eq. subst w1. wsimpl.
  rewrite !(npm_command_static w) by reflexivity.
  unfold terminate_events. cbn [flat_map snd app].
  rewrite (alive_new (table w) []).
  f_equal. unfold banner. cbn [app]. rewrite <- ?app_assoc. reflexivity.
Qed.

Lemma failed_launch_terminates_started_witness :
  start_both frontend_unlaunchable =
  (Ok false,
   set_events
     [EPrint Stdout MsgStartingBoth;
      EPrint Stdout (MsgWillBeAvailable frontend);
      EPrint Stdout (MsgWillBeAvailable backend);
      EPrint Stdout MsgPressCtrlC;
      EPopen (Argv ["/usr/bin/npm"; "run"; "server"]) 0;
      EPrint Stdout (MsgProcessStarted backend);
      EPrint Stdout (MsgErrorStartingServers (OSError PermissionError));
      ETerminate 0]
     (set_table [None]
        (set_processes [(backend, 0%nat)] frontend_unlaunchable))).
Proof.
  apply (failed_launch_terminates_started frontend_unlaunchable
           (OSError PermissionError)); reflexivity.
Defined.

Lemma on_interrupt_any (g : tick) (rest : list tick) (w : World) :
  ticks w = g :: rest ->
  on_interrupt w =
  (if interrupt g then Raise KeyboardInterrupt else Ok true,
   set_table (apply_exits (exits g) (table w))
     (set_ticks rest
        (set_events
           (events w
            ++ EPrint Stdout MsgStoppingBoth
               :: stop_events (table w) (processes w)
            ++ ESleep 1
               :: (if interrupt g then []
                   else kill_events (apply_exits (exits g) (table w))
                                    (processes w))) w))).
Proof.
  intros T. unfold on_interrupt.
  rewrite print_then. wsimpl.
  unfold bindM at 1, get at 1. wsimpl.
  unfold bindM at 1. rewrite terminate_and_report_eq. wsimpl.
  unfold bindM at 1. erewrite sleep_tick by exact T. wsimpl.
  destruct (interrupt g).
  - f_equal. world_eq.
  - unfold bindM at 1. rewrite kill_alive_eq. wsimpl.
    unfold ret. f_equal. world_eq.
Qed.

(** Ctrl+C in any sleep of a session in which both roles were launched,
    whatever has died meanwhile and whether or not Ctrl+C is pressed again
    during the second of grace. *)
Lemma start_both_ctrl_c_any (w : World) (n : nat) (dead : list (handle * Z))
    (g : tick) (rest : list tick) :
  bind w FRONTEND_PORT = None ->
  bind w BACKEND_PORT = None ->
  popen w (npm_command w "run server") = None ->
  popen w (npm_command w "run dev") = None ->
  ticks w = repeat quiet n ++ Tick dead true :: g :: rest ->
  exists pre,
    existsb (fun e => is_kill e || is_terminate e) pre = false /\
    start_both w =
    (if interrupt g then Raise KeyboardInterrupt else Ok true,
     set_events
       (events w ++ launch_log w ++ pre
        ++ EPrint Stdout MsgStoppingBoth
           :: stop_events (apply_exits dead (launched_table w)) (managed w)
        ++ ESleep 1
           :: (if interrupt g then []
               else kill_events
                      (apply_exits (exits g)
                         (apply_exits dead (launched_table w)))
                      (managed w)))
       (set_table (apply_exits (exits g)
                     (apply_exits dead (launched_table w)))
          (set_ticks rest (set_processes (managed w) w)))).
Proof.
  intros F B Pb Pf T. unfold managed, launched_table, launch_log.
  rewrite (start_both_launches w false false);
    [|now apply free_probe|now apply free_probe|reflexivity].
  rewrite body_both_launched by assumption. wsimpl.
  rewrite !(npm_command_static w) by reflexivity.
  set (cb := npm_command _ "run server"). set (cf := npm_command _ "run dev").
  destruct n as [|n]; cbn [repeat app] in T.
  - rewrite (watch_interrupted dead (g :: rest)) by exact T. wsimpl.
    rewrite (on_interrupt_any g rest) by reflexivity. wsimpl.
    exists [ESleep 2]. split; [reflexivity|].
    f_equal. unfold banner. f_equal. cbn [app].
    rewrite <- ?app_assoc. cbn [app]. reflexivity.
  - rewrite (watch_quiet n (Tick dead true :: g :: rest));
      [|exact T
       |wsimpl; cbn [app all_alive forallb snd];
        now rewrite alive_new, alive_new_second].
    wsimpl.
    rewrite (monitor_interrupted _ _ dead (g :: rest)) by reflexivity.
    wsimpl.
    rewrite (on_interrupt_any g rest) by reflexivity. wsimpl.
    exists ([ESleep 2;
             EThread backend (List.length (table w));
             EThread frontend (S (List.length (table w)))]
            ++ repeat (ESleep 1) n ++ [ESleep 1]).
    split.
    + rewrite !existsb_app, existsb_repeat_false by reflexivity.
      reflexivity.
    + f_equal. unfold banner, thread_events. f_equal.
      cbn [app map fst snd].
      rewrite <- ?app_assoc. cbn [app]. rewrite <- ?app_assoc. reflexivity.
Qed.

Lemma stop_events_no_kill (t : list (option Z)) (ps : list (role * handle)) :
  existsb is_kill (stop_events t ps) = false.
Proof.
  induction ps as [|[name h] rest IH]; cbn [stop_events flat_map snd fst].
  - reflexivity.
  - rewrite existsb_app. fold (stop_events t rest). rewrite IH.
    destruct (alive t h); reflexivity.
Qed.

Lemma existsb_kill_weaken (l : list event) :
  existsb (fun e => is_kill e || is_terminate e) l = false ->
  existsb is_kill l = false.
Proof.
  induction l as [|e l IH]; cbn [existsb]; [reflexivity|].
  intro H. apply orb_false_iff in H as [H1 H2].
  apply orb_false_iff in H1 as [H1 _]. now rewrite H1, IH.
Qed.

(** Pressing Ctrl+C again during the second of grace aborts the shutdown:
    the terminate requests have been sent, but no forced kill is ever
    issued and the script ends with an uncaught KeyboardInterrupt instead
    of exit status 0. *)
Theorem second_ctrl_c_skips_kill (w : World) (n : nat)
    (dead : list (handle * Z)) (g : tick) (rest : list tick) :
  (List.length (argv w) < 2)%nat ->
  bind w FRONTEND_PORT = None ->
  bind w BACKEND_PORT = None ->
  popen w (npm_command w "run server") = None ->
  popen w (npm_command w "run dev") = None ->
  ticks w = repeat quiet n ++ Tick dead true :: g :: rest ->
  interrupt g = true ->
  exit_status w = Traceback KeyboardInterrupt /\
  exists es,
    trace w = events w ++ es
              ++ stop_events (apply_exits dead (launched_table w)) (managed w)
              ++ [ESleep 1] /\
    existsb is_kill es = false.
Proof.
  intros L F B Pb Pf T I. unfold exit_status, trace, run.
  rewrite (main_no_args w L).
  destruct (start_both_ctrl_c_any w n dead g rest F B Pb Pf T)
    as [pre [N E]].
  rewrite E, I. cbn [fst snd]. split; [reflexivity|].
  exists (launch_log w ++ pre ++ [EPrint Stdout MsgStoppingBoth]).
  wsimpl. split.
  - rewrite <- !app_assoc. cbn [app]. reflexivity.
  - rewrite !existsb_app, (existsb_kill_weaken pre N). reflexivity.
Qed.

Lemma second_ctrl_c_skips_kill_witness :
  exit_status double_ctrl_c = Traceback KeyboardInterrupt /\
  exists es,
    trace double_ctrl_c =
      es ++ [ETerminate 0; EPrint Stdout (MsgStopped backend);
             ETerminate 1; EPrint Stdout (MsgStopped frontend)]
      ++ [ESleep 1] /\
    existsb is_kill es = false.
Proof.
  apply (second_ctrl_c_skips_kill double_ctrl_c 1 [] (Tick [] true) []);
    try reflexivity.
  cbn. lia.
Defined.

(** Ctrl+C wins over a death that the liveness poll has not seen yet: if
    children die in the very sleep in which Ctrl+C is pressed, the exit
    status is 0 all the same; only the children alive at that moment
    receive a terminate request, and only those still alive a second later
    are killed. *)
Theorem ctrl_c_after_unseen_death_exits_zero (w : World) (n : nat)
    (dead : list (handle * Z)) (g : tick) (rest : list tick) :
  (List.length (argv w) < 2)%nat ->
  bind w FRONTEND_PORT = None ->
  bind w BACKEND_PORT = None ->
  popen w (npm_command w "run server") = None ->
  popen w (npm_command w "run dev") = None ->
  ticks w = repeat quiet n ++ Tick dead true :: g :: rest ->
  interrupt g = false ->
  exit_status w = Exit 0 /\
  exists pre,
    trace w =
      events w ++ launch_log w ++ pre
      ++ EPrint Stdout MsgStoppingBoth
         :: stop_events (apply_exits dead (launched_table w)) (managed w)
      ++ ESleep 1
         :: kill_events
              (apply_exits (exits g) (apply_exits dead (launched_table w)))
              (managed w) /\
    existsb (fun e => is_kill e || is_terminate e) pre = false.
Proof.
  intros L F B Pb Pf T I. unfold exit_status, trace, run.
  rewrite (main_no_args w L).
  destruct (start_both_ctrl_c_any w n dead g rest F B Pb Pf T)
    as [pre [N E]].
  rewrite E, I. cbn [fst snd]. split; [reflexivity|].
  exists pre. split; [reflexivity|exact N].
Qed.

Lemma ctrl_c_after_unseen_death_exits_zero_witness :
  exit_status crash_then_ctrl_c = Exit 0 /\
  exists pre,
    trace crash_then_ctrl_c =
      launch_log crash_then_ctrl_c ++ pre
      ++ EPrint Stdout MsgStoppingBoth
         :: [ETerminate 1; EPrint Stdout (MsgStopped frontend)]
      ++ ESleep 1 :: [EKill 1] /\
    existsb (fun e => is_kill e || is_terminate e) pre = false.
Proof.
  apply (ctrl_c_after_unseen_death_exits_zero crash_then_ctrl_c 1
           [(0%nat, 1)] quiet []);
    try reflexivity.
  cbn. lia.
Defined.

(** *** The exit status of a joint session *)





(** *** When the joint start reports success *)

Lemma bind_Ok_inv {A B} (m : M A) (k : A -> M B) (w w' : World) (x : B) :
  bindM m k w = (Ok x, w') ->
  exists a w1, m w = (Ok a, w1) /\ k a w1 = (Ok x, w').
Proof.
  unfold bindM. destruct (m w) as [[a | e |] w1]; intro H;
    try discriminate H.
  now exists a, w1.
Qed.

(** The liveness loop never answers True. *)
Lemma monitor_only_false (fuel : nat) (ps : list (role * handle)) :
  forall (w w' : World) (x : bool),
    monitor fuel ps w = (Ok x, w') -> x = false.
Proof.
  induction fuel as [|fuel IH]; intros w w' x H; cbn [monitor] in H.
  - discriminate H.
  - apply bind_Ok_inv in H. destruct H as [[] [w1 [_ H]]].
    apply bind_Ok_inv in H. destruct H as [r [w2 [C H]]].
    rewrite check_died_eq in C.
    destruct (first_dead (table w1) ps) as [[name code]|].
    + injection C as <- <-. unfold ret in H. now injection H as <- _.
    + injection C as <- <-. now apply IH in H.
Qed.

Lemma start_both_body_only_false (f b : bool) (w w' : World) (x : bool) :
  start_both_body f b w = (Ok x, w') -> x = false.
Proof.
  unfold start_both_body. intro H.
  apply bind_Ok_inv in H. destruct H as [_ [w1 [_ H]]].
  apply bind_Ok_inv in H. destruct H as [_ [w2 [_ H]]].
  apply bind_Ok_inv in H. destruct H as [_ [w3 [_ H]]].
  apply bind_Ok_inv in H. destruct H as [ps [w4 [_ H]]].
  apply bind_Ok_inv in H. destruct H as [_ [w5 [_ H]]].
  apply bind_Ok_inv in H. destruct H as [fuel [w6 [_ H]]].
  now apply monitor_only_false in H.
Qed.

Lemma start_both_body_extends_log (f b : bool) :
  emits (fun _ => true) (start_both_body f b).
Proof.
  unfold start_both_body, append_process, print.
  destruct f, b; cbn [negb]; repeat emits_step.
Qed.

Lemma on_interrupt_extends_log (w : World) :
  exists es,
    events (snd (on_interrupt w)) =
    events w ++ EPrint Stdout MsgStoppingBoth :: es.
Proof.
  unfold on_interrupt. rewrite print_then.
  assert (E : emits (fun _ => true)
                (ps <- get processes ;; terminate_and_report ps ;;
                 sleep 1 ;; kill_alive ps ;; ret true))
    by repeat emits_step.
  destruct (E (set_events (events w ++ [EPrint Stdout MsgStoppingBoth]) w))
    as [es [Ev _]].
  exists es. rewrite Ev. wsimpl. now rewrite <- app_assoc.
Qed.

(** The joint start answers True in two cases only: both ports were bound
    (it printed the two warnings and "both servers are already running",
    and did nothing else), or Ctrl+C was caught ("stopping both servers"
    was printed).  In particular a session that ends because a child died
    or a launch failed never reports success. *)
Theorem start_both_true_only_if_bound_or_interrupted (w w' : World) :
  start_both w = (Ok true, w') ->
  w' = set_events
         (events w ++ [EPrint Stdout (MsgAlreadyRunningWarn frontend);
                       EPrint Stdout (MsgAlreadyRunningWarn backend);
                       EPrint Stdout MsgBothAlreadyRunning]) w \/
  exists es1 es2,
    events w' = events w ++ es1 ++ EPrint Stdout MsgStoppingBoth :: es2.
Proof.
  intro H.
  assert (P : exists f b,
             is_port_in_use FRONTEND_PORT w = (Ok f, w) /\
             is_port_in_use BACKEND_PORT w = (Ok b, w)).
  { unfold start_both, check_process_running in H.
    apply bind_Ok_inv in H. destruct H as [f [w1 [Pf H]]].
    assert (w1 = w) as ->
        by (rewrite is_port_in_use_eq in Pf; now injection Pf).
    apply bind_Ok_inv in H. destruct H as [b [w1 [Pb H]]].
    assert (w1 = w) as ->
        by (rewrite is_port_in_use_eq in Pb; now injection Pb).
    now exists f, b. }
  destruct P as [f [b [Pf Pb]]].
  destruct (f && b) eqn:FB.
  - left. apply andb_true_iff in FB as [-> ->].
    rewrite start_both_both_bound in H;
      [|unfold is_bound; now rewrite Pf|unfold is_bound; now rewrite Pb].
    now injection H as <-.
  - right. rewrite (start_both_launches w f b Pf Pb FB) in H.
    match type of H with
    | context [start_both_body f b ?v] =>
        destruct (start_both_body_extends_log f b v) as [es [Ev _]];
        destruct (start_both_body f b v) as [[x | e |] w2] eqn:Bd
    end; cbn [snd] in Ev; wsimpl_in Ev.
    + apply start_both_body_only_false in Bd. injection H as -> _.
      discriminate Bd.
    + destruct e; cbn [is_Exception] in H;
        try (rewrite on_exception_eq in H; discriminate H);
        try discriminate H.
      destruct (on_interrupt_extends_log w2) as [es2 E2].
      rewrite H in E2. cbn [snd] in E2. rewrite Ev in E2.
      exists (banner f b ++ es), es2. rewrite E2, <- !app_assoc.
      reflexivity.
    + discriminate H.
Qed.

Lemma start_both_true_only_if_bound_or_interrupted_witness :
  snd (start_both ctrl_c_world) =
    set_events
      (events ctrl_c_world
       ++ [EPrint Stdout (MsgAlreadyRunningWarn frontend);
           EPrint Stdout (MsgAlreadyRunningWarn backend);
           EPrint Stdout MsgBothAlreadyRunning]) ctrl_c_world \/
  exists es1 es2,
    events (snd (start_both ctrl_c_world)) =
    events ctrl_c_world ++ es1 ++ EPrint Stdout MsgStoppingBoth :: es2.
Proof.
  apply (start_both_true_only_if_bound_or_interrupted ctrl_c_world
           (snd (start_both ctrl_c_world))).
  vm_compute. reflexivity.
Defined.

Lemma emits_run_npm_command_script (P : event -> bool) (script : string) :
  (forall h, P (EPopen (Shell ("npm " ++ script)%string) h) = true) ->
  (forall p h, P (EPopen (Argv (p :: Py.split script)) h) = true) ->
  emits P (run_npm_command script None).
Proof.
  intros Hs Ha. unfold run_npm_command.
  apply emits_bind; [apply emits_get|intros win].
  destruct win.
  - apply emits_Popen, Hs.
  - apply emits_bind; [apply emits_get|intros [[|c p]|]]; cbn [truthy].
    + apply emits_Popen, Hs.
    + apply emits_Popen. intro h. apply Ha.
    + apply emits_Popen, Hs.
Qed.

Lemma launches_npm_command (r : role) (w : World) (h : handle) :
  launches r (EPopen (npm_command w (launch_script r)) h) = true.
Proof.
  unfold npm_command, launches.
  destruct (win32 w); [apply String.eqb_refl|].
  destruct (which_npm w) as [[|c p]|]; try apply String.eqb_refl.
  destruct (list_eq_dec string_dec _ _) as [|N]; [reflexivity|].
  now contradiction N.
Qed.

(** What follows the two probes in [start_both]. *)
Lemma start_both_after_probes (w : World) (f b : bool) :
  is_port_in_use FRONTEND_PORT w = (Ok f, w) ->
  is_port_in_use BACKEND_PORT w = (Ok b, w) ->
  exists m : M bool,
    start_both w = m w /\
    forall P : event -> bool,
      (forall s m', P (EPrint s m') = true) ->
      (forall s, P (ESleep s) = true) ->
      (forall r h, P (EThread r h) = true) ->
      (forall h, P (ETerminate h) = true) ->
      (forall h, P (EKill h) = true) ->
      (f = false -> emits P (run_npm_command "run dev" None)) ->
      (b = false -> emits P (run_npm_command "run server" None)) ->
      emits P m.
Proof.
  intros Pf Pb. eexists. split.
  - unfold start_both, check_process_running, bindM at 1. rewrite Pf.
    cbv beta iota. unfold bindM at 1. rewrite Pb. cbv beta iota.
    match goal with |- ?X w = _ => instantiate (1 := X) end. reflexivity.
  - intros P Hp Hs Ht Hterm Hk Hf Hb.
    unfold start_both_body, append_process, print.
    destruct f, b; cbn [negb andb];
      repeat first
        [ apply emits_ret
        | apply emits_get
        | apply emits_emit; auto
        | apply emits_sleep; auto
        | apply emits_start_threads; auto
        | apply emits_terminate_alive; auto
        | apply emits_terminate_and_report; auto
        | apply emits_kill_alive; auto
        | apply emits_monitor; auto
        | apply emits_silent; reflexivity
        | apply Hf; reflexivity
        | apply Hb; reflexivity
        | apply emits_bind; [|intro]
        | apply emits_try; [|intro]
        | match goal with
          | |- emits _ (match ?e with _ => _ end) => destruct e
          end ].
Qed.

(** In no world does the joint start launch a role whose port is bound;
    ([launches] does recognise the launch the script performs for a role
    whose port is free). *)
Theorem bound_role_never_launched (r : role) (w : World) :
  is_bound w (role_port r) ->
  (exists es,
     events (snd (start_both w)) = events w ++ es /\
     existsb (launches r) es = false) /\
  forall h, launches r (EPopen (npm_command w (launch_script r)) h) = true.
Proof.
  intro B. split; [|apply launches_npm_command].
  apply is_bound_probe in B.
  assert (Q : exists es,
             events (snd (start_both w)) = events w ++ es /\
             forallb (fun e => negb (launches r e)) es = true).
  { destruct r; cbn [role_port] in B.
    - destruct (is_port_in_use BACKEND_PORT w) as [[b | e |] w1] eqn:Pb.
      + assert (w1 = w) as ->
            by (rewrite is_port_in_use_eq in Pb; now injection Pb).
        destruct (start_both_after_probes w true b B Pb) as [m [E Em]].
        rewrite E. apply Em; try reflexivity; try discriminate.
        intros _. apply emits_run_npm_command_script; reflexivity.
      + exists []. unfold start_both, check_process_running, bindM at 1.
        rewrite B. unfold bindM at 1. rewrite Pb. cbn [snd].
        rewrite is_port_in_use_eq in Pb. injection Pb as _ <-.
        now rewrite app_nil_r.
      + rewrite is_port_in_use_eq in Pb.
        destruct (bind w BACKEND_PORT) as [e|];
          [destruct (caught e)|]; discriminate Pb.
    - destruct (is_port_in_use FRONTEND_PORT w) as [[f | e |] w1] eqn:Pf.
      + assert (w1 = w) as ->
            by (rewrite is_port_in_use_eq in Pf; now injection Pf).
        destruct (start_both_after_probes w f true Pf B) as [m [E Em]].
        rewrite E. apply Em; try reflexivity; try discriminate.
        intros _. apply emits_run_npm_command_script; reflexivity.
      + exists []. unfold start_both, check_process_running, bindM at 1.
        rewrite Pf. cbn [snd].
        rewrite is_port_in_use_eq in Pf. injection Pf as _ <-.
        now rewrite app_nil_r.
      + rewrite is_port_in_use_eq in Pf.
        destruct (bind w FRONTEND_PORT) as [e|];
          [destruct (caught e)|]; discriminate Pf. }
  destruct Q as [es [E N]]. exists es. split; [exact E|].
  now apply existsb_negb_forallb.
Qed.

Lemma bound_role_never_launched_witness :
  (exists es,
     events (snd (start_both backend_bound_no_args))
     = events backend_bound_no_args ++ es /\
     existsb (launches backend) es = false) /\
  forall h,
    launches backend
      (EPopen (npm_command backend_bound_no_args (launch_script backend)) h)
    = true.
Proof.
  apply (bound_role_never_launched backend backend_bound_no_args).
  reflexivity.
Defined.

(** ** More on the drain loop *)

Lemma lines_of_app (s : stream) (a b : list (stream * string)) :
  lines_of s (a ++ b) = lines_of s a ++ lines_of s b.
Proof. apply flat_map_app. Qed.

Lemma undelivered_app (a b : list Drain.item) :
  Drain.undelivered (a ++ b) = Drain.undelivered a ++ Drain.undelivered b.
Proof. apply flat_map_app. Qed.

Lemma no_empty_line_app (a b : list Drain.item) :
  no_empty_line (a ++ b) = no_empty_line a && no_empty_line b.
Proof. apply forallb_app. Qed.

Lemma lines_of_drain_remaining (s s' : stream) (q : list Drain.item)
    (acc : list (stream * string)) :
  no_empty_line q = true \/ s <> s' ->
  lines_of s (Drain.drain_remaining s' q acc) =
  lines_of s acc ++ (if stream_eqb s' s then Drain.undelivered q else []).
Proof.
  unfold Drain.drain_remaining. revert acc.
  induction q as [|x q IH]; intros acc H; cbn [fold_left Drain.undelivered
                                                flat_map].
  - destruct (stream_eqb s' s); now rewrite app_nil_r.
  - assert (H' : no_empty_line q = true \/ s <> s').
    { destruct H as [H|H]; [left|now right].
      cbn [no_empty_line forallb] in H.
      now apply andb_true_iff in H as [_ H]. }
    rewrite (IH _ H'). fold (Drain.undelivered q).
    destruct x as [[|c l]|]; cbn [Drain.print_if_line].
    + destruct H as [H|H]; [discriminate H|].
      destruct s, s'; try contradiction; reflexivity.
    + rewrite lines_of_app. cbn [lines_of flat_map fst snd].
      destruct (stream_eqb s' s); cbn [app];
        now rewrite <- ?app_assoc, ?app_nil_r.
    + reflexivity.
Qed.

Lemma loop_cons (r : Drain.round) (rest : list Drain.round)
    (st : Drain.state) :
  Drain.loop (r :: rest) st =
  match one_round r st with
  | (Some e, st') => (e, st')
  | (None, st') => Drain.loop rest st'
  end.
Proof.
  destruct r as [[o1 e1] [o2 e2] rc], st as [qo qe pr].
  unfold one_round. cbn [Drain.loop]. unfold Drain.put. cbv zeta.
  cbn [Drain.put_by_stdout_get Drain.put_by_stderr_get
       Drain.returncode Drain.stdout_queue Drain.stderr_queue Drain.printed
       fst snd].
  destruct (qo ++ o1) as [|[lo|] qo1]; cbn [get_line app]; try reflexivity;
    destruct ((qe ++ e1) ++ e2) as [|[le|] qe1]; cbn [get_line];
    try reflexivity; destruct rc; reflexivity.
Qed.

Lemma get_line_own (s : stream) (q : list Drain.item)
    (pr : list (stream * string)) :
  lines_of s (snd (get_line s q pr))
  ++ Drain.undelivered (snd (fst (get_line s q pr)))
  = lines_of s pr ++ Drain.undelivered q.
Proof.
  destruct q as [|[l|] q]; cbn [get_line fst snd Drain.undelivered flat_map].
  - reflexivity.
  - rewrite lines_of_app. cbn [lines_of flat_map fst snd].
    replace (stream_eqb s s) with true by (now destruct s).
    cbn [app]. now rewrite <- app_assoc.
  - reflexivity.
Qed.

Lemma get_line_other (s s' : stream) (q : list Drain.item)
    (pr : list (stream * string)) :
  s <> s' ->
  lines_of s (snd (get_line s' q pr)) = lines_of s pr.
Proof.
  intro N. destruct q as [|[l|] q]; cbn [get_line snd]; try reflexivity.
  rewrite lines_of_app. cbn [lines_of flat_map fst snd].
  destruct s, s'; try contradiction; cbn; now rewrite app_nil_r.
Qed.


Lemma no_empty_line_tail (x : Drain.item) (q : list Drain.item) :
  no_empty_line (x :: q) = true -> no_empty_line q = true.
Proof.
  cbn [no_empty_line forallb]. intro H.
  now apply andb_true_iff in H as [_ H].
Qed.

Lemma get_line_no_empty (s : stream) (q : list Drain.item)
    (pr : list (stream * string)) :
  no_empty_line q = true ->
  no_empty_line (snd (fst (get_line s q pr))) = true.
Proof.
  destruct q as [|[l|] q]; cbn [get_line fst snd]; trivial;
    apply no_empty_line_tail.
Qed.

Lemma prefix_of_app {A} (p later : list A) : prefix_of p (p ++ later).
Proof. now exists later. Qed.

(** What one iteration does to the backlog of a stream: kept when the
    loop goes on, and the printed and queued lines are a prefix of it when
    the loop is left. *)
Lemma one_round_backlog (s : stream) (r : Drain.round)
    (rest : list Drain.round) (st : Drain.state) :
  no_empty_line (queue_of s st) = true ->
  no_empty_line (arrivals s (r :: rest)) = true ->
  match one_round r st with
  | (None, st') =>
      backlog s st' rest = backlog s st (r :: rest) /\
      no_empty_line (queue_of s st') = true
  | (Some _, st') =>
      prefix_of (lines_of s (Drain.printed st')
                 ++ Drain.undelivered (queue_of s st'))
                (backlog s st (r :: rest))
  end.
Proof.
  intros Hq Ha.
  unfold arrivals in Ha. cbn [flat_map] in Ha. fold (arrivals s rest) in Ha.
  rewrite !no_empty_line_app in Ha.
  apply andb_true_iff in Ha as [Ha Har].
  apply andb_true_iff in Ha as [Ha1 Ha2].
  unfold backlog, arrivals. cbn [flat_map]. fold (arrivals s rest).
  destruct r as [[o1 e1] [o2 e2] rc], st as [qo qe pr].
  unfold one_round.
  cbn [Drain.put_by_stdout_get Drain.put_by_stderr_get Drain.returncode
       Drain.stdout_queue Drain.stderr_queue Drain.printed fst snd
       queue_of put_on] in *.
  pose proof (get_line_own Stdout (qo ++ o1) pr) as O1.
  pose proof (get_line_other Stderr Stdout (qo ++ o1) pr) as X1.
  pose proof (get_line_no_empty Stdout (qo ++ o1) pr) as N1.
  destruct (get_line Stdout (qo ++ o1) pr) as [[end1 qo1] pr1].
  cbn [fst snd] in O1, X1, N1.
  pose proof (get_line_own Stderr ((qe ++ e1) ++ e2) pr1) as O2.
  pose proof (get_line_other Stdout Stderr ((qe ++ e1) ++ e2) pr1) as X2.
  pose proof (get_line_no_empty Stderr ((qe ++ e1) ++ e2) pr1) as N2.
  destruct (get_line Stderr ((qe ++ e1) ++ e2) pr1) as [[end2 qe2] pr2].
  cbn [fst snd] in O2, X2, N2.
  specialize (X1 ltac:(discriminate)). specialize (X2 ltac:(discriminate)).
  destruct s; cbn [queue_of put_on Drain.stdout_queue Drain.stderr_queue
                   Drain.printed fst snd] in *.
  - (* the stdout stream *)
    assert (N1' : no_empty_line qo1 = true)
      by (apply N1; now rewrite no_empty_line_app, Hq, Ha1).
    assert (E : lines_of Stdout pr ++ Drain.undelivered qo
                ++ Drain.undelivered ((o1 ++ o2) ++ arrivals Stdout rest)
                = (lines_of Stdout pr1 ++ Drain.undelivered qo1)
                  ++ Drain.undelivered o2
                  ++ Drain.undelivered (arrivals Stdout rest)).
    { rewrite O1, !undelivered_app, <- !app_assoc. reflexivity. }
    rewrite E. clear E O1.
    destruct end1; [apply prefix_of_app|].
    assert (E : (lines_of Stdout pr1 ++ Drain.undelivered qo1)
                ++ Drain.undelivered o2
                ++ Drain.undelivered (arrivals Stdout rest)
                = (lines_of Stdout pr2 ++ Drain.undelivered (qo1 ++ o2))
                  ++ Drain.undelivered (arrivals Stdout rest)).
    { rewrite X2, !undelivered_app, <- !app_assoc. reflexivity. }
    rewrite E. clear E.
    destruct end2; [apply prefix_of_app|].
    destruct rc as [code|].
    + cbn [Drain.printed Drain.stdout_queue Drain.undelivered flat_map].
      rewrite (lines_of_drain_remaining Stdout Stderr)
        by (right; discriminate).
      rewrite (lines_of_drain_remaining Stdout Stdout)
        by (left; now rewrite no_empty_line_app, N1', Ha2).
      cbn [stream_eqb]. rewrite !app_nil_r. apply prefix_of_app.
    + cbn [Drain.printed Drain.stdout_queue].
      split; [now rewrite <- !app_assoc|].
      now rewrite no_empty_line_app, N1', Ha2.
  - (* the stderr stream *)
    assert (E : lines_of Stderr pr ++ Drain.undelivered qe
                ++ Drain.undelivered ((e1 ++ e2) ++ arrivals Stderr rest)
                = (lines_of Stderr pr1 ++ Drain.undelivered (qe ++ e1))
                  ++ Drain.undelivered e2
                  ++ Drain.undelivered (arrivals Stderr rest)).
    { rewrite X1, !undelivered_app, <- !app_assoc. reflexivity. }
    rewrite E. clear E.
    destruct end1; [apply prefix_of_app|].
    assert (N2' : no_empty_line qe2 = true)
      by (apply N2; now rewrite !no_empty_line_app, Hq, Ha1, Ha2).
    assert (E : (lines_of Stderr pr1 ++ Drain.undelivered (qe ++ e1))
                ++ Drain.undelivered e2
                ++ Drain.undelivered (arrivals Stderr rest)
                = (lines_of Stderr pr2 ++ Drain.undelivered qe2)
                  ++ Drain.undelivered (arrivals Stderr rest)).
    { rewrite O2, !undelivered_app, <- !app_assoc. reflexivity. }
    rewrite E. clear E.
    destruct end2; [apply prefix_of_app|].
    destruct rc as [code|].
    + cbn [Drain.printed Drain.stderr_queue Drain.undelivered flat_map].
      rewrite (lines_of_drain_remaining Stderr Stderr) by (now left).
      rewrite (lines_of_drain_remaining Stderr Stdout)
        by (right; discriminate).
      cbn [stream_eqb]. rewrite !app_nil_r. apply prefix_of_app.
    + cbn [Drain.printed Drain.stderr_queue].
      split; [now rewrite <- !app_assoc|exact N2'].
Qed.

Lemma no_empty_line_arrivals_tail (s : stream) (r : Drain.round)
    (rest : list Drain.round) :
  no_empty_line (arrivals s (r :: rest)) = true ->
  no_empty_line (arrivals s rest) = true.
Proof.
  unfold arrivals. cbn [flat_map]. rewrite no_empty_line_app.
  intro H. now apply andb_true_iff in H as [_ H].
Qed.

(** Per stream, the drain loop neither reorders, drops in the middle,
    repeats nor invents lines: whenever it stops, the lines it has printed
    for a stream followed by those still on that stream's queue are a
    prefix of the lines printed before, those queued before and those the
    reader puts during the rounds, in that order. *)
Theorem drain_keeps_stream_order (s : stream) (rounds : list Drain.round) :
  forall st : Drain.state,
    no_empty_line (queue_of s st) = true ->
    no_empty_line (arrivals s rounds) = true ->
    prefix_of
      (lines_of s (Drain.printed (snd (Drain.loop rounds st)))
       ++ Drain.undelivered (queue_of s (snd (Drain.loop rounds st))))
      (backlog s st rounds).
Proof.
  induction rounds as [|r rest IH]; intros st Hq Ha.
  - cbn [Drain.loop snd]. unfold backlog, arrivals.
    cbn [flat_map Drain.undelivered]. rewrite app_nil_r.
    exists []. now rewrite app_nil_r.
  - rewrite loop_cons.
    pose proof (one_round_backlog s r rest st Hq Ha) as R.
    destruct (one_round r st) as [[e|] st'].
    + exact R.
    + destruct R as [E N]. rewrite <- E. apply IH; [exact N|].
      now apply no_empty_line_arrivals_tail in Ha.
Qed.

Lemma drain_keeps_stream_order_witness :
  prefix_of
    (lines_of Stderr
       (Drain.printed (snd (Drain.loop chatty_rounds (Drain.State [] [] []))))
     ++ Drain.undelivered
          (queue_of Stderr
             (snd (Drain.loop chatty_rounds (Drain.State [] [] [])))))
    (backlog Stderr (Drain.State [] [] []) chatty_rounds).
Proof.
  apply (drain_keeps_stream_order Stderr chatty_rounds (Drain.State [] [] []));
    reflexivity.
Defined.

Lemma no_sentinel_app (a b : list Drain.item) :
  no_sentinel (a ++ b) = no_sentinel a && no_sentinel b.
Proof. apply forallb_app. Qed.

Lemma get_line_no_sentinel (s : stream) (q : list Drain.item)
    (pr : list (stream * string)) :
  no_sentinel q = true ->
  fst (fst (get_line s q pr)) = false /\
  no_sentinel (snd (fst (get_line s q pr))) = true.
Proof.
  destruct q as [|[l|] q]; cbn [get_line fst snd no_sentinel forallb andb];
    intro H; try discriminate H; now split.
Qed.

(** While both streams are open (no sentinel is queued or put) and the
    child is alive at every poll, the drain loop does not stop. *)
Theorem drain_runs_while_open_and_alive (rounds : list Drain.round) :
  forall st : Drain.state,
    no_sentinel (Drain.stdout_queue st) = true ->
    no_sentinel (Drain.stderr_queue st) = true ->
    no_sentinel (arrivals Stdout rounds) = true ->
    no_sentinel (arrivals Stderr rounds) = true ->
    forallb (fun r => match Drain.returncode r with
                      | None => true
                      | Some _ => false
                      end) rounds = true ->
    fst (Drain.loop rounds st) = Drain.StillLooping.
Proof.
  induction rounds as [|r rest IH]; intros st Ho He Ao Ae Rc.
  - reflexivity.
  - rewrite loop_cons.
    unfold arrivals in Ao, Ae. cbn [flat_map] in Ao, Ae.
    fold (arrivals Stdout rest) in Ao. fold (arrivals Stderr rest) in Ae.
    rewrite !no_sentinel_app in Ao, Ae.
    apply andb_true_iff in Ao as [Ao Aor].
    apply andb_true_iff in Ao as [Ao1 Ao2].
    apply andb_true_iff in Ae as [Ae Aer].
    apply andb_true_iff in Ae as [Ae1 Ae2].
    cbn [forallb] in Rc. apply andb_true_iff in Rc as [Rc Rcr].
    destruct r as [[o1 e1] [o2 e2] rc], st as [qo qe pr].
    unfold one_round.
    cbn [Drain.put_by_stdout_get Drain.put_by_stderr_get Drain.returncode
         Drain.stdout_queue Drain.stderr_queue Drain.printed fst snd
         put_on] in *.
    destruct rc as [code|]; [discriminate Rc|].
    destruct (get_line_no_sentinel Stdout (qo ++ o1) pr) as [E1 N1];
      [now rewrite no_sentinel_app, Ho, Ao1|].
    destruct (get_line Stdout (qo ++ o1) pr) as [[end1 qo1] pr1].
    cbn [fst snd] in E1, N1. subst end1.
    destruct (get_line_no_sentinel Stderr ((qe ++ e1) ++ e2) pr1) as [E2 N2];
      [now rewrite !no_sentinel_app, He, Ae1, Ae2|].
    destruct (get_line Stderr ((qe ++ e1) ++ e2) pr1) as [[end2 qe2] pr2].
    cbn [fst snd] in E2, N2. subst end2.
    apply IH; cbn [Drain.stdout_queue Drain.stderr_queue]; try assumption.
    now rewrite no_sentinel_app, N1, Ao2.
Qed.

Lemma drain_runs_while_open_and_alive_witness :
  fst (Drain.loop (firstn 2 chatty_rounds) (Drain.State [] [] []))
  = Drain.StillLooping.
Proof.
  apply (drain_runs_while_open_and_alive (firstn 2 chatty_rounds)
           (Drain.State [] [] [])); reflexivity.
Defined.

(** On Unix, when [lsof] succeeds and prints one integer, SIGTERM is sent
    to exactly that process: if the signal is delivered, the stop is
    reported, the script pauses one second and [stop_server] returns True;
    if [os.kill] raises, the error is reported and it returns False. *)
Theorem unix_stop_signals_listed_pid (r : role) (w : World) (out : string)
    (pid : Z) (t : tick) (rest : list tick) :
  win32 w = false ->
  is_bound w (role_port r) ->
  run_result w (lsof_command (role_port r)) = Completed 0 out ->
  Py.int (Py.strip out) = Some pid ->
  (forall e, os_kill w pid = Some e -> is_Exception e = true) ->
  ticks w = t :: rest ->
  interrupt t = false ->
  stop_server (role_word r) w =
  match os_kill w pid with
  | None =>
      (Ok true,
       set_table (apply_exits (exits t) (table w))
         (set_ticks rest
            (set_events
               (events w
                ++ [EPrint Stdout (MsgStopping (role_word r) (role_port r));
                    ERun (lsof_command (role_port r));
                    EOsKill pid;
                    EPrint Stdout (MsgStoppedPid (role_word r) (Py.str pid));
                    ESleep 1]) w)))
  | Some e =>
      (Ok false,
       set_events
         (events w
          ++ [EPrint Stdout (MsgStopping (role_word r) (role_port r));
              ERun (lsof_command (role_port r));
              EOsKill pid;
              EPrint Stdout (MsgErrorStopping (role_word r) e);
              EPrint Stdout MsgStopManually]) w)
  end.
Proof.
  intros W B R I X T Ti. apply is_bound_probe in B.
  rewrite stop_server_role. unfold check_process_running, bindM at 1.
  rewrite B. cbn [negb]. rewrite print_then. wsimpl.
  unfold bindM at 1, try_except, find_and_signal, bindM at 1, get at 1.
  wsimpl. rewrite W.
  unfold bindM at 1, subprocess_run, bindM at 1, emit at 1. wsimpl.
  unfold bindM at 1, get at 1. wsimpl.
  fold (lsof_command (role_port r)). rewrite R.
  cbn [andb negb Z.eqb]. unfold ret at 1. cbn [fst snd].
  assert (Tr : truthy (Some (Py.strip out)) = true).
  { destruct (Py.strip out); [discriminate I|reflexivity]. }
  rewrite Tr. change ((0 =? 0) && true) with true. cbv beta iota.
  rewrite I.
  unfold bindM at 1, os_kill_sigterm, bindM at 1, emit at 1. wsimpl.
  unfold bindM at 1, get at 1. wsimpl.
  destruct (os_kill w pid) as [e|] eqn:K.
  - unfold raise. cbv beta iota. rewrite (X e eq_refl).
    rewrite !print_then. wsimpl. unfold ret. f_equal. world_eq.
  - unfold ret at 1. rewrite print_then. wsimpl.
    unfold bindM at 1. erewrite sleep_tick by exact T. rewrite Ti. wsimpl.
    unfold ret. f_equal. world_eq.
Qed.

Lemma unix_stop_signals_listed_pid_witness :
  stop_server "frontend" stop_found =
  (Ok true,
   set_table []
     (set_ticks []
        (set_events
           [EPrint Stdout (MsgStopping "frontend" 5173);
            ERun (Argv ["lsof"; "-ti"; ":5173"]);
            EOsKill 4242;
            EPrint Stdout (MsgStoppedPid "frontend" "4242");
            ESleep 1] stop_found))).
Proof.
  apply (unix_stop_signals_listed_pid frontend stop_found
           ("4242" ++ String LF EmptyString)%string 4242 quiet []);
    try reflexivity.
  intros e H. discriminate H.
Defined.

Lemma scan_netstat_skip (t : string) (port : Z) (skipped lines : list string)
    (w : World) :
  (forall line, In line skipped -> listening_line port line = false) ->
  scan_netstat t port (skipped ++ lines) w = scan_netstat t port lines w.
Proof.
  induction skipped as [|line rest IH]; intro H; cbn [app scan_netstat].
  - reflexivity.
  - pose proof (H line (or_introl eq_refl)) as L.
    unfold listening_line in L. rewrite L.
    apply IH. intros l I. apply H. now right.
Qed.

(** On Windows, SIGTERM goes to the process named in the last column of
    the first line of [netstat -ano] that mentions both the port and
    LISTENING; when it is delivered, [stop_server] returns True and looks
    at no further line. *)
Theorem windows_stop_signals_first_listener (r : role) (w : World)
    (out : string) (skipped : list string) (line : string)
    (more : list string) (pid : Z) (t : tick) (rest : list tick) :
  win32 w = true ->
  is_bound w (role_port r) ->
  run_result w netstat_command = Completed 0 out ->
  Py.split_on LF out = skipped ++ line :: more ->
  (forall l, In l skipped -> listening_line (role_port r) l = false) ->
  listening_line (role_port r) line = true ->
  Py.int (Py.last_item (Py.split line)) = Some pid ->
  os_kill w pid = None ->
  ticks w = t :: rest ->
  interrupt t = false ->
  stop_server (role_word r) w =
  (Ok true,
   set_table (apply_exits (exits t) (table w))
     (set_ticks rest
        (set_events
           (events w
            ++ [EPrint Stdout (MsgStopping (role_word r) (role_port r));
                ERun netstat_command;
                EOsKill pid;
                EPrint Stdout
                  (MsgStoppedPid (role_word r)
                     (Py.last_item (Py.split line)));
                ESleep 1]) w))).
Proof.
  intros W B R S Sk L I K T Ti. apply is_bound_probe in B.
  rewrite stop_server_role. unfold check_process_running, bindM at 1.
  rewrite B. cbn [negb]. rewrite print_then. wsimpl.
  unfold bindM at 1, try_except, find_and_signal, bindM at 1, get at 1.
  wsimpl. rewrite W.
  unfold bindM at 1, subprocess_run, bindM at 1, emit at 1. wsimpl.
  unfold bindM at 1, get at 1. wsimpl.
  fold netstat_command. rewrite R.
  cbn [andb negb Z.eqb]. unfold ret at 1. cbn [fst snd].
  rewrite S, (scan_netstat_skip _ _ skipped) by exact Sk.
  cbn [scan_netstat]. unfold listening_line in L. rewrite L.
  assert (P : (0 <? List.length (Py.split line))%nat = true).
  { destruct (Py.split line) as [|x xs]; [discriminate I|reflexivity]. }
  rewrite P, I.
  unfold bindM at 1, try_except.
  unfold bindM at 1, os_kill_sigterm, bindM at 1, emit at 1. wsimpl.
  unfold bindM at 1, get at 1. wsimpl. rewrite K.
  unfold ret at 1. rewrite print_then. wsimpl.
  unfold bindM at 1. erewrite sleep_tick by exact T. rewrite Ti. wsimpl.
  unfold ret. f_equal. world_eq.
Qed.

Lemma windows_stop_signals_first_listener_witness :
  stop_server "backend" stop_windows_listener =
  (Ok true,
   set_table []
     (set_ticks []
        (set_events
           [EPrint Stdout (MsgStopping "backend" 5000);
            ERun (Argv ["netstat"; "-ano"]);
            EOsKill 4242;
            EPrint Stdout (MsgStoppedPid "backend" "4242");
            ESleep 1] stop_windows_listener))).
Proof.
  apply (windows_stop_signals_first_listener backend stop_windows_listener
           ("  TCP    127.0.0.1:5000    127.0.0.1:61000    ESTABLISHED    77"
            ++ String LF
              "  TCP    0.0.0.0:5000    0.0.0.0:0    LISTENING    4242")%string
           ["  TCP    127.0.0.1:5000    127.0.0.1:61000    ESTABLISHED    77"]
           "  TCP    0.0.0.0:5000    0.0.0.0:0    LISTENING    4242"
           [] 4242 quiet []);
    try reflexivity.
  intros l [<- | []]. reflexivity.
Defined.

(** Only the backend is launched, the frontend being taken as running. *)
Lemma body_backend_launched (w : World) :
  popen w (npm_command w "run server") = None ->
  start_both_body true false w =
  watch
    (set_events
       (events w
        ++ [EPopen (npm_command w "run server") (List.length (table w));
            EPrint Stdout (MsgProcessStarted backend)])
       (set_table (table w ++ [None])
          (set_processes
             (processes w ++ [(backend, List.length (table w))]) w))).
Proof.
  intros Pb. unfold start_both_body. cbn [negb].
  unfold bindM at 1. unfold bindM at 1.
  rewrite run_npm_command_eq, (Popen_ok _ _ Pb). wsimpl.
  unfold bindM at 1, append_process at 1. wsimpl.
  unfold print at 1, emit at 1. wsimpl.
  unfold bindM at 1, ret at 1.
  unfold watch. f_equal.
  rewrite <- !app_assoc. reflexivity.
Qed.

(** With the frontend's port bound and the backend's free, the joint start
    warns that the frontend is already running, launches the backend only
    and supervises that single process: it stays in the liveness loop for
    as long as nothing happens. *)
Theorem joint_start_frontend_bound (w : World) (n : nat) :
  is_bound w FRONTEND_PORT ->
  bind w BACKEND_PORT = None ->
  popen w (npm_command w "run server") = None ->
  ticks w = repeat quiet (S n) ->
  start_both w =
    (Running,
     set_events
       (events w
        ++ [EPrint Stdout (MsgAlreadyRunningWarn frontend);
            EPrint Stdout MsgStartingBoth;
            EPrint Stdout (MsgWillBeAvailable frontend);
            EPrint Stdout (MsgWillBeAvailable backend);
            EPrint Stdout MsgPressCtrlC;
            EPopen (npm_command w "run server") (List.length (table w));
            EPrint Stdout (MsgProcessStarted backend);
            ESleep 2;
            EThread backend (List.length (table w))]
        ++ repeat (ESleep 1) (S n))
       (set_table (table w ++ [None])
          (set_ticks []
             (set_processes [(backend, List.length (table w))] w)))).
Proof.
  intros F B Pb T.
  rewrite (start_both_launches w true false);
    [|now apply is_bound_probe|now apply free_probe|reflexivity].
  rewrite body_backend_launched by exact Pb. wsimpl.
  rewrite (npm_command_static w) by reflexivity.
  rewrite (watch_quiet n []);
    [|wsimpl; rewrite app_nil_r; exact T
     |wsimpl; cbn [app all_alive forallb snd]; now rewrite alive_new].
  wsimpl.
  rewrite monitor_blocked by reflexivity. wsimpl.
  f_equal. unfold banner, thread_events. cbn [map fst snd app].
  rewrite <- ?app_assoc. cbn [app repeat]. rewrite repeat_snoc.
  reflexivity.
Qed.

Lemma joint_start_frontend_bound_witness :
  start_both frontend_bound_no_args =
    (Running,
     set_events
       [EPrint Stdout (MsgAlreadyRunningWarn frontend);
        EPrint Stdout MsgStartingBoth;
        EPrint Stdout (MsgWillBeAvailable frontend);
        EPrint Stdout (MsgWillBeAvailable backend);
        EPrint Stdout MsgPressCtrlC;
        EPopen (Argv ["/usr/bin/npm"; "run"; "server"]) 0;
        EPrint Stdout (MsgProcessStarted backend);
        ESleep 2;
        EThread backend 0;
        ESleep 1; ESleep 1]
       (set_table [None]
          (set_ticks []
             (set_processes [(backend, 0%nat)] frontend_bound_no_args)))).
Proof.
  apply (joint_start_frontend_bound frontend_bound_no_args 1); reflexivity.
Defined.

(** A child that has exited stays exited. *)
Lemma alive_mark_exit (k : handle) (c : Z) (t : list (option Z))
    (h : handle) :
  alive (mark_exit k c t) h = true -> alive t h = true.
Proof.
  unfold alive. revert k h.
  induction t as [|x t IH]; intros k h; cbn [mark_exit].
  - destruct k; trivial.
  - destruct x as [c'|], k as [|k], h as [|h]; cbn [nth]; trivial;
      try discriminate; apply IH.
Qed.

Lemma alive_apply_exits (xs : list (handle * Z)) (t : list (option Z))
    (h : handle) :
  alive (apply_exits xs t) h = true -> alive t h = true.
Proof.
  unfold apply_exits. revert t.
  induction xs as [|[k c] xs IH]; intros t; cbn [fold_left fst snd].
  - trivial.
  - intro H. apply IH in H. now apply alive_mark_exit in H.
Qed.

Lemma kill_events_in (t : list (option Z)) (ps : list (role * handle))
    (h : handle) :
  In (EKill h) (kill_events t ps) ->
  alive t h = true /\ exists r, In (r, h) ps.
Proof.
  induction ps as [|[r k] ps IH]; cbn [kill_events flat_map snd].
  - intros [].
  - intro H. apply in_app_or in H as [H|H].
    + destruct (alive t k) eqn:A; [|destruct H].
      destruct H as [H|[]]. injection H as ->.
      split; [exact A|]. exists r. now left.
    + destruct (IH H) as [A [r' I]]. split; [exact A|].
      exists r'. now right.
Qed.

Lemma stop_events_in (t : list (option Z)) (ps : list (role * handle))
    (r : role) (h : handle) :
  In (r, h) ps -> alive t h = true ->
  In (ETerminate h) (stop_events t ps).
Proof.
  induction ps as [|[r' k] ps IH]; cbn [stop_events flat_map snd fst].
  - intros [].
  - intros [H|H] A; apply in_or_app.
    + injection H as -> ->. left. rewrite A. now left.
    + right. now apply IH.
Qed.

Lemma no_kill_not_in (l : list event) (h : handle) :
  forallb (fun e => negb (is_kill e)) l = true -> ~ In (EKill h) l.
Proof.
  intros F I. rewrite forallb_forall in F. now apply F in I.
Qed.

Lemma terminate_events_no_kill (t : list (option Z))
    (ps : list (role * handle)) :
  forallb (fun e => negb (is_kill e)) (terminate_events t ps) = true.
Proof.
  induction ps as [|[r k] ps IH]; cbn [terminate_events flat_map snd].
  - reflexivity.
  - rewrite forallb_app. fold (terminate_events t ps). rewrite IH.
    destruct (alive t k); reflexivity.
Qed.

(** The log of the Ctrl+C handler, wherever it stops. *)
Lemma on_interrupt_log (w : World) :
  exists tail,
    events (snd (on_interrupt w)) =
      events w ++ EPrint Stdout MsgStoppingBoth
               :: stop_events (table w) (processes w) ++ ESleep 1 :: tail /\
    forall h, In (EKill h) tail ->
              In (ETerminate h) (stop_events (table w) (processes w)).
Proof.
  destruct (ticks w) as [|g rest] eqn:T.
  - exists []. split; [|intros h []].
    unfold on_interrupt. rewrite print_then. wsimpl.
    unfold bindM at 1, get at 1. wsimpl.
    unfold bindM at 1. rewrite terminate_and_report_eq. wsimpl.
    unfold bindM at 1. rewrite sleep_blocked by exact T.
    wsimpl. now rewrite <- !app_assoc.
  - rewrite (on_interrupt_any g rest w T). cbn [snd]. wsimpl.
    eexists. split; [reflexivity|].
    intros h I. destruct (interrupt g); [destruct I|].
    apply kill_events_in in I. destruct I as [A [r I]].
    apply alive_apply_exits in A. now apply (stop_events_in _ _ r).
Qed.

Lemma probes_or_raise (w : World) :
  (exists f b, is_port_in_use FRONTEND_PORT w = (Ok f, w) /\
               is_port_in_use BACKEND_PORT w = (Ok b, w)) \/
  (exists e, start_both w = (Raise e, w)).
Proof.
  pose proof (is_port_in_use_eq FRONTEND_PORT w) as Pf.
  pose proof (is_port_in_use_eq BACKEND_PORT w) as Pb.
  assert (Rf : forall e, is_port_in_use FRONTEND_PORT w = (Raise e, w) ->
                         start_both w = (Raise e, w)).
  { intros e H. unfold start_both, check_process_running, bindM at 1.
    now rewrite H. }
  assert (Rb : forall f e, is_port_in_use FRONTEND_PORT w = (Ok f, w) ->
                           is_port_in_use BACKEND_PORT w = (Raise e, w) ->
                           start_both w = (Raise e, w)).
  { intros f e H H'. unfold start_both, check_process_running, bindM at 1.
    rewrite H. unfold bindM at 1. now rewrite H'. }
  destruct (bind w FRONTEND_PORT) as [e|];
    [destruct (caught e)|];
    try (right; exists (raised e); now apply Rf);
    (destruct (bind w BACKEND_PORT) as [e'|];
     [destruct (caught e')|]);
    try (right; exists (raised e'); eapply Rb; eassumption);
    left; eauto.
Qed.

(** The shape of the log of a joint start: a first part without any kill,
    then what the Ctrl+C handler does before its pause, then the kills,
    each for a process that the handler has sent a terminate request. *)
Lemma start_both_log_shape (w : World) :
  exists pre mid tail,
    events (snd (start_both w)) = events w ++ pre ++ mid ++ tail /\
    forallb (fun e => negb (is_kill e)) pre = true /\
    forallb (fun e => negb (is_kill e)) mid = true /\
    forall h, In (EKill h) tail -> In (ETerminate h) mid.
Proof.
  assert (Plain : forall (v : World) pre,
             events v = events w ++ pre ->
             forallb (fun e => negb (is_kill e)) pre = true ->
             exists pre mid tail,
               events v = events w ++ pre ++ mid ++ tail /\
               forallb (fun e => negb (is_kill e)) pre = true /\
               forallb (fun e => negb (is_kill e)) mid = true /\
               forall h, In (EKill h) tail -> In (ETerminate h) mid).
  { intros v pre E N. exists pre, [], []. rewrite !app_nil_r.
    repeat split; trivial. }
  destruct (probes_or_raise w) as [[f [b [Pf Pb]]] | [e R]].
  2: { rewrite R. apply (Plain w []); [now rewrite app_nil_r|reflexivity]. }
  destruct (f && b) eqn:FB.
  - apply andb_true_iff in FB as [-> ->].
    rewrite start_both_both_bound;
      [|unfold is_bound; now rewrite Pf|unfold is_bound; now rewrite Pb].
    eapply Plain; [reflexivity|reflexivity].
  - rewrite (start_both_launches w f b Pf Pb FB).
    match goal with
    | |- context [start_both_body f b ?v] =>
        destruct (start_both_body_never_kills f b v) as [eb [Ev Nb]];
        destruct (start_both_body f b v) as [[x | e |] w1]
    end; cbn [snd] in Ev; wsimpl_in Ev.
    + apply (Plain w1 (banner f b ++ eb));
        [now rewrite Ev, <- app_assoc|].
      rewrite forallb_app, Nb. destruct f, b; reflexivity.
    + assert (NB : forallb (fun e => negb (is_kill e)) (banner f b ++ eb)
                   = true)
        by (rewrite forallb_app, Nb; destruct f, b; reflexivity).
      destruct e; cbn [is_Exception];
        try (rewrite on_exception_eq; cbn [snd];
             eapply Plain;
             [wsimpl; rewrite Ev, <- !app_assoc; reflexivity|];
             rewrite !forallb_app, Nb; cbn [forallb is_kill negb andb];
             rewrite terminate_events_no_kill;
             destruct f, b; reflexivity);
        try (apply (Plain w1 (banner f b ++ eb));
             [now rewrite Ev, <- app_assoc|exact NB]).
      destruct (on_interrupt_log w1) as [tail [El Ht]].
      exists (banner f b ++ eb),
             (EPrint Stdout MsgStoppingBoth
              :: stop_events (table w1) (processes w1) ++ [ESleep 1]),
             tail.
      split; [|split; [exact NB|split]].
      * rewrite El, Ev, <- !app_assoc. cbn [app].
        now rewrite <- !app_assoc.
      * cbn [forallb is_kill negb andb]. rewrite forallb_app.
        cbn [forallb is_kill negb andb]. rewrite andb_true_r.
        pose proof (stop_events_no_kill (table w1) (processes w1)) as S.
        clear -S. induction (stop_events (table w1) (processes w1))
          as [|e l IH]; [reflexivity|].
        cbn [existsb forallb] in *. apply orb_false_iff in S as [S1 S2].
        now rewrite S1, IH.
      * intros h I. right. apply in_or_app. left. now apply Ht.
    + apply (Plain w1 (banner f b ++ eb));
        [now rewrite Ev, <- app_assoc|].
      rewrite forallb_app, Nb. destruct f, b; reflexivity.
Qed.

(** In no world does the joint start force-kill a process to which it has
    not sent a terminate request before. *)
Theorem kill_only_after_terminate (w : World) (h : handle)
    (es : list event) :
  events (snd (start_both w)) = events w ++ es ->
  In (EKill h) es ->
  exists es1 es2, es = es1 ++ ETerminate h :: es2 /\ In (EKill h) es2.
Proof.
  intros E I.
  destruct (start_both_log_shape w) as [pre [mid [tail [S [Np [Nm Ht]]]]]].
  rewrite S in E. apply app_inv_head in E. subst es.
  apply in_app_or in I as [I|I]; [now apply no_kill_not_in in I|].
  apply in_app_or in I as [I|I]; [now apply no_kill_not_in in I|].
  destruct (in_split _ _ (Ht h I)) as [m1 [m2 ->]].
  exists (pre ++ m1), (m2 ++ tail).
  split; [now rewrite <- !app_assoc|].
  apply in_or_app. now right.
Qed.

Lemma kill_only_after_terminate_witness :
  exists es1 es2,
    events (snd (start_both ctrl_c_world))
    = es1 ++ ETerminate 0 :: es2 /\ In (EKill 0%nat) es2.
Proof.
  apply (kill_only_after_terminate ctrl_c_world 0
           (events (snd (start_both ctrl_c_world)))).
  - reflexivity.
  - vm_compute. repeat (try (left; reflexivity); right).
Defined.

(** ** The text helpers on the script's inputs *)

Example split_run_dev : Py.split "run dev" = ["run"; "dev"].
Proof. reflexivity. Qed.

Example split_netstat_line :
  Py.split "  TCP    0.0.0.0:5173   0.0.0.0:0    LISTENING    4242"
  = ["TCP"; "0.0.0.0:5173"; "0.0.0.0:0"; "LISTENING"; "4242"].
Proof. reflexivity. Qed.

Example strip_lsof :
  Py.strip ("4242" ++ String (ascii_of_nat 10) EmptyString) = "4242".
Proof. reflexivity. Qed.

Example int_pid : Py.int "4242" = Some 4242.
Proof. reflexivity. Qed.

Example int_two_pids :
  Py.int ("4242" ++ String (ascii_of_nat 10) "4243") = None.
Proof. reflexivity. Qed.

Example int_underscore : Py.int "4_2" = Some 42.
Proof. reflexivity. Qed.

Example int_padded : Py.int "  -0042 " = Some (-42).
Proof. reflexivity. Qed.

Example int_not_a_literal :
  map Py.int ["_42"; "4__2"; "42_"; "+"; "- 42"; "4 2"; "0x2a"; EmptyString]
  = [None; None; None; None; None; None; None; None].
Proof. reflexivity. Qed.

Example isascii_lsof :
  Py.isascii ("4242" ++ String (ascii_of_nat 10) EmptyString) = true.
Proof. reflexivity. Qed.

Example str_port : Py.str 5173 = "5173".
Proof. reflexivity. Qed.

Example lower_cmd : Py.lower "HeLp" = "help".
Proof. reflexivity. Qed.

Example split_lines :
  Py.split_on "," "a,,b," = ["a"; EmptyString; "b"; EmptyString].
Proof. reflexivity. Qed.
